(** * StreamBridge: the bridging pipeline, embedded and verified

    A shallow embedding of the parts of the StreamBridge backend that carry
    the pipeline's guarantees:

    - [utils/encryption.js]         the envelope codec ([Base64],
                                    [Encryption]);
    - [config/environment.js]       the switches read from the environment
                                    ([Process]);
    - [config/kafka.js], [config/rabbitmq.js]
                                    the publish side of the two adapters
                                    ([Broker]), their consume loops
                                    ([KafkaConfig], [RabbitMQConfig]) and
                                    their consumer side ([Backend]);
    - [messaging/errorQueue.js]     retry with backoff and dead-lettering
                                    ([ErrorQueue]);
    - [websocket/server.js]         the fan-out hub ([WebSocketServer]);
    - [messaging/kafka/producer.js] the outbound path ([KafkaProducer]);
    - [api/controllers/messageController.js]
                                    the publish endpoint
                                    ([MessageController]);
    - [messaging/kafka/consumer.js], [messaging/rabbitmq/consumer.js]
                                    the consumer registries ([Consumer]).

    JavaScript values are dynamically typed; objects are finite maps from
    property names to values.  Effects (broker I/O, socket sends, the module
    level registries) are made explicit by state passing; the clock, the
    random source and the initialisation vector are inputs; what kafkajs
    and amqplib answer to a call is a parameter ([Clients]); and a thrown
    exception is an [inl].  The definitions come first, the properties
    after them. *)

From Stdlib Require Import NArith ZArith Lia String Ascii DecimalString DecimalN.
From stdpp Require Import gmap strings list.

Set Warnings "-register-all".
Local Open Scope string_scope.

(** ** JavaScript values *)

(** Numbers are the non-negative integers: every number these modules handle
    (retry counters, millisecond clocks and delays) is one, and below [2^53]
    the arithmetic on doubles coincides with the arithmetic on [N]. *)
Inductive jsval :=
| JUndefined
| JNull
| JBool (b : bool)
| JNum (n : N)
| JStr (s : string)
| JBuf (bytes : string)
| JArr (items : list jsval)
| JObj (o : gmap string jsval).

Module Js.

(** [o.k] on an object: a missing property reads as [undefined]. *)
Definition get (o : gmap string jsval) (k : string) : jsval :=
  default JUndefined (o !! k).

(** [v.k] on any value: reading a property of [undefined] or [null] throws
    a [TypeError] ([None]); strings, numbers, buffers and arrays have no
    property of the names read this way ([queue], [id], [directQueue],
    [key], [broadcast], [broadcastTopics], [x-message-type], [message]). *)
Definition prop (v : jsval) (k : string) : option jsval :=
  match v with
  | JUndefined | JNull => None
  | JObj o => Some (get o k)
  | _ => Some JUndefined
  end.

Definition truthy (v : jsval) : bool :=
  match v with
  | JUndefined | JNull => false
  | JBool b => b
  | JNum n => negb (n =? 0)%N
  | JStr s => negb (String.eqb s "")
  | JBuf _ | JArr _ | JObj _ => true
  end.

(** [a || b] *)
Definition or (a b : jsval) : jsval := if truthy a then a else b.

(** A destructuring default, [{ k = d }]: it applies to [undefined] only. *)
Definition orDefault (a d : jsval) : jsval :=
  match a with
  | JUndefined => d
  | _ => a
  end.

(** [v !== false] *)
Definition notFalse (v : jsval) : bool :=
  match v with
  | JBool false => false
  | _ => true
  end.

(** [Number.prototype.toString()] in radix 10. *)
Definition decimal (n : N) : string := NilEmpty.string_of_uint (N.to_uint n).

(** [String(v)], which is [v.toString()] wherever that is defined; a
    [Buffer] decodes as UTF-8 text, which is its byte string here, and an
    array joins its elements with commas. *)
Fixpoint toString (v : jsval) : string :=
  match v with
  | JUndefined => "undefined"
  | JNull => "null"
  | JBool true => "true"
  | JBool false => "false"
  | JNum n => decimal n
  | JStr s => s
  | JBuf bytes => bytes
  | JArr items =>
    String.concat ","
      (map (fun x => match x with
                     | JUndefined | JNull => ""
                     | _ => toString x
                     end) items)
  | JObj _ => "[object Object]"
  end.

(** [v ? v.toString() : null] *)
Definition toStringOrNull (v : jsval) : jsval :=
  if truthy v then JStr (toString v) else JNull.

(** The largest time value of a [Date], in milliseconds. *)
Definition MAX_TIME : N := 8640000000000000.

(** [s.split(sep)] for a non-empty separator: [cur] is the piece being
    read and [skip] the number of separator characters still to pass. *)
Fixpoint split_go (sep : string) (skip : nat) (cur s : string)
  : list string :=
  match s with
  | EmptyString => [cur]
  | String c rest =>
    match skip with
    | S k => split_go sep k cur rest
    | O =>
      if String.prefix sep s
      then cur :: split_go sep (String.length sep - 1) "" rest
      else split_go sep 0 (cur ++ String c "") rest
    end
  end.

Definition split (sep s : string) : list string := split_go sep 0 "" s.

(** The character [c] does not occur in [s]. *)
Fixpoint lacks (c : ascii) (s : string) : Prop :=
  match s with
  | EmptyString => True
  | String d rest => d <> c /\ lacks c rest
  end.

(** [s.toLowerCase()] on ASCII letters. *)
Definition lower (c : ascii) : ascii :=
  let n := N_of_ascii c in
  if ((65 <=? n) && (n <=? 90))%N then ascii_of_N (n + 32) else c.

Definition toLowerCase (s : string) : string :=
  string_of_list_ascii (map lower (list_ascii_of_string s)).

(** The own enumerable properties an object spread [{...v}] copies. *)
Definition indexed {A} (f : A -> jsval) (l : list A) : gmap string jsval :=
  list_to_map (imap (fun i x => (decimal (N.of_nat i), f x)) l).

Definition spread (v : jsval) : gmap string jsval :=
  match v with
  | JObj o => o
  | JArr items => indexed id items
  | JStr s => indexed (fun c => JStr (String c "")) (list_ascii_of_string s)
  | JBuf s => indexed (fun c => JNum (N_of_ascii c)) (list_ascii_of_string s)
  | _ => ∅
  end.

(** [process.env.K || dflt] *)
Definition env_or (env : gmap string string) (k dflt : string) : string :=
  match env !! k with
  | Some v => if String.eqb v "" then dflt else v
  | None => dflt
  end.

End Js.

(** The host functions the embedding does not compute: ISO-8601 formatting
    of a time value and JSON serialisation. *)
Class Runtime := {
  toISOString : N -> string;
  JSON_stringify : jsval -> string;
  JSON_parse : string -> option jsval      (* [None]: a [SyntaxError] *)
}.

(** ** Exceptions

    An [Error] the source constructs carries its message; the messages of
    the engine's own [TypeError]s and [RangeError]s and of the errors of the
    broker clients are not modelled. *)
Inductive exn :=
| Error (message : string)
| TypeError
| RangeError
| ClientError.      (* raised by a broker client library *)

(** The outcome of a call: it threw, or it returned a value. *)
Definition outcome (A : Type) : Type := exn + A.

Definition returned {A} (r : outcome A) : bool :=
  match r with
  | inr _ => true
  | inl _ => false
  end.

(** [new Date(t).toISOString()]: a [RangeError] beyond the time range. *)
Definition Date_toISOString `{Runtime} (t : N) : outcome string :=
  if (t <=? Js.MAX_TIME)%N then inr (toISOString t) else inl RangeError.

(** ** Serialising a payload

    [typeof v === 'object' ? JSON.stringify(v) : v.toString()], the text of
    a payload in kafka.js, rabbitmq.js and encryption.js.  [null], arrays
    and buffers are objects; [undefined] has no [toString]. *)
Definition textOf `{Runtime} (v : jsval) : outcome string :=
  match v with
  | JUndefined => inl TypeError
  | JNull | JBuf _ | JArr _ | JObj _ => inr (JSON_stringify v)
  | _ => inr (Js.toString v)
  end.

(** ** Base64, as [Buffer] encodes and decodes it *)
Module Base64.

Definition alphabet : list ascii :=
  list_ascii_of_string
    "ABCDEFGHIJKLMNOPQRSTUVWXYZabcdefghijklmnopqrstuvwxyz0123456789+/".

(** Six bits, most significant first. *)
Definition sextet : Type := bool * bool * bool * bool * bool * bool.

Definition index (x : sextet) : nat :=
  let '(b5, b4, b3, b2, b1, b0) := x in
  Nat.b2n b0 + 2 * Nat.b2n b1 + 4 * Nat.b2n b2 + 8 * Nat.b2n b3
  + 16 * Nat.b2n b4 + 32 * Nat.b2n b5.

Definition char (x : sextet) : ascii := nth (index x) alphabet "="%char.

Definition ofIndex (n : N) : sextet :=
  (N.testbit n 5, N.testbit n 4, N.testbit n 3, N.testbit n 2,
   N.testbit n 1, N.testbit n 0).

(** The value of a character of the alphabet; the decoder also takes the
    URL-safe [-] and [_]. *)
Definition value (c : ascii) : option sextet :=
  let n := N_of_ascii c in
  if ((65 <=? n) && (n <=? 90))%N then Some (ofIndex (n - 65))
  else if ((97 <=? n) && (n <=? 122))%N then Some (ofIndex (n - 71))
  else if ((48 <=? n) && (n <=? 57))%N then Some (ofIndex (n + 4))
  else if ((n =? 43) || (n =? 45))%N then Some (ofIndex 62)
  else if ((n =? 47) || (n =? 95))%N then Some (ofIndex 63)
  else None.

(** Three bytes as four sextets. *)
Definition quad (a b c : ascii) : sextet * sextet * sextet * sextet :=
  let '(Ascii a0 a1 a2 a3 a4 a5 a6 a7) := a in
  let '(Ascii b0 b1 b2 b3 b4 b5 b6 b7) := b in
  let '(Ascii c0 c1 c2 c3 c4 c5 c6 c7) := c in
  ((a7, a6, a5, a4, a3, a2), (a1, a0, b7, b6, b5, b4),
   (b3, b2, b1, b0, c7, c6), (c5, c4, c3, c2, c1, c0)).

(** [buffer.toString('base64')] *)
Fixpoint encode (bytes : list ascii) : string :=
  match bytes with
  | [] => ""
  | [a] =>
    let '(w, x, _, _) := quad a zero zero in
    String (char w) (String (char x) "==")
  | [a; b] =>
    let '(w, x, y, _) := quad a b zero in
    String (char w) (String (char x) (String (char y) "="))
  | a :: b :: c :: rest =>
    let '(w, x, y, z) := quad a b c in
    String (char w) (String (char x) (String (char y) (String (char z)
      (encode rest))))
  end.

(** The sextets of a string: characters outside the alphabet are skipped
    and the first padding character ends the input. *)
Fixpoint sextets (s : string) : list sextet :=
  match s with
  | EmptyString => []
  | String c rest =>
    if Ascii.eqb c "="%char then []
    else match value c with
         | Some x => x :: sextets rest
         | None => sextets rest
         end
  end.

Definition byte1 (w x : sextet) : ascii :=
  let '(w5, w4, w3, w2, w1, w0) := w in
  let '(x5, x4, _, _, _, _) := x in
  Ascii x4 x5 w0 w1 w2 w3 w4 w5.

Definition byte2 (x y : sextet) : ascii :=
  let '(_, _, x3, x2, x1, x0) := x in
  let '(y5, y4, y3, y2, _, _) := y in
  Ascii y2 y3 y4 y5 x0 x1 x2 x3.

Definition byte3 (y z : sextet) : ascii :=
  let '(_, _, _, _, y1, y0) := y in
  let '(z5, z4, z3, z2, z1, z0) := z in
  Ascii z0 z1 z2 z3 z4 z5 y0 y1.

Fixpoint bytes (l : list sextet) : list ascii :=
  match l with
  | w :: x :: y :: z :: rest =>
    byte1 w x :: byte2 x y :: byte3 y z :: bytes rest
  | [w; x; y] => [byte1 w x; byte2 x y]
  | [w; x] => [byte1 w x]
  | _ => []
  end.

(** [Buffer.from(s, 'base64')] *)
Definition decode (s : string) : list ascii := bytes (sextets s).

End Base64.

(** ** The cipher of the [crypto] module

    What [createCipheriv('aes-256-gcm', key, iv)] and [createDecipheriv]
    compute, on byte sequences: the ciphertext [update] and [final] produce,
    the tag [getAuthTag] returns for a ciphertext, the bytes the decipher's
    [update] produces, whether [setAuthTag] takes a tag of a given length,
    and whether the decipher's [final] accepts the tag it was given. *)
Class Cipher := {
  gcmEncrypt : list ascii -> list ascii -> list ascii -> list ascii;
  gcmTag : list ascii -> list ascii -> list ascii -> list ascii;
  gcmDecrypt : list ascii -> list ascii -> list ascii -> list ascii;
  tagLengthAccepted : nat -> bool;
  gcmVerify : list ascii -> list ascii -> list ascii -> list ascii -> bool
}.

(** One byte of [after] differs from [before], nothing else. *)
Definition flipped (before after : list ascii) : Prop :=
  exists (i : nat) (a b : ascii),
    before !! i = Some a /\ a <> b /\ after = <[i := b]> before.

(** What is assumed of AES-256-GCM under the key [k]: decryption inverts
    encryption; tags have 128 bits and such a tag is taken; [final] accepts
    the tag of the ciphertext and no other tag of full length; the tag binds
    the ciphertext, so that changing one byte of it changes the tag. *)
Class CipherLaws `{Cipher} (k : list ascii) : Prop := {
  decrypt_encrypt : forall iv p, gcmDecrypt k iv (gcmEncrypt k iv p) = p;
  tag_length : forall iv c, length (gcmTag k iv c) = 16%nat;
  full_tag_accepted : tagLengthAccepted 16 = true;
  verify_own_tag : forall iv c, gcmVerify k iv (gcmTag k iv c) c = true;
  verify_full_tag : forall iv t c,
    length t = 16%nat -> gcmVerify k iv t c = true -> t = gcmTag k iv c;
  tag_binds : forall iv c c', flipped c c' -> gcmTag k iv c <> gcmTag k iv c'
}.

(** ** utils/encryption.js: the envelope codec

    [ENCRYPTION_ALGORITHM] is ['aes-256-gcm'], its default, so that the
    tests for a GCM or CCM mode succeed.  A string is its UTF-8 encoding, so
    that encoding and decoding text are the passage between [string] and
    [list ascii]. *)
Module Encryption.

Definition ENCRYPTION_KEY : string := "01234567890123456789012345678901".
Definition IV_LENGTH : nat := 16.
Definition AUTH_TAG_LENGTH : nat := 16.

(** [createCipheriv] and [createDecipheriv] throw unless the key has the 32
    bytes of AES-256 and the initialization vector is not empty. *)
Definition accepts (key iv : list ascii) : bool :=
  Nat.eqb (length key) 32 && negb (Nat.eqb (length iv) 0).

(** [base64(iv):base64(authTag):base64(encryptedData)] *)
Definition format (iv authTag encrypted : list ascii) : string :=
  Base64.encode iv ++ ":" ++ Base64.encode authTag ++ ":"
  ++ Base64.encode encrypted.

(** [encryptData(data)] under [key], with [iv] the bytes drawn by
    [crypto.randomBytes(IV_LENGTH)]. *)
Definition encryptData `{Cipher} (key : string) (iv : list ascii)
    (data : string) : outcome string :=
  let k := list_ascii_of_string key in
  if accepts k iv then
    let encrypted := gcmEncrypt k iv (list_ascii_of_string data) in
    let authTag := gcmTag k iv encrypted in
    inr (format iv authTag encrypted)
  else inl (Error "Failed to encrypt data").

(** [decryptData(encryptedData)] under [key].  Whatever is thrown on the way
    is caught and replaced by the one error. *)
Definition decryptData `{Cipher} (key : string) (encryptedData : string)
  : outcome string :=
  let k := list_ascii_of_string key in
  let failed := inl (Error "Failed to decrypt data") in
  match Js.split ":" encryptedData with
  | [ivStr; authTagStr; encrypted] =>
    let iv := Base64.decode ivStr in
    if accepts k iv then
      let authTag :=
        if String.eqb authTagStr "" then None
        else Some (Base64.decode authTagStr) in
      let decrypted := gcmDecrypt k iv (Base64.decode encrypted) in
      match authTag with
      | Some t =>
        if tagLengthAccepted (length t)
           && gcmVerify k iv t (Base64.decode encrypted)
        then inr (string_of_list_ascii decrypted)
        else failed
      | None => failed      (* [final] without a tag *)
      end
    else failed
  | _ => failed
  end.

End Encryption.

(** ** The process environment

    What the publish functions and the consume callbacks read from
    [process.env], each variable compared with ['true'], and
    [ENCRYPTION_KEY] of encryption.js, which is [process.env.ENCRYPTION_KEY]
    or its default.  The environment stays as it is while the process runs,
    so that config/environment.js, which reads it once, holds the same
    values. *)
Module Process.

Record env := mkEnv {
  ENCRYPT_MESSAGES : bool;
  ENCRYPTION_KEY : string;
  RABBITMQ_PUBLISHER_CONFIRMS : bool;
  REQUEUE_FAILED_MESSAGES : bool
}.

End Process.

(** ** config/kafka.js and config/rabbitmq.js: the publish side

    What the two configuration modules hand to the broker clients.  A record
    of the outbox is one message a client has taken, [producer.send] having
    resolved or [channel.publish] having returned; it is named by the
    arguments of the publish call, and what travels is the [messageValue]
    or the [msgContent] made of its message. *)
Inductive published :=
| KafkaRecord (topic : string) (message : jsval) (key : jsval)
              (headers : gmap string jsval)
| QueueRecord (exchange : string) (routingKey : jsval) (message : jsval)
              (options : gmap string jsval).

Inductive assertion :=
| AssertExchange (exchange : string) (type options : jsval)
| AssertQueue (queue : string) (options : jsval).

Record broker := mkBroker {
  producer : bool;            (* kafka.js: [producer] is not null *)
  producerChannel : bool;     (* rabbitmq.js: [producerChannel] is not null *)
  asserted : list assertion;  (* exchanges and queues asserted *)
  calls : nat;                (* calls of the publish functions *)
  outbox : list published
}.

(** The broker clients, kafkajs and amqplib, as the publish functions meet
    them, each answer given in the state the modules are in: what
    [producer.send] resolves to for a record that travels as the given
    text, whether [channel.assertExchange] and [channel.assertQueue]
    resolve, what [channel.publish] returns, and whether
    [channel.waitForConfirms] resolves.  An [inl] is what the call throws
    or rejects with. *)
Class Clients := {
  producerSend : broker -> published -> string -> outcome jsval;
  channelAssert : broker -> assertion -> outcome unit;
  channelPublish : broker -> published -> string -> outcome bool;
  waitForConfirms : broker -> outcome unit
}.

Module Broker.

Definition called (b : broker) : broker :=
  mkBroker (producer b) (producerChannel b) (asserted b) (S (calls b))
           (outbox b).

Definition send (r : published) (b : broker) : broker :=
  mkBroker (producer b) (producerChannel b) (asserted b) (calls b)
           (outbox b ++ [r]).

Definition assert (a : assertion) (b : broker) : broker :=
  mkBroker (producer b) (producerChannel b) (asserted b ++ [a]) (calls b)
           (outbox b).

(** [messageValue] of kafka.js [publishMessage]: the text of the message,
    encrypted when [process.env.ENCRYPT_MESSAGES === 'true'].  [iv] are the
    bytes [encryptData] draws. *)
Definition messageValue `{Runtime} `{Cipher} (ENCRYPT_MESSAGES : bool)
    (key : string) (iv : list ascii) (message : jsval) : outcome string :=
  match textOf message with
  | inl e => inl e
  | inr text =>
    if ENCRYPT_MESSAGES then Encryption.encryptData key iv text
    else inr text
  end.

(** [msgContent] of rabbitmq.js [publishMessage], as text: a buffer as it
    is, anything else serialised, and the whole encrypted when
    [process.env.ENCRYPT_MESSAGES === 'true']. *)
Definition msgContent `{Runtime} `{Cipher} (ENCRYPT_MESSAGES : bool)
    (key : string) (iv : list ascii) (message : jsval) : outcome string :=
  let plain :=
    match message with
    | JBuf bytes => inr bytes
    | _ => textOf message
    end in
  match plain with
  | inl e => inl e
  | inr text =>
    if ENCRYPT_MESSAGES then Encryption.encryptData key iv text
    else inr text
  end.

(** kafka.js [publishMessage(topic, message, key = null, headers = {})]:
    the producer must be there, the value is made (serialising
    [undefined] throws, and so does [encryptData] under a key the cipher
    refuses), and the record is handed to [producer.send], whose rejection
    is thrown on. *)
Definition publishToKafka `{Runtime} `{Cipher} `{Clients}
    (process : Process.env) (iv : list ascii) (topic : string)
    (message key : jsval) (headers : gmap string jsval) (b : broker)
  : broker * outcome jsval :=
  let b := called b in
  if producer b then
    match messageValue (Process.ENCRYPT_MESSAGES process)
            (Process.ENCRYPTION_KEY process) iv message with
    | inl e => (b, inl e)
    | inr value =>
      let r := KafkaRecord topic message (Js.toStringOrNull key) headers in
      match producerSend b r value with
      | inl e => (b, inl e)
      | inr result => (send r b, inr result)
      end
    end
  else (b, inl (Error "Kafka producer not initialized")).

(** rabbitmq.js [assertExchange] and [assertQueue] on the producer channel:
    the assertion is recorded when the client resolves. *)
Definition asserting `{Clients} (a : assertion) (b : broker)
  : broker * outcome unit :=
  match channelAssert b a with
  | inl e => (b, inl e)
  | inr _ => (assert a b, inr tt)
  end.

(** rabbitmq.js [publishMessage(exchange, routingKey, message, options)]:
    the channel must be there, a named exchange is asserted, the content is
    made, and the record is handed to [channel.publish].  Without publisher
    confirms the result is what [channel.publish] returned; with them it
    is [true] once [waitForConfirms] resolves, and the call rejects, the
    record having gone, when that rejects. *)
Definition publishToRabbitMQ `{Runtime} `{Cipher} `{Clients}
    (process : Process.env) (iv : list ascii) (exchange : string)
    (routingKey message : jsval) (options : gmap string jsval) (b : broker)
  : broker * outcome jsval :=
  let b := called b in
  if producerChannel b then
    let '(b, exchanged) :=
      if String.eqb exchange "" then (b, inr tt)
      else asserting (AssertExchange exchange
                        (Js.or (Js.get options "exchangeType") (JStr "topic"))
                        (Js.get options "exchangeOptions")) b in
    match exchanged,
          msgContent (Process.ENCRYPT_MESSAGES process)
            (Process.ENCRYPTION_KEY process) iv message with
    | inl e, _ | inr _, inl e => (b, inl e)
    | inr _, inr content =>
      let r := QueueRecord exchange routingKey message options in
      match channelPublish b r content with
      | inl e => (b, inl e)
      | inr publishResult =>
        let b := send r b in
        if Process.RABBITMQ_PUBLISHER_CONFIRMS process then
          match waitForConfirms b with
          | inl e => (b, inl e)
          | inr _ => (b, inr (JBool true))
          end
        else (b, inr (JBool publishResult))
      end
    end
  else (b, inl (Error "RabbitMQ producer channel not initialized")).

(** rabbitmq.js [publishToQueue(queue, message, options)]: asserts the
    queue, then publishes to the default exchange with the queue name as
    routing key. *)
Definition publishToQueue `{Runtime} `{Cipher} `{Clients}
    (process : Process.env) (iv : list ascii) (queue : string)
    (message : jsval) (options : gmap string jsval) (b : broker)
  : broker * outcome jsval :=
  let b := called b in
  if producerChannel b then
    match asserting (AssertQueue queue (Js.get options "queueOptions")) b with
    | (b, inl e) => (b, inl e)
    | (b, inr _) =>
      publishToRabbitMQ process iv "" (JStr queue) message options b
    end
  else (b, inl (Error "RabbitMQ producer channel not initialized")).

End Broker.

(** ** messaging/errorQueue.js: failure recovery *)
Module ErrorQueue.

(** The module's configuration: [process.env] and the parsed
    [MAX_RETRIES = parseInt(process.env.MAX_RETRIES || '3')]. *)
Record config := mkConfig {
  env : gmap string string;
  MAX_RETRIES : N
}.

Definition defaults : config := mkConfig ∅ 3.

(** The failure context the adapters pass in.  [retryCount] is absent
    ([None]) or a counter. *)
Record messageData := mkMessageData {
  topic : jsval;
  queue : jsval;
  message : option (gmap string jsval);   (* [None]: undefined or null *)
  error : jsval;
  retryCount : option N
}.

Definition withRetryCount (md : messageData) (n : N) : messageData :=
  mkMessageData (topic md) (queue md) (message md) (error md) (Some n).

(** The contexts the adapters build when a handler throws: kafka.js, the
    [catch] of [eachMessage], with [{ topic, message, error }], and
    rabbitmq.js, the [catch] of the consume callback, with
    [{ queue, message: msg, error }].  Neither sets [retryCount]. *)
Definition kafkaFailure (topic : string) (message : gmap string jsval)
    (error : jsval) : messageData :=
  mkMessageData (JStr topic) JUndefined (Some message) error None.

Definition rabbitmqFailure (queue : string) (msg : gmap string jsval)
    (error : jsval) : messageData :=
  mkMessageData JUndefined (JStr queue) (Some msg) error None.

(** The [originalMessage] literal; [None] when [messageData.message] is
    undefined or null, so that reading its properties throws. *)
Definition originalMessage (source : string) (md : messageData)
  : option jsval :=
  m ← message md;
  if String.eqb source "kafka" then
    Some (JObj (<["headers" := Js.or (Js.get m "headers") (JObj ∅)]>
               (<["value" := Js.toStringOrNull (Js.get m "value")]>
               (<["key" := Js.toStringOrNull (Js.get m "key")]>
               (<["offset" := Js.get m "offset"]>
               (<["partition" := Js.get m "partition"]>
               {["topic" := topic md]}))))))
  else
    Some (JObj (<["fields" := Js.or (Js.get m "fields") (JObj ∅)]>
               (<["properties" := Js.or (Js.get m "properties") (JObj ∅)]>
               (<["content" := Js.toStringOrNull (Js.get m "content")]>
               {["queue" := queue md]})))).

(** [Math.pow(2, errorMessage.retryCount) * 1000].  [retryCount] is a
    number in every record this module builds; [None] is [NaN], the result
    for an absent [retryCount], and stands for any other value too (which
    JavaScript would first coerce to a number). *)
Definition retryDelayMs (errorMessage : gmap string jsval) : option N :=
  match Js.get errorMessage "retryCount" with
  | JNum n => Some (2 ^ n * 1000)%N
  | _ => None
  end.

(** A call that returns [true] unless the publish threw. *)
Definition orRethrow (r : broker * outcome jsval) : broker * outcome bool :=
  match r with
  | (b, inr _) => (b, inr true)
  | (b, inl e) => (b, inl e)
  end.

(** [sendToRetryQueue(source, errorMessage)], reading the clock at [now].
    A [NaN] delay makes an invalid [Date], whose [toISOString] throws. *)
Definition sendToRetryQueue `{Runtime} `{Cipher} `{Clients}
    (process : Process.env) (iv : list ascii) (cfg : config)
    (source : string) (errorMessage : gmap string jsval) (now : N)
    (b : broker) : broker * outcome bool :=
  match retryDelayMs errorMessage with
  | None => (b, inl RangeError)
  | Some delay =>
    match Date_toISOString (now + delay) with
    | inl e => (b, inl e)
    | inr retryAt =>
      let retryMessage :=
        <["retryDelay" := JNum delay]>
          (<["retryAt" := JStr retryAt]> errorMessage) in
      if String.eqb source "kafka" then
        let retryTopic :=
          Js.env_or (env cfg) "RETRY_TOPIC" "streambridge.retry" in
        orRethrow
          (Broker.publishToKafka process iv retryTopic (JObj retryMessage)
             JNull ∅ b)
      else
        let retryQueue :=
          Js.env_or (env cfg) "RETRY_QUEUE" "streambridge.retry" in
        match Js.prop (Js.get errorMessage "originalMessage") "queue" with
        | None => (b, inl TypeError)
        | Some origin =>
          orRethrow
            (Broker.publishToQueue process iv retryQueue (JObj retryMessage)
               (<["messageOptions" :=
                    JObj {["expiration" := JStr (Js.decimal delay)]}]>
                {["queueOptions" :=
                    JObj (<["messageTtl" := JNum delay]>
                         (<["deadLetterRoutingKey" := origin]>
                         {["deadLetterExchange" := JStr ""]}))]})
               b)
        end
    end
  end.

(** [sendToDeadLetterQueue(source, errorMessage)] *)
Definition sendToDeadLetterQueue `{Runtime} `{Cipher} `{Clients}
    (process : Process.env) (iv : list ascii) (cfg : config)
    (source : string) (errorMessage : gmap string jsval) (now : N)
    (b : broker) : broker * outcome bool :=
  match Date_toISOString now with
  | inl e => (b, inl e)
  | inr movedToDLQ =>
    let dlqMessage :=
      <["finalStatus" := JStr "failed"]>
        (<["movedToDLQ" := JStr movedToDLQ]> errorMessage) in
    if String.eqb source "kafka" then
      let dlqTopic := Js.env_or (env cfg) "DLQ_TOPIC" "streambridge.dlq" in
      orRethrow
        (Broker.publishToKafka process iv dlqTopic (JObj dlqMessage) JNull ∅
           b)
    else
      let dlqQueue := Js.env_or (env cfg) "DLQ_QUEUE" "streambridge.dlq" in
      orRethrow
        (Broker.publishToQueue process iv dlqQueue (JObj dlqMessage)
           {["queueOptions" := JObj {["durable" := JBool true]}]} b)
  end.

(** The [errorMessage] literal of [handleFailedMessage]. *)
Definition errorRecord (source timestamp : string) (md : messageData)
    (original : jsval) : gmap string jsval :=
  <["originalMessage" := original]>
    (<["retryCount" := JNum (default 0%N (retryCount md))]>
    (<["error" := error md]>
    (<["timestamp" := JStr timestamp]>
    {["source" := JStr source]}))).

(** [handleFailedMessage(source, messageData)]: [t0] is the clock when the
    record is built, [t1] when it is sent, and [iv] the bytes drawn if the
    record is encrypted.  Every exception is caught and turns into the
    result [false]. *)
Definition handleFailedMessage `{Runtime} `{Cipher} `{Clients}
    (process : Process.env) (iv : list ascii) (cfg : config)
    (source : string) (md : messageData) (t0 t1 : N) (b : broker)
  : broker * bool :=
  match Date_toISOString t0, originalMessage source md with
  | inr timestamp, Some original =>
    let errorMessage := errorRecord source timestamp md original in
    let n := default 0%N (retryCount md) in
    if (n <? MAX_RETRIES cfg)%N then
      let '(b', r) :=
        sendToRetryQueue process iv cfg source
          (<["retryCount" := JNum (n + 1)]> errorMessage) t1 b in
      (b', returned r)
    else
      let '(b', r) :=
        sendToDeadLetterQueue process iv cfg source errorMessage t1 b in
      (b', returned r)
  | _, _ => (b, false)
  end.

(** *** Reading the outbox *)

Definition body (r : published) : gmap string jsval :=
  match r with
  | KafkaRecord _ (JObj m) _ _ | QueueRecord _ _ (JObj m) _ => m
  | _ => ∅
  end.

(** The topic or the queue a record went to. *)
Definition destination (r : published) : jsval :=
  match r with
  | KafkaRecord topic _ _ _ => JStr topic
  | QueueRecord _ routingKey _ _ => routingKey
  end.

(** [process.env.RETRY_TOPIC || 'streambridge.retry'], or the queue's. *)
Definition retryDestination (cfg : config) (source : string) : string :=
  if String.eqb source "kafka"
  then Js.env_or (env cfg) "RETRY_TOPIC" "streambridge.retry"
  else Js.env_or (env cfg) "RETRY_QUEUE" "streambridge.retry".

(** [process.env.DLQ_TOPIC || 'streambridge.dlq'], or the queue's. *)
Definition deadLetterDestination (cfg : config) (source : string) : string :=
  if String.eqb source "kafka"
  then Js.env_or (env cfg) "DLQ_TOPIC" "streambridge.dlq"
  else Js.env_or (env cfg) "DLQ_QUEUE" "streambridge.dlq".

(** What a call has added to the outbox, given whether it succeeded: one
    record when it did; when it did not, nothing, unless the source is
    RabbitMQ under publisher confirms, where the record can have gone
    before its confirmation failed. *)
Definition added (process : Process.env) (source : string)
    (succeeded : bool) (news : list published) : Prop :=
  (succeeded = true -> length news = 1%nat)
  /\ (succeeded = false ->
      news = []
      \/ String.eqb source "kafka" = false
         /\ Process.RABBITMQ_PUBLISHER_CONFIRMS process = true
         /\ length news = 1%nat).

(** A retry record carries [retryAt]; a dead letter carries
    [finalStatus: 'failed']. *)
Definition isRetry (r : published) : bool :=
  bool_decide (is_Some (body r !! "retryAt")).

Definition isDeadLetter (r : published) : bool :=
  match body r !! "finalStatus" with
  | Some (JStr s) => String.eqb s "failed"
  | _ => false
  end.

Definition recordedRetryCount (r : published) : option N :=
  match body r !! "retryCount" with
  | Some (JNum n) => Some n
  | _ => None
  end.

(** How the record of a failure whose context holds the retry count [n]
    is marked: a retry record with the count [n + 1] for the retry
    destination below the bound, a dead letter with the count [n] for the
    dead-letter destination at the bound and beyond. *)
Definition marked (cfg : config) (source : string) (n : N)
    (r : published) : Prop :=
  if (n <? MAX_RETRIES cfg)%N
  then isRetry r = true /\ isDeadLetter r = false
       /\ recordedRetryCount r = Some (n + 1)%N
       /\ destination r = JStr (retryDestination cfg source)
  else isRetry r = false /\ isDeadLetter r = true
       /\ recordedRetryCount r = Some n
       /\ destination r = JStr (deadLetterDestination cfg source).

End ErrorQueue.


(** ** websocket/server.js: the fan-out hub *)
Module WebSocketServer.

Inductive readyState := CONNECTING | OPEN | CLOSING | CLOSED.

(** A socket of the [ws] library: its state and the frames handed to it. *)
Record socket := mkSocket {
  state : readyState;
  sent : list string
}.

(** [ws.send(data)]: throws while connecting ([None]), transmits when open,
    and drops the frame once the socket is closing or closed. *)
Definition send (data : string) (ws : socket) : option socket :=
  match state ws with
  | CONNECTING => None
  | OPEN => Some (mkSocket OPEN (sent ws ++ [data]))
  | _ => Some ws
  end.

(** An entry of the [clients] map. *)
Record client := mkClient {
  id : string;
  ws : socket;
  topics : list string;
  userId : string
}.

Definition withSocket (c : client) (s : socket) : client :=
  mkClient (id c) s (topics c) (userId c).

(** The module state: whether [wss] is set, and the values of [clients] in
    insertion order, the order [forEach] visits them in. *)
Record server := mkServer {
  wss : bool;
  clients : list client
}.

(** [client.topics.includes(v)] *)
Definition includes (l : list string) (v : jsval) : bool :=
  match v with
  | JStr s => existsb (String.eqb s) l
  | _ => false
  end.

(** [topics.some(topic => client.topics.includes(topic) ||
                          client.topics.includes('*'))] *)
Definition hasMatchingTopic (topics : list jsval) (c : client) : bool :=
  existsb (fun topic => includes (WebSocketServer.topics c) topic
                        || includes (WebSocketServer.topics c) (JStr "*"))
          topics.

(** [Array.isArray(topics) && topics.length > 0] *)
Definition hasTopicFilter (topics : jsval) : bool :=
  match topics with
  | JArr (_ :: _) => true
  | _ => false
  end.

Definition topicList (topics : jsval) : list jsval :=
  match topics with
  | JArr l => l
  | _ => []
  end.

(** The body of the [forEach] callback for one client: the client afterwards
    and the new [sentCount]. *)
Definition visit (topics : jsval) (messageString : string) (c : client)
    (sentCount : nat) : client * nat :=
  match state (ws c) with
  | OPEN =>
    if hasTopicFilter topics && negb (hasMatchingTopic (topicList topics) c)
    then (c, sentCount)
    else
      match send messageString (ws c) with
      | Some s => (withSocket c s, S sentCount)
      | None => (c, sentCount)       (* caught and logged *)
      end
  | _ => (c, sentCount)
  end.

Fixpoint forEach (f : client -> nat -> client * nat) (cs : list client)
    (sentCount : nat) : list client * nat :=
  match cs with
  | [] => ([], sentCount)
  | c :: cs =>
    let '(c', n) := f c sentCount in
    let '(cs', n') := forEach f cs n in
    (c' :: cs', n')
  end.

(** [typeof message === 'string' ? message : JSON.stringify(message)].
    For [undefined], which [JSON.stringify] leaves [undefined],
    [JSON_stringify] stands for the empty frame [ws.send] makes of it. *)
Definition messageString `{Runtime} (message : jsval) : string :=
  match message with
  | JStr s => s
  | _ => JSON_stringify message
  end.

(** [broadcast(message, topics = [])]: the result is [None] for the
    [undefined] returned when the server is not initialised. *)
Definition broadcast `{Runtime} (message topics : jsval) (s : server)
  : server * option nat :=
  if wss s then
    let topics := match topics with JUndefined => JArr [] | _ => topics end in
    let '(cs, sentCount) :=
      forEach (visit topics (messageString message)) (clients s) 0 in
    (mkServer true cs, Some sentCount)
  else (s, None).

(** Whether the callback sends to a client. *)
Definition sends (topics : jsval) (c : client) : bool :=
  match state (ws c) with
  | OPEN => negb (hasTopicFilter topics
                  && negb (hasMatchingTopic (topicList topics) c))
  | _ => false
  end.

(** The observer's socket was handed the frame. *)
Definition received (frame : string) (before after : client) : Prop :=
  sent (ws after) = (sent (ws before) ++ [frame])%list.

(** The number of positions at which a socket was handed one more frame. *)
Fixpoint deliveries (before after : list client) : nat :=
  match before, after with
  | c :: cs, c' :: cs' =>
    (if Nat.eqb (length (sent (ws c'))) (S (length (sent (ws c))))
     then 1 else 0) + deliveries cs cs'
  | _, _ => 0
  end.

End WebSocketServer.


(** ** The collaborators of the delivery pipeline *)

(** api/validators/messageValidator.js: [validateMessage(messageType,
    message)] resolves to [{ valid, errors, error }] and never throws.  The
    schema check itself is the validator library's. *)
Module MessageValidator.

Record result := mkResult {
  valid : bool;
  errors : jsval;
  error : jsval
}.

End MessageValidator.

Class Validator := {
  validateMessage : jsval -> jsval -> MessageValidator.result
}.

(** metrics/prometheus.js: the counters and timers touched. *)
Inductive metric :=
| MessagePublish (protocol destination : string) (messageType : jsval)
                 (status : string)
| MessageConsume (protocol destination : string) (messageType : jsval)
                 (status : string)
| TimerStart (protocol destination : string) (messageType : jsval)
             (operation : string)
| TimerEnd (isError : bool).

(** Everything a delivery can touch. *)
Record world := mkWorld {
  brokers : broker;
  hub : WebSocketServer.server;
  metrics : list metric
}.

Definition withBroker (w : world) (b : broker) : world :=
  mkWorld b (hub w) (metrics w).

Definition withHub (w : world) (h : WebSocketServer.server) : world :=
  mkWorld (brokers w) h (metrics w).

Definition record (w : world) (ms : list metric) : world :=
  mkWorld (brokers w) (hub w) (metrics w ++ ms).

(** [broadcast(wsMessage, broadcastTopics)] followed by the debug line's
    [broadcastTopics.join(', ')], which throws unless the topics have a
    [join]: an array has one, and so has a buffer, which is a typed
    array. *)
Definition broadcastAndLog `{Runtime} (wsMessage broadcastTopics : jsval)
    (w : world) : world * outcome unit :=
  let w := withHub w (WebSocketServer.broadcast wsMessage broadcastTopics
                        (hub w)).1 in
  match broadcastTopics with
  | JArr _ | JBuf _ => (w, inr tt)
  | _ => (w, inl TypeError)
  end.

(** ** messaging/kafka/producer.js *)
Module KafkaProducer.

(** The headers attached to a published message. *)
Definition headersOf (options : gmap string jsval) (transactionId : jsval)
    (publishedAt : string) : gmap string jsval :=
  <["x-message-type" := Js.or (Js.get options "messageType") (JStr "default")]>
    (<["x-published-by" := Js.or (Js.get options "userId") (JStr "system")]>
    (<["x-published-at" := JStr publishedAt]>
    (<["x-transaction-id" := transactionId]>
    (Js.spread (Js.or (Js.get options "headers") (JObj ∅)))))).

Definition wsMessageOf (topic timestamp : string) (transactionId : jsval)
    (headers : gmap string jsval) (message : jsval) : jsval :=
  JObj (<["message" := message]>
       (<["headers" := JObj headers]>
       (<["transactionId" := transactionId]>
       (<["timestamp" := JStr timestamp]>
       (<["topic" := JStr topic]>
       (<["source" := JStr "kafka"]>
       {["type" := JStr "message"]})))))).

(** The [try] block of [produceMessage]. *)
Definition attempt `{Runtime} `{Validator} `{Cipher} `{Clients}
    (VALIDATE_MESSAGES : bool) (process : Process.env) (iv : list ascii)
    (topic : string) (message : jsval) (options : gmap string jsval)
    (transactionId : jsval) (clock : nat -> N) (w : world)
  : world * outcome jsval :=
  match Date_toISOString (clock 1%nat) with
  | inl e => (w, inl e)
  | inr publishedAt =>
    let headers := headersOf options transactionId publishedAt in
    let messageType := Js.or (Js.get options "messageType") (JStr "default") in
    let validationResult := validateMessage messageType message in
    if VALIDATE_MESSAGES && negb (MessageValidator.valid validationResult)
       && Js.truthy (Js.get options "requireValidation")
    then
      (w, inl (Error ("Message validation failed: "
                      ++ Js.toString (MessageValidator.error validationResult))))
    else
      let key := Js.or (Js.get options "key") JNull in
      match Broker.publishToKafka process iv topic message key headers
              (brokers w) with
      | (b, inl e) => (withBroker w b, inl e)
      | (b, inr result) =>
        let w := record (withBroker w b)
                   [MessagePublish "kafka" topic messageType "success";
                    TimerEnd false] in
        let done :=
          JObj (<["result" := result]>
               (<["transactionId" := transactionId]>
               {["success" := JBool true]})) in
        if Js.notFalse (Js.get options "broadcast") then
          let broadcastTopics :=
            Js.or (Js.get options "broadcastTopics")
                  (JArr [JStr topic; JStr "kafka"; JStr "all"]) in
          match Date_toISOString (clock 2%nat) with
          | inl e => (w, inl e)
          | inr timestamp =>
            match broadcastAndLog
                    (wsMessageOf topic timestamp transactionId headers message)
                    broadcastTopics w with
            | (w, inl e) => (w, inl e)
            | (w, inr _) => (w, inr done)
            end
          end
        else (w, inr done)
      end
  end.

(** [produceMessage(topic, message, options = {})].  [clock k] is the value
    of the [k]-th clock expression of the source, [random] the suffix drawn
    for a generated transaction id and [iv] the bytes drawn if the message
    is encrypted. *)
Definition produceMessage `{Runtime} `{Validator} `{Cipher} `{Clients}
    (VALIDATE_MESSAGES : bool) (process : Process.env) (iv : list ascii)
    (topic : string) (message : jsval) (options : gmap string jsval)
    (clock : nat -> N) (random : string) (w : world)
  : world * outcome jsval :=
  let transactionId :=
    Js.or (Js.get options "transactionId")
          (JStr ("kafka-" ++ topic ++ "-" ++ Js.decimal (clock 0%nat)
                 ++ "-" ++ random)) in
  let w := record w [TimerStart "kafka" topic
                       (Js.or (Js.get options "messageType") (JStr "unknown"))
                       "publish"] in
  match attempt VALIDATE_MESSAGES process iv topic message options
          transactionId clock w
  with
  | (w, inr r) => (w, inr r)
  | (w, inl e) =>
    (record w [MessagePublish "kafka" topic
                 (Js.or (Js.get options "messageType") (JStr "unknown"))
                 "error";
               TimerEnd true],
     inl e)
  end.

End KafkaProducer.

(** ** api/controllers/messageController.js *)
Module MessageController.

(** What [publishMessage] answers: its status and the fields of its body. *)
Inductive response :=
| BadRequest (message : string) (errors : jsval)                (* 400 *)
| Published (transactionId : string) (destination : jsval)
            (protocol timestamp : string)                       (* 200 *)
| Failed (e : exn).                                             (* 500 *)

(** [req.user?.id || 'anonymous'] *)
Definition userIdOf (user : jsval) : jsval :=
  Js.or (default JUndefined (Js.prop user "id")) (JStr "anonymous").

(** The protocol and the destination name of a [protocol://name] string;
    without a scheme the protocol is Kafka. *)
Definition parseDestination (destination : string) : string * string :=
  match Js.split "://" destination with
  | p :: d :: _ => (Js.toLowerCase p, d)
  | _ => ("kafka", destination)
  end.

(** The part of [publishMessage] after validation. *)
Definition dispatch `{Runtime} `{Cipher} `{Clients} (process : Process.env)
    (iv : list ascii) (body : gmap string jsval) (user : jsval)
    (transactionId : string) (clock : nat -> N) (w : world)
  : world * response :=
  let message := Js.get body "message" in
  let messageType := Js.orDefault (Js.get body "messageType") (JStr "default") in
  let routingKey := Js.orDefault (Js.get body "routingKey") (JStr "") in
  let headers := Js.orDefault (Js.get body "headers") (JObj ∅) in
  let options := Js.orDefault (Js.get body "options") (JObj ∅) in
  match Js.get body "destination" with
  | JStr destination =>
    let '(protocol, dest) := parseDestination destination in
    match Date_toISOString (clock 1%nat) with
    | inl e => (w, Failed e)
    | inr publishedAt =>
      let messageHeaders :=
        <["x-message-type" := messageType]>
          (<["x-published-by" := userIdOf user]>
          (<["x-published-at" := JStr publishedAt]>
          (<["x-transaction-id" := JStr transactionId]>
          (Js.spread headers)))) in
      let publishOptions :=
        Js.spread options ∪ {["messageOptions" := JObj messageHeaders]} in
      let sent :=
        if String.eqb protocol "rabbitmq" then
          match Js.prop options "directQueue" with
          | None => (brokers w, inl TypeError)
          | Some directQueue =>
            if Js.truthy directQueue
            then Broker.publishToQueue process iv dest message publishOptions
                   (brokers w)
            else Broker.publishToRabbitMQ process iv dest routingKey message
                   publishOptions (brokers w)
          end
        else
          match Js.prop options "key" with
          | None => (brokers w, inl TypeError)
          | Some key =>
            Broker.publishToKafka process iv dest message (Js.or key JNull)
              messageHeaders (brokers w)
          end in
      match sent with
      | (b, inl e) => (withBroker w b, Failed e)
      | (b, inr _) =>
        let w := withBroker w b in
        let wsMessage timestamp :=
          JObj (<["message" := message]>
               (<["headers" := JObj messageHeaders]>
               (<["timestamp" := JStr timestamp]>
               (<["transactionId" := JStr transactionId]>
               (<["messageType" := messageType]>
               (<["destination" := JStr dest]>
               (<["source" := JStr protocol]>
               {["type" := JStr "message"]}))))))) in
        let broadcastTopics :=
          Js.or (Js.get (Js.spread options) "broadcastTopics")
                (JArr [JStr dest]) in
        let '(w, broadcasted) :=
          if Js.notFalse (Js.get (Js.spread options) "broadcast") then
            match Date_toISOString (clock 2%nat) with
            | inl e => (w, inl e)
            | inr timestamp =>
              broadcastAndLog (wsMessage timestamp) broadcastTopics w
            end
          else (w, inr tt) in
        match broadcasted, Date_toISOString (clock 3%nat) with
        | inl e, _ | inr _, inl e => (w, Failed e)
        | inr _, inr answered =>
          (w, Published transactionId (JStr destination) protocol answered)
        end
      end
    end
  | _ => (w, Failed TypeError)        (* [destination.split] is not a function *)
  end.

(** [publishMessage(req, res)]: [body] is [req.body], [user] is [req.user],
    [VALIDATE_MESSAGES] is [process.env.VALIDATE_MESSAGES === 'true'], and
    [iv] are the bytes drawn if the message is encrypted. *)
Definition publishMessage `{Runtime} `{Validator} `{Cipher} `{Clients}
    (VALIDATE_MESSAGES : bool) (process : Process.env) (iv : list ascii)
    (body : gmap string jsval) (user : jsval) (clock : nat -> N)
    (random : string) (w : world) : world * response :=
  let message := Js.get body "message" in
  let messageType := Js.orDefault (Js.get body "messageType") (JStr "default") in
  if negb (Js.truthy (Js.get body "destination")) then
    (w, BadRequest "Destination is required" JUndefined)
  else if negb (Js.truthy message) then
    (w, BadRequest "Message content is required" JUndefined)
  else
    let transactionId :=
      "tx-" ++ Js.decimal (clock 0%nat) ++ "-" ++ random in
    let validationResult := validateMessage messageType message in
    if VALIDATE_MESSAGES && negb (MessageValidator.valid validationResult)
    then
      (w, BadRequest "Message validation failed"
            (MessageValidator.errors validationResult))
    else dispatch process iv body user transactionId clock w.

End MessageController.

(** ** The consumer side of config/kafka.js and config/rabbitmq.js

    A consumer object (Kafka) or a consumer channel (RabbitMQ) is known by
    the order of its creation.  [running] lists the live ones with the
    source each reads: the [consumers] array of kafka.js, the
    [consumerChannels] array of rabbitmq.js. *)
Record connection := mkConnection {
  established : bool;   (* [kafkaClient], [connection] is not null *)
  reachable : bool;     (* connecting and subscribing succeed *)
  created : nat;        (* objects created so far *)
  running : list (nat * string)
}.

(** What an adapter's configuration module offers the consumer modules. *)
Class Adapter := {
  createBackendConsumer : string -> connection -> connection * outcome nat
}.

Module Backend.

(** The shared shape of the two [createConsumer]s: refuse without a client,
    create the object, connect and subscribe, then list it. *)
Definition create (notInitialized : string) (source : string)
    (c : connection) : connection * outcome nat :=
  if established c then
    let h := created c in
    if reachable c then
      (mkConnection true true (S h) (running c ++ [(h, source)]), inr h)
    else
      (mkConnection true false (S h) (running c), inl ClientError)
  else (c, inl (Error notInitialized)).

(** kafka.js [createConsumer(groupId, topics, messageHandler)] *)
Definition kafka : Adapter :=
  {| createBackendConsumer := create "Kafka client not initialized" |}.

(** rabbitmq.js [createConsumer(queue, messageHandler, options)] *)
Definition rabbitmq : Adapter :=
  {| createBackendConsumer := create "RabbitMQ connection not established" |}.

End Backend.

(** ** messaging/kafka/consumer.js and messaging/rabbitmq/consumer.js *)
Module Consumer.

(** The module state: the [activeConsumers] map and the adapter's side. *)
Record registry := mkRegistry {
  activeConsumers : gmap string nat;
  backend : connection
}.

(** [createConsumer(source, options)], the same in both modules.  The
    options (consumer group, prefetch) and the handler are handed through
    to the adapter and play no part in the registration. *)
Definition createConsumer `{Adapter} (source : string) (r : registry)
  : registry * outcome nat :=
  match activeConsumers r !! source with
  | Some consumer => (r, inr consumer)
  | None =>
    match createBackendConsumer source (backend r) with
    | (c, inr consumer) =>
      (mkRegistry (<[source := consumer]> (activeConsumers r)) c,
       inr consumer)
    | (c, inl e) => (mkRegistry (activeConsumers r) c, inl e)
    end
  end.

(** The live consumers reading [source]. *)
Definition liveFor (source : string) (r : registry) : list nat :=
  (filter (fun hs => hs.2 = source) (running (backend r))).*1.

(** The transaction id the Kafka handler gives a message it processes at
    time [now]: [`kafka-${topic}-${message.offset}-${Date.now()}`]. *)
Definition kafkaTransactionId (topic : string) (message : gmap string jsval)
    (now : N) : string :=
  "kafka-" ++ topic ++ "-" ++ Js.toString (Js.get message "offset")
  ++ "-" ++ Js.decimal now.

(** The same for RabbitMQ: [`rabbitmq-${queue}-${Date.now()}`]. *)
Definition rabbitmqTransactionId (queue : string) (now : N) : string :=
  "rabbitmq-" ++ queue ++ "-" ++ Js.decimal now.

(** [JSON.parse] of a string value, keeping the value when it is not JSON or
    not a string. *)
Definition parsed `{Runtime} (v : jsval) : jsval :=
  match v with
  | JStr s => default v (JSON_parse s)
  | _ => v
  end.

(** The Kafka message handler: what it broadcasts. *)
Definition kafkaWsMessage `{Runtime} (topic : string)
    (message : gmap string jsval) (transactionId timestamp : string)
  : jsval :=
  JObj (<["message" := parsed (Js.get message "value")]>
       (<["transactionId" := JStr transactionId]>
       (<["timestamp" := JStr timestamp]>
       (<["headers" := Js.get message "headers"]>
       (<["key" := Js.get message "key"]>
       (<["offset" := Js.get message "offset"]>
       (<["partition" := Js.get message "partition"]>
       (<["topic" := JStr topic]>
       (<["source" := JStr "kafka"]>
       {["type" := JStr "message"]}))))))))).

(** [message.headers['x-message-type'].toString()], or ['unknown']. *)
Definition kafkaMessageType (message : gmap string jsval) : jsval :=
  if Js.truthy (Js.get message "headers") then
    match Js.prop (Js.get message "headers") "x-message-type" with
    | Some t => if Js.truthy t then JStr (Js.toString t) else JStr "unknown"
    | None => JStr "unknown"
    end
  else JStr "unknown".

(** The handler [createConsumer] registers for a Kafka topic.  Validation
    of the consumed value only logs a warning. *)
Definition onKafkaMessage `{Runtime} (topic : string)
    (message : gmap string jsval) (clock : nat -> N) (w : world)
  : world * outcome bool :=
  let transactionId := kafkaTransactionId topic message (clock 0%nat) in
  let w := record w [TimerStart "kafka" topic
                       (Js.or (Js.get message "key") (JStr "unknown"))
                       "consume"] in
  match Date_toISOString (clock 1%nat) with
  | inl e => (record w [TimerEnd true], inl e)
  | inr timestamp =>
    let wsMessage := kafkaWsMessage topic message transactionId timestamp in
    let h := (WebSocketServer.broadcast wsMessage
                (JArr [JStr topic; JStr "kafka"; JStr "all"]) (hub w)).1 in
    (record (withHub w h)
       [MessageConsume "kafka" topic (kafkaMessageType message) "success";
        TimerEnd false],
     inr true)
  end.

End Consumer.

(** ** Stand-ins for evaluating the embedding on concrete inputs *)
Module Sample.

(** Time values print as decimal milliseconds; JSON is not produced. *)
Definition runtime : Runtime :=
  {| toISOString := Js.decimal;
     JSON_stringify := fun _ => "{}";
     JSON_parse := fun _ => None |}.

(** A validator that rejects everything but objects. *)
Definition validator : Validator :=
  {| validateMessage := fun _ message =>
       match message with
       | JObj _ => MessageValidator.mkResult true JUndefined JUndefined
       | _ => MessageValidator.mkResult false (JArr [JStr "must be object"])
                (JStr "data must be object")
       end |}.

(** Both adapters connected, nothing published yet. *)
Definition connected : broker := mkBroker true true [] 0 [].

(** Clients that take whatever they are handed. *)
Definition obliging : Clients :=
  {| producerSend := fun _ _ _ => inr (JArr []);
     channelAssert := fun _ _ => inr tt;
     channelPublish := fun _ _ _ => inr true;
     waitForConfirms := fun _ => inr tt |}.

(** The environment without encryption and without publisher confirms. *)
Definition process : Process.env :=
  Process.mkEnv false Encryption.ENCRYPTION_KEY false false.

(** The bytes drawn for an initialization vector. *)
Definition iv : list ascii := list_ascii_of_string "abcdefghijklmnop".

(** A Kafka message whose handler failed. *)
Definition kafkaMessage : gmap string jsval :=
  <["headers" := JObj {["x-transaction-id" := JStr "tx-1-abc"]}]>
    (<["value" := JBuf "{}"]>
    (<["offset" := JStr "42"]>
    {["partition" := JNum 0]})).

Definition failure : ErrorQueue.messageData :=
  ErrorQueue.kafkaFailure "orders" kafkaMessage (JStr "handler failed").

(** Four observers: of orders, of logs, of everything, and of nothing;
    and one whose socket has closed. *)
Definition observer (id : string) (topics : list string)
  : WebSocketServer.client :=
  WebSocketServer.mkClient id
    (WebSocketServer.mkSocket WebSocketServer.OPEN []) topics "anonymous".

Definition server : WebSocketServer.server :=
  WebSocketServer.mkServer true
    [observer "a" ["orders"]; observer "b" ["logs"]; observer "c" ["*"];
     observer "d" [];
     WebSocketServer.mkClient "e"
       (WebSocketServer.mkSocket WebSocketServer.CLOSED []) ["*"]
       "anonymous"].

Definition world : world := mkWorld connected server [].

Definition xor (a b : ascii) : ascii :=
  let '(Ascii a0 a1 a2 a3 a4 a5 a6 a7) := a in
  let '(Ascii b0 b1 b2 b3 b4 b5 b6 b7) := b in
  Ascii (xorb a0 b0) (xorb a1 b1) (xorb a2 b2) (xorb a3 b3)
        (xorb a4 b4) (xorb a5 b5) (xorb a6 b6) (xorb a7 b7).

Definition checksum (l : list ascii) : ascii := foldr xor zero l.

Definition pad (k iv : list ascii) : ascii := xor (hd zero k) (hd zero iv).

(** A toy cipher with the interface of the real one: a one-byte pad and a
    checksum for a tag.  It shows that the laws can be met; it is not
    secure. *)
Definition cipher : Cipher :=
  {| gcmEncrypt := fun k iv p => map (xor (pad k iv)) p;
     gcmTag := fun k iv c => xor (pad k iv) (checksum c) :: replicate 15 zero;
     gcmDecrypt := fun k iv c => map (xor (pad k iv)) c;
     tagLengthAccepted := fun n => Nat.eqb n 16;
     gcmVerify := fun k iv t c =>
       bool_decide (t = xor (pad k iv) (checksum c) :: replicate 15 zero) |}.

End Sample.

(** * Further parts of the backend

    Around the functions above: the rest of [utils/encryption.js]
    ([Hex], [Secrets]); what a handler throws ([thrown]) and the consume
    loops of the two adapters ([KafkaConfig], [RabbitMQConfig]); the
    handler and the producers of the RabbitMQ side ([RabbitMQConsumer],
    [RabbitMQProducer]); the messages a client sends to the hub
    ([ClientSession]); closing consumers ([ConsumerShutdown]); and the
    choice of a schema in [api/validators/messageValidator.js]
    ([SchemaCache]). *)

(** [error.message].  The wording of the errors the engine and the client
    libraries raise is theirs. *)
Class Wording := {
  wording : exn -> string
}.

Definition errorMessage `{Wording} (e : exn) : jsval :=
  JStr (match e with
        | Error message => message
        | _ => wording e
        end).

(** ** What a message handler throws

    The handler of a consume loop is the caller's code: it throws an error,
    or any other value, [null] and [undefined] among them. *)
Inductive thrown :=
| Raised (e : exn)
| Value (v : jsval).

(** [error.message] in a [catch]: reading a property of [null] or
    [undefined] throws a [TypeError]; a value that is not an object has no
    message. *)
Definition messageOf `{Wording} (t : thrown) : outcome jsval :=
  match t with
  | Raised e => inr (errorMessage e)
  | Value v =>
    match Js.prop v "message" with
    | Some message => inr message
    | None => inl TypeError
    end
  end.

(** A function that throws errors only, as a handler. *)
Definition raising {I A} (f : I -> world -> world * outcome A) (input : I)
    (w : world) : world * (thrown + A) :=
  match f input w with
  | (w, inl e) => (w, inl (Raised e))
  | (w, inr v) => (w, inr v)
  end.


(** ** Hexadecimal text, as [Buffer] encodes and decodes it *)
Module Hex.

Definition digits : list ascii := list_ascii_of_string "0123456789abcdef".

Definition digit (n : N) : ascii := nth (N.to_nat n) digits "0"%char.

(** [buffer.toString('hex')] *)
Fixpoint encode (bytes : list ascii) : string :=
  match bytes with
  | [] => ""
  | b :: rest =>
    let n := N_of_ascii b in
    String (digit (n / 16)) (String (digit (n mod 16)) (encode rest))
  end.

(** The value of a hexadecimal digit, of either case. *)
Definition value (c : ascii) : option N :=
  let n := N_of_ascii c in
  if ((48 <=? n) && (n <=? 57))%N then Some (n - 48)%N
  else if ((97 <=? n) && (n <=? 102))%N then Some (n - 87)%N
  else if ((65 <=? n) && (n <=? 70))%N then Some (n - 55)%N
  else None.

(** [Buffer.from(s, 'hex')]: decoding stops at the first pair of characters
    that is not two hexadecimal digits, and a last character without a
    partner is dropped. *)
Fixpoint decode (s : string) : list ascii :=
  match s with
  | String a (String b rest) =>
    match value a, value b with
    | Some x, Some y => ascii_of_N (16 * x + y) :: decode rest
    | _, _ => []
    end
  | _ => []
  end.

End Hex.

(** ** The digests of the [crypto] module

    [pbkdf2Sync(data, salt, 10000, 64, 'sha512')] and
    [createHmac('sha256', key).update(data).digest()], on text.  An HMAC
    with SHA-256 has 32 bytes. *)
Class Digests := {
  pbkdf2Sync : string -> string -> list ascii;
  hmacSha256 : string -> string -> list ascii
}.

Class DigestLaws `{Digests} : Prop := {
  hmac_length : forall key data, length (hmacSha256 key data) = 32%nat
}.

(** ** utils/encryption.js: random strings, hashes and signatures

    [randomBytes n] stands for the bytes [crypto.randomBytes(n)] draws. *)
Module Secrets.

(** [generateRandomString(length = 32)], for a length that is a
    non-negative integer; [Math.ceil(length / 2)] is [Nat.div2 (S length)]. *)
Definition generateRandomString (length : nat)
    (randomBytes : nat -> list ascii) : string :=
  String.substring 0 length (Hex.encode (randomBytes (Nat.div2 (S length)))).

Record hashed := mkHashed {
  hash : string;
  salt : string
}.

(** [hashString(data, salt = null)]: a salt that is [null] or empty is
    replaced by sixteen random bytes in hexadecimal. *)
Definition hashString `{Digests} (data : string) (salt : option string)
    (randomBytes : nat -> list ascii) : hashed :=
  let salt :=
    match salt with
    | Some s => if String.eqb s "" then Hex.encode (randomBytes 16) else s
    | None => Hex.encode (randomBytes 16)
    end in
  mkHashed (Hex.encode (pbkdf2Sync data salt)) salt.

(** [verifyHash(data, hash, salt)] *)
Definition verifyHash `{Digests} (data hash : string) (salt : option string)
    (randomBytes : nat -> list ascii) : bool :=
  String.eqb (Secrets.hash (hashString data salt randomBytes)) hash.

(** [createSignature(data, key = ENCRYPTION_KEY)] *)
Definition createSignature `{Runtime} `{Digests} (data : jsval)
    (key : string) : outcome string :=
  match textOf data with
  | inl e => inl e
  | inr dataString => inr (Hex.encode (hmacSha256 key dataString))
  end.

(** [crypto.timingSafeEqual(a, b)]: a [RangeError] unless the two buffers
    have the same length. *)
Definition timingSafeEqual (a b : list ascii) : outcome bool :=
  if Nat.eqb (length a) (length b) then inr (bool_decide (a = b))
  else inl RangeError.

(** [verifySignature(data, signature, key = ENCRYPTION_KEY)], for a
    signature that is a string. *)
Definition verifySignature `{Runtime} `{Digests} (data : jsval)
    (signature key : string) : outcome bool :=
  match createSignature data key with
  | inl e => inl e
  | inr computedSignature =>
    timingSafeEqual (Hex.decode computedSignature) (Hex.decode signature)
  end.

End Secrets.

(** ** config/kafka.js: the consume loop *)
Module KafkaConfig.

(** [value] of [eachMessage], from [message.value]. *)
Definition consumedValue `{Cipher} (ENCRYPT_MESSAGES : bool) (key : string)
    (value : jsval) : outcome jsval :=
  if ENCRYPT_MESSAGES && Js.truthy value then
    match Encryption.decryptData key (Js.toString value) with
    | inl e => inl e
    | inr text => inr (JStr text)
    end
  else inr (Js.toStringOrNull value).

(** The object [eachMessage] hands to the message handler. *)
Definition handlerInput `{Cipher} (ENCRYPT_MESSAGES : bool) (key : string)
    (topic : string) (partition : jsval) (message : gmap string jsval)
  : outcome (gmap string jsval) :=
  match consumedValue ENCRYPT_MESSAGES key (Js.get message "value") with
  | inl e => inl e
  | inr value =>
    inr (<["headers" := Js.get message "headers"]>
        (<["value" := value]>
        (<["key" := Js.toStringOrNull (Js.get message "key")]>
        (<["timestamp" := Js.get message "timestamp"]>
        (<["offset" := Js.get message "offset"]>
        (<["partition" := partition]>
        {["topic" := JStr topic]}))))))
  end.

(** The [try] block of [eachMessage] for the handler [messageHandler]. *)
Definition attempt `{Cipher} (ENCRYPT_MESSAGES : bool) (key : string)
    (messageHandler : gmap string jsval -> world -> world * (thrown + bool))
    (topic : string) (partition : jsval) (message : gmap string jsval)
    (w : world) : world * (thrown + bool) :=
  match handlerInput ENCRYPT_MESSAGES key topic partition message with
  | inl e => (w, inl (Raised e))
  | inr input => messageHandler input w
  end.

(** The [catch] of [eachMessage]: the failure goes to the error queue with
    the message of what was thrown, and reading that message can throw. *)
Definition failed `{Runtime} `{Cipher} `{Clients} `{Wording}
    (process : Process.env) (iv : list ascii) (cfg : ErrorQueue.config)
    (topic : string) (message : gmap string jsval) (error : thrown)
    (t0 t1 : N) (w : world) : world * outcome unit :=
  match messageOf error with
  | inl e => (w, inl e)
  | inr text =>
    (withBroker w
       (ErrorQueue.handleFailedMessage process iv cfg "kafka"
          (ErrorQueue.kafkaFailure topic message text) t0 t1 (brokers w)).1,
     inr tt)
  end.

(** [eachMessage({ topic, partition, message })].  [t0] and [t1] are the
    clock of [handleFailedMessage] and [iv] the bytes it draws. *)
Definition eachMessage `{Runtime} `{Cipher} `{Clients} `{Wording}
    (process : Process.env) (iv : list ascii) (cfg : ErrorQueue.config)
    (messageHandler : gmap string jsval -> world -> world * (thrown + bool))
    (topic : string) (partition : jsval) (message : gmap string jsval)
    (t0 t1 : N) (w : world) : world * outcome unit :=
  match attempt (Process.ENCRYPT_MESSAGES process)
          (Process.ENCRYPTION_KEY process) messageHandler topic partition
          message w
  with
  | (w, inr _) => (w, inr tt)
  | (w, inl error) => failed process iv cfg topic message error t0 t1 w
  end.

End KafkaConfig.

(** ** config/rabbitmq.js: the consume callback *)
Module RabbitMQConfig.

(** [content] of the consume callback: [msg.content.toString()], decrypted
    when encryption is on, and parsed when it is JSON. *)
Definition content `{Runtime} `{Cipher} (ENCRYPT_MESSAGES : bool)
    (key : string) (msg : gmap string jsval) : outcome jsval :=
  match Js.get msg "content" with
  | JUndefined | JNull => inl TypeError
  | c =>
    let raw := Js.toString c in
    match (if ENCRYPT_MESSAGES then Encryption.decryptData key raw
           else inr raw) with
    | inl e => inl e
    | inr text => inr (default (JStr text) (JSON_parse text))
    end
  end.

(** How the callback settles a delivery with the broker. *)
Inductive settlement :=
| Ack
| Nack (requeue : bool).

(** [channel.ack(msg)] and [channel.nack(msg, false, requeue)] on the
    consumer channel: they throw once the channel has closed. *)
Definition settle (open : bool) (s : settlement) : outcome settlement :=
  if open then inr s else inl ClientError.

(** The object the callback hands to the message handler. *)
Definition handlerInput (queue : string) (msg : gmap string jsval)
    (content : jsval) : gmap string jsval :=
  <["queue" := JStr queue]>
    (<["properties" := Js.get msg "properties"]>
    (<["fields" := Js.get msg "fields"]>
    {["content" := content]})).

(** The [try] block of the callback, for [options.requeue]: how it settles
    the delivery, unless it throws.  [open] says whether the consumer
    channel is open. *)
Definition attempt `{Runtime} `{Cipher} (ENCRYPT_MESSAGES : bool)
    (key : string) (open : bool) (requeue : jsval)
    (messageHandler : gmap string jsval -> world -> world * (thrown + jsval))
    (queue : string) (msg : gmap string jsval) (w : world)
  : world * (thrown + settlement) :=
  match content ENCRYPT_MESSAGES key msg with
  | inl e => (w, inl (Raised e))
  | inr content =>
    match messageHandler (handlerInput queue msg content) w with
    | (w, inl error) => (w, inl error)
    | (w, inr processed) =>
      match settle open (if Js.truthy processed then Ack
                         else Nack (Js.notFalse requeue)) with
      | inl e => (w, inl (Raised e))
      | inr settled => (w, inr settled)
      end
    end
  end.

(** The inner [try] of the [catch]: the failure goes to the error queue
    with the message of what was thrown, and the delivery is acknowledged;
    [inl] when reading that message or the acknowledgement throws. *)
Definition recover `{Runtime} `{Cipher} `{Clients} `{Wording}
    (process : Process.env) (iv : list ascii) (open : bool)
    (cfg : ErrorQueue.config) (queue : string) (msg : gmap string jsval)
    (error : thrown) (t0 t1 : N) (w : world) : world * outcome settlement :=
  match messageOf error with
  | inl e => (w, inl e)
  | inr text =>
    (withBroker w
       (ErrorQueue.handleFailedMessage process iv cfg "rabbitmq"
          (ErrorQueue.rabbitmqFailure queue msg text) t0 t1 (brokers w)).1,
     settle open Ack)
  end.

(** The callback [channel.consume] is given, for a delivery [msg]; [None]
    is the [null] of a cancelled consumer.  The result is how the delivery
    was settled; the callback throws when the last [nack] does. *)
Definition onMessage `{Runtime} `{Cipher} `{Clients} `{Wording}
    (process : Process.env) (iv : list ascii) (open : bool)
    (cfg : ErrorQueue.config) (requeue : jsval)
    (messageHandler : gmap string jsval -> world -> world * (thrown + jsval))
    (queue : string) (msg : option (gmap string jsval)) (t0 t1 : N)
    (w : world) : world * outcome (option settlement) :=
  match msg with
  | None => (w, inr None)
  | Some msg =>
    match attempt (Process.ENCRYPT_MESSAGES process)
            (Process.ENCRYPTION_KEY process) open requeue messageHandler
            queue msg w
    with
    | (w, inr settled) => (w, inr (Some settled))
    | (w, inl error) =>
      match recover process iv open cfg queue msg error t0 t1 w with
      | (w, inr settled) => (w, inr (Some settled))
      | (w, inl _) =>
        match settle open (Nack (Process.REQUEUE_FAILED_MESSAGES process))
        with
        | inl e => (w, inl e)
        | inr settled => (w, inr (Some settled))
        end
      end
    end
  end.

End RabbitMQConfig.

(** ** The validator at work

    [validateMessage] hands the message itself to the compiled schema, and
    the validator is set up to remove additional properties, to coerce
    types and to fill in defaults: it works in place.  [validated
    messageType message] is the message as the check leaves it. *)
Class InPlace := {
  validated : jsval -> jsval -> jsval
}.

(** ** messaging/rabbitmq/consumer.js: the handler of a queue *)
Module RabbitMQConsumer.

Definition isUndefined (v : jsval) : bool :=
  match v with
  | JUndefined => true
  | _ => false
  end.

(** [JSON.parse] of a content that is a string or a buffer, keeping its
    text when it is not JSON. *)
Definition parsedContent `{Runtime} (content : jsval) : jsval :=
  match content with
  | JStr s | JBuf s => default (JStr s) (JSON_parse s)
  | _ => content
  end.

(** [messageType] of the handler, from [message.properties]. *)
Definition messageTypeOf (properties : jsval) : jsval :=
  let type := default JUndefined (Js.prop properties "type") in
  let headers := default JUndefined (Js.prop properties "headers") in
  let named := default JUndefined (Js.prop headers "x-message-type") in
  if Js.truthy properties && Js.truthy type then type
  else if Js.truthy properties && Js.truthy headers && Js.truthy named
  then JStr (Js.toString named)
  else JStr "unknown".

(** [headers] of the handler: the headers of the properties, then every
    other property that is defined; [None] when reading
    [message.properties.headers] throws. *)
Definition headersOf (properties : jsval) : option (gmap string jsval) :=
  headers ← Js.prop properties "headers";
  Some (filter (fun kv => kv.1 <> "headers" /\ isUndefined kv.2 = false)
          (Js.spread properties)
        ∪ Js.spread (Js.or headers (JObj ∅))).

(** The [try] block of the handler. *)
Definition attempt `{Runtime} `{InPlace} (VALIDATE_MESSAGES : bool)
    (queue : string) (message : gmap string jsval) (transactionId : string)
    (now : N) (w : world) : world * outcome jsval :=
  let properties := Js.get message "properties" in
  let content := parsedContent (Js.get message "content") in
  let messageType := messageTypeOf properties in
  let content :=
    if VALIDATE_MESSAGES then validated messageType content else content in
  match headersOf properties, Js.prop (Js.get message "fields") "routingKey"
  with
  | Some headers, Some routingKey =>
    match Date_toISOString now with
    | inl e => (w, inl e)
    | inr timestamp =>
      let wsMessage :=
        JObj (<["message" := content]>
             (<["transactionId" := JStr transactionId]>
             (<["timestamp" := JStr timestamp]>
             (<["headers" := JObj headers]>
             (<["routingKey" := routingKey]>
             (<["queue" := JStr queue]>
             (<["source" := JStr "rabbitmq"]>
             {["type" := JStr "message"]}))))))) in
      let h := (WebSocketServer.broadcast wsMessage
                  (JArr [JStr queue; JStr "rabbitmq"; JStr "all"])
                  (hub w)).1 in
      (record (withHub w h)
         [MessageConsume "rabbitmq" queue messageType "success";
          TimerEnd false],
       inr (JBool true))
    end
  | _, _ => (w, inl TypeError)
  end.

(** The handler [createConsumer] registers for a queue: it returns [true]
    or throws.  [clock 0] is the time of the transaction id and [clock 1]
    the time of the broadcast. *)
Definition onMessage `{Runtime} `{InPlace} (VALIDATE_MESSAGES : bool)
    (queue : string) (clock : nat -> N) (message : gmap string jsval)
    (w : world) : world * outcome jsval :=
  let transactionId := Consumer.rabbitmqTransactionId queue (clock 0%nat) in
  let w :=
    record w
      [TimerStart "rabbitmq" queue
         (Js.or (default JUndefined
                   (Js.prop (Js.get message "properties") "type"))
                (JStr "unknown"))
         "consume"] in
  match attempt VALIDATE_MESSAGES queue message transactionId (clock 1%nat) w
  with
  | (w, inr v) => (w, inr v)
  | (w, inl e) => (record w [TimerEnd true], inl e)
  end.

End RabbitMQConsumer.

(** ** messaging/rabbitmq/producer.js

    [clock k] is the value of the [k]-th clock expression of a producer
    and [random], [random'] are the suffixes drawn for a generated
    transaction id and a generated message id. *)
Module RabbitMQProducer.

(** The [messageOptions] of a publication. *)
Definition messageOptionsOf (ENCRYPT_MESSAGES : bool)
    (options : gmap string jsval) (transactionId : jsval)
    (clock : nat -> N) (random' publishedAt : string) : gmap string jsval :=
  <["headers" :=
      JObj (KafkaProducer.headersOf options transactionId publishedAt)]>
    (<["type" := Js.or (Js.get options "messageType") (JStr "default")]>
    (<["timestamp" :=
         Js.or (Js.get options "timestamp") (JNum (clock 2%nat / 1000))]>
    (<["messageId" :=
         Js.or (Js.get options "messageId")
               (JStr ("msg-" ++ Js.decimal (clock 1%nat) ++ "-" ++ random'))]>
    (<["contentEncoding" :=
         Js.or (Js.get options "contentEncoding")
               (JStr (if ENCRYPT_MESSAGES then "encrypted" else "utf8"))]>
    (<["contentType" :=
         Js.or (Js.get options "contentType") (JStr "application/json")]>
    {["persistent" := JBool (Js.notFalse (Js.get options "persistent"))]}))))).

(** What the two producers share: the [try] block, given how to publish
    ([publish]), the name the metrics count under ([destination]), the
    default tags of the broadcast ([tags]) and the fields that say where
    the message went ([place]). *)
Definition attempt `{Runtime} `{Validator} `{InPlace}
    (VALIDATE_MESSAGES ENCRYPT_MESSAGES : bool)
    (publish : jsval -> gmap string jsval -> broker -> broker * outcome jsval)
    (destination : string) (tags : list jsval) (place : gmap string jsval)
    (message : jsval) (options : gmap string jsval) (transactionId : jsval)
    (clock : nat -> N) (random' : string) (w : world)
  : world * outcome jsval :=
  let messageType := Js.or (Js.get options "messageType") (JStr "default") in
  let validationResult := validateMessage messageType message in
  let message :=
    if VALIDATE_MESSAGES then validated messageType message else message in
  if VALIDATE_MESSAGES && negb (MessageValidator.valid validationResult)
     && Js.truthy (Js.get options "requireValidation")
  then
    (w, inl (Error ("Message validation failed: "
                    ++ Js.toString (MessageValidator.error validationResult))))
  else
    match Date_toISOString (clock 3%nat) with
    | inl e => (w, inl e)
    | inr publishedAt =>
      let messageOptions :=
        messageOptionsOf ENCRYPT_MESSAGES options transactionId clock random'
          publishedAt in
      match publish message messageOptions (brokers w) with
      | (b, inl e) => (withBroker w b, inl e)
      | (b, inr result) =>
        let w := record (withBroker w b)
                   [MessagePublish "rabbitmq" destination messageType
                      "success";
                    TimerEnd false] in
        let done :=
          JObj (<["result" := result]>
               (<["transactionId" := transactionId]>
               {["success" := JBool true]})) in
        if Js.notFalse (Js.get options "broadcast") then
          let broadcastTopics :=
            Js.or (Js.get options "broadcastTopics") (JArr tags) in
          match Date_toISOString (clock 4%nat) with
          | inl e => (w, inl e)
          | inr timestamp =>
            let wsMessage :=
              JObj (<["message" := message]>
                   (<["headers" := Js.get messageOptions "headers"]>
                   (<["transactionId" := transactionId]>
                   (<["timestamp" := JStr timestamp]>
                   (<["source" := JStr "rabbitmq"]>
                   (<["type" := JStr "message"]> place)))))) in
            match broadcastAndLog wsMessage broadcastTopics w with
            | (w, inl e) => (w, inl e)
            | (w, inr _) => (w, inr done)
            end
          end
        else (w, inr done)
      end
    end.

(** The timer around the [try] block and the [catch]. *)
Definition timed (destination : string) (options : gmap string jsval)
    (run : world -> world * outcome jsval) (w : world)
  : world * outcome jsval :=
  let label := Js.or (Js.get options "messageType") (JStr "unknown") in
  match run (record w [TimerStart "rabbitmq" destination label "publish"]) with
  | (w, inr r) => (w, inr r)
  | (w, inl e) =>
    (record w [MessagePublish "rabbitmq" destination label "error";
               TimerEnd true],
     inl e)
  end.

(** [produceToExchange(exchange, routingKey, message, options = {})] *)
Definition produceToExchange `{Runtime} `{Validator} `{InPlace} `{Cipher}
    `{Clients} (VALIDATE_MESSAGES : bool) (process : Process.env)
    (iv : list ascii) (exchange routingKey : string) (message : jsval)
    (options : gmap string jsval) (clock : nat -> N)
    (random random' : string) (w : world) : world * outcome jsval :=
  let transactionId :=
    Js.or (Js.get options "transactionId")
          (JStr ("rabbitmq-" ++ exchange ++ "-" ++ routingKey ++ "-"
                 ++ Js.decimal (clock 0%nat) ++ "-" ++ random)) in
  timed exchange options
    (attempt VALIDATE_MESSAGES (Process.ENCRYPT_MESSAGES process)
       (fun message messageOptions =>
          Broker.publishToRabbitMQ process iv exchange (JStr routingKey)
            message
            (<["messageOptions" := JObj messageOptions]>
            (<["exchangeOptions" := Js.get options "exchangeOptions"]>
            {["exchangeType" :=
                Js.or (Js.get options "exchangeType") (JStr "topic")]})))
       exchange
       [JStr exchange; JStr routingKey; JStr "rabbitmq"; JStr "all"]
       (<["routingKey" := JStr routingKey]> {["exchange" := JStr exchange]})
       message options transactionId clock random')
    w.

(** [produceToQueue(queue, message, options = {})] *)
Definition produceToQueue `{Runtime} `{Validator} `{InPlace} `{Cipher}
    `{Clients} (VALIDATE_MESSAGES : bool) (process : Process.env)
    (iv : list ascii) (queue : string) (message : jsval)
    (options : gmap string jsval) (clock : nat -> N)
    (random random' : string) (w : world) : world * outcome jsval :=
  let transactionId :=
    Js.or (Js.get options "transactionId")
          (JStr ("rabbitmq-queue-" ++ queue ++ "-"
                 ++ Js.decimal (clock 0%nat) ++ "-" ++ random)) in
  timed queue options
    (attempt VALIDATE_MESSAGES (Process.ENCRYPT_MESSAGES process)
       (fun message messageOptions =>
          Broker.publishToQueue process iv queue message
            (<["messageOptions" := JObj messageOptions]>
            {["queueOptions" := Js.get options "queueOptions"]}))
       queue [JStr queue; JStr "rabbitmq"; JStr "all"]
       {["queue" := JStr queue]}
       message options transactionId clock random')
    w.

End RabbitMQProducer.

(** ** websocket/server.js: the messages of a client *)
Module ClientSession.

(** [SameValueZero], the equality of [Set] and of [includes].  Objects,
    arrays and buffers are compared by identity; those of a client message
    come fresh out of [JSON.parse], so none is the same as another. *)
Definition sameValueZero (a b : jsval) : bool :=
  match a, b with
  | JUndefined, JUndefined | JNull, JNull => true
  | JBool x, JBool y => Bool.eqb x y
  | JNum x, JNum y => (x =? y)%N
  | JStr x, JStr y => String.eqb x y
  | _, _ => false
  end.

Definition includes (l : list jsval) (v : jsval) : bool :=
  existsb (sameValueZero v) l.

(** [[...new Set(l)]]: the first occurrences, in order.  [add] is the
    insertion of one value. *)
Definition add (seen : list jsval) (v : jsval) : list jsval :=
  if includes seen v then seen else (seen ++ [v])%list.

Definition unique (l : list jsval) : list jsval := foldl add [] l.

(** The [clientData] of a connection.  Its topics are what the client
    sent: strings when it follows the protocol. *)
Record clientData := mkClientData {
  id : string;
  ws : WebSocketServer.socket;
  topics : list jsval;
  userId : string
}.

Definition withSocket (c : clientData) (s : WebSocketServer.socket)
  : clientData :=
  mkClientData (id c) s (topics c) (userId c).

Definition withTopics (c : clientData) (l : list jsval) : clientData :=
  mkClientData (id c) (ws c) l (userId c).

(** The topics that are strings. *)
Definition names (l : list jsval) : list string :=
  omap (fun v => match v with JStr s => Some s | _ => None end) l.

(** The entry of the [clients] map as [broadcast] reads it when the tags of
    the broadcast are strings: a tag that is a string is included in the
    topics exactly when it is among those that are strings. *)
Definition asClient (c : clientData) : WebSocketServer.client :=
  WebSocketServer.mkClient (id c) (ws c) (names (topics c)) (userId c).

(** [sendToClient(ws, message)]: nothing unless the socket is open. *)
Definition sendToClient `{Runtime} (ws : WebSocketServer.socket)
    (message : jsval) : WebSocketServer.socket :=
  match WebSocketServer.state ws with
  | WebSocketServer.OPEN =>
    default ws (WebSocketServer.send (JSON_stringify message) ws)
  | _ => ws
  end.

Definition reply `{Runtime} (c : clientData) (message : jsval) : clientData :=
  withSocket c (sendToClient (ws c) message).

(** The replies to a subscription and to its withdrawal. *)
Definition subscribed (topics : list jsval) (timestamp : string)
  : gmap string jsval :=
  <["timestamp" := JStr timestamp]>
    (<["topics" := JArr topics]>
    {["type" := JStr "subscribed"]}).

Definition unsubscribed (topics removedTopics : list jsval)
    (timestamp : string) : gmap string jsval :=
  <["timestamp" := JStr timestamp]>
    (<["removedTopics" := JArr removedTopics]>
    (<["topics" := JArr topics]>
    {["type" := JStr "unsubscribed"]})).

(** The [try] block of [handleClientMessage]: the client afterwards, and
    whether the block completed ([false]: it threw).  A [case] of the
    [switch] is taken by [===], so by the string it names only. *)
Definition attempt `{Runtime} (data : string) (now : N) (c : clientData)
  : clientData * bool :=
  match JSON_parse data with
  | None => (c, false)
  | Some message =>
    match Js.prop message "type" with
    | None => (c, false)
    | Some type =>
      let field := Js.get (Js.spread message) in
      let answer (c : clientData) (fields : string -> gmap string jsval) :=
        match Date_toISOString now with
        | inl _ => (c, false)
        | inr timestamp => (reply c (JObj (fields timestamp)), true)
        end in
      let case := match type with JStr name => name | _ => "" end in
      if negb (Js.truthy type) then
        (reply c (JObj (<["originalMessage" := message]>
                       (<["error" := JStr "Invalid message format"]>
                       {["type" := JStr "error"]}))),
         true)
      else if String.eqb case "ping" then
        answer c (fun timestamp =>
          <["echo" := field "echo"]>
            (<["timestamp" := JStr timestamp]>
            {["type" := JStr "pong"]}))
      else if String.eqb case "subscribe" then
        match field "topics" with
        | JArr items =>
          let newTopics := List.filter Js.truthy items in
          let c := withTopics c (unique (topics c ++ newTopics)%list) in
          answer c (subscribed (topics c))
        | _ => (c, true)
        end
      else if String.eqb case "unsubscribe" then
        match field "topics" with
        | JArr items =>
          let removedTopics := List.filter Js.truthy items in
          let c :=
            withTopics c
              (List.filter (fun topic => negb (includes removedTopics topic))
                 (topics c)) in
          answer c (unsubscribed (topics c) removedTopics)
        | _ => (c, true)
        end
      else
        answer c (fun timestamp =>
          <["timestamp" := JStr timestamp]>
            (<["originalMessage" := message]>
            (<["error" := JStr ("Unknown message type: "
                                ++ Js.toString type)]>
            {["type" := JStr "error"]})))
    end
  end.

(** [handleClientMessage(data, clientData)].  [clock 0] is the time read
    in the [try] block and [clock 1] the time read in the [catch]; the
    call throws only if that second reading is out of range. *)
Definition handleClientMessage `{Runtime} (data : string) (clock : nat -> N)
    (c : clientData) : outcome clientData :=
  match attempt data (clock 0%nat) c with
  | (c, true) => inr c
  | (c, false) =>
    match Date_toISOString (clock 1%nat) with
    | inl e => inl e
    | inr timestamp =>
      inr (reply c (JObj (<["timestamp" := JStr timestamp]>
                         (<["error" := JStr "Failed to process message"]>
                         {["type" := JStr "error"]}))))
    end
  end.

End ClientSession.

(** ** Closing consumers

    What the consumer modules need of an adapter to close a consumer:
    [consumer.disconnect()] of kafkajs, [channel.close()] of amqplib. *)
Class Closing := {
  closeBackendConsumer : nat -> connection -> connection * outcome unit
}.

Module ConsumerShutdown.

(** [closeConsumer(source)], the same in messaging/kafka/consumer.js and
    messaging/rabbitmq/consumer.js. *)
Definition closeConsumer `{Closing} (source : string)
    (r : Consumer.registry) : Consumer.registry * outcome bool :=
  match Consumer.activeConsumers r !! source with
  | None => (r, inr false)
  | Some consumer =>
    match closeBackendConsumer consumer (Consumer.backend r) with
    | (c, inr _) =>
      (Consumer.mkRegistry (delete source (Consumer.activeConsumers r)) c,
       inr true)
    | (c, inl e) => (Consumer.mkRegistry (Consumer.activeConsumers r) c, inl e)
    end
  end.

End ConsumerShutdown.

(** ** api/validators/messageValidator.js: choosing the schema

    A compiled schema applied to a message: it is valid ([inr None]), or
    invalid with its errors, or the check throws. *)
Definition compiled : Type := jsval -> outcome (option jsval).

Module SchemaCache.

(** [schemaCache.get(messageType)]: the names of the cache are strings. *)
Definition get (schemaCache : gmap string compiled) (messageType : jsval)
  : option compiled :=
  match messageType with
  | JStr name => schemaCache !! name
  | _ => None
  end.

(** [validateMessage(messageType, message)]: the cache afterwards and the
    result.  [permissive] is the compiled [{ type: 'object',
    additionalProperties: true }], and [errorsText] is [ajv.errorsText]. *)
Definition validateMessage `{Wording} (errorsText : jsval -> string)
    (permissive : compiled) (schemaCache : gmap string compiled)
    (messageType message : jsval)
  : gmap string compiled * MessageValidator.result :=
  let '(schemaCache, validator) :=
    match get schemaCache messageType with
    | Some validator => (schemaCache, validator)
    | None =>
      match schemaCache !! "default" with
      | Some validator => (schemaCache, validator)
      | None => (<["default" := permissive]> schemaCache, permissive)
      end
    end in
  (schemaCache,
   match validator message with
   | inr None => MessageValidator.mkResult true JUndefined JUndefined
   | inr (Some errors) =>
     MessageValidator.mkResult false errors (JStr (errorsText errors))
   | inl e =>
     MessageValidator.mkResult false
       (JArr [JObj {["message" := errorMessage e]}]) (errorMessage e)
   end).

End SchemaCache.

(** ** Further stand-ins *)
Module Fixture.

(** Digests of the right sizes that depend on nothing. *)
Definition digests : Digests :=
  {| pbkdf2Sync := fun _ _ => replicate 64 "p"%char;
     hmacSha256 := fun _ _ => replicate 32 "h"%char |}.

Definition plainWording : Wording := {| wording := fun _ => "error" |}.

(** A validator that leaves the message as it is. *)
Definition untouched : InPlace := {| validated := fun _ message => message |}.

(** A random source that draws the same byte every time. *)
Definition randomBytes (n : nat) : list ascii := replicate n "k"%char.

(** Handlers that fail with an error, one that throws [null], and one that
    reports the message unprocessed. *)
Definition failing (input : gmap string jsval) (w : world)
  : world * (thrown + bool) :=
  (w, inl (Raised (Error "handler failed"))).

Definition throwing (input : gmap string jsval) (w : world)
  : world * (thrown + jsval) :=
  (w, inl (Raised (Error "handler failed"))).

Definition throwingNull (input : gmap string jsval) (w : world)
  : world * (thrown + jsval) :=
  (w, inl (Value JNull)).

Definition declining (input : gmap string jsval) (w : world)
  : world * (thrown + jsval) :=
  (w, inr (JBool false)).

(** The environment of backend/tests/setup.js with encryption switched on,
    whose key has 35 bytes, and the one with publisher confirms. *)
Definition testing : Process.env :=
  Process.mkEnv true "test-encryption-key-32-bytes-long-a" false false.

Definition confirming : Process.env :=
  Process.mkEnv false Encryption.ENCRYPTION_KEY true false.

(** Clients whose channel does not confirm, the producer channel being an
    ordinary one, without [waitForConfirms]. *)
Definition unconfirmed : Clients :=
  {| producerSend := fun _ _ _ => inr (JArr []);
     channelAssert := fun _ _ => inr tt;
     channelPublish := fun _ _ _ => inr true;
     waitForConfirms := fun _ => inl TypeError |}.

(** A delivery from the queue [tasks]. *)
Definition delivery : gmap string jsval :=
  <["properties" := JObj {["type" := JStr "task"]}]>
    (<["fields" := JObj {["routingKey" := JStr "tasks"]}]>
    {["content" := JBuf "{}"]}).

(** A runtime that reads one text as a subscription to logs and one as
    the withdrawal of a subscription to orders, and nothing else. *)
Definition reading : Runtime :=
  {| toISOString := Js.decimal;
     JSON_stringify := fun _ => "{}";
     JSON_parse := fun s =>
       if String.eqb s "subscribe" then
         Some (JObj (<["topics" := JArr [JStr "logs"]]>
                    {["type" := JStr "subscribe"]}))
       else if String.eqb s "unsubscribe" then
         Some (JObj (<["topics" := JArr [JStr "orders"]]>
                    {["type" := JStr "unsubscribe"]}))
       else None |}.

(** A client of the hub that observes orders, with an open socket. *)
Definition session : ClientSession.clientData :=
  ClientSession.mkClientData "a"
    (WebSocketServer.mkSocket WebSocketServer.OPEN []) [JStr "orders"]
    "anonymous".

(** An adapter whose consumers close without error. *)
Definition closing : Closing :=
  {| closeBackendConsumer := fun consumer c =>
       (mkConnection (established c) (reachable c) (created c)
          (List.filter (fun hs => negb (Nat.eqb hs.1 consumer)) (running c)),
        inr tt) |}.

(** An adapter whose consumers refuse to close. *)
Definition stuck : Closing :=
  {| closeBackendConsumer := fun consumer c => (c, inl ClientError) |}.

(** A cache with one schema, which accepts objects only. *)
Definition objectsOnly : compiled :=
  fun message =>
    match message with
    | JObj _ => inr None
    | _ => inr (Some (JArr [JStr "must be object"]))
    end.

End Fixture.


(** * Properties *)

(** * Base64 *)
Section Base64Facts.
Import Base64.

Lemma value_char x : value (char x) = Some x.
Proof.
  destruct x as [[[[[b5 b4] b3] b2] b1] b0].
  destruct b5, b4, b3, b2, b1, b0; reflexivity.
Qed.

Lemma char_not_padding x : Ascii.eqb (char x) "="%char = false.
Proof.
  destruct x as [[[[[b5 b4] b3] b2] b1] b0].
  destruct b5, b4, b3, b2, b1, b0; reflexivity.
Qed.

Lemma char_not_colon x : char x <> ":"%char.
Proof.
  destruct x as [[[[[b5 b4] b3] b2] b1] b0].
  destruct b5, b4, b3, b2, b1, b0; discriminate.
Qed.

Lemma sextets_char x s : sextets (String (char x) s) = x :: sextets s.
Proof. simpl. by rewrite char_not_padding, value_char. Qed.

Lemma quad_bytes a b c :
  let '(w, x, y, z) := quad a b c in
  byte1 w x = a /\ byte2 x y = b /\ byte3 y z = c.
Proof. destruct a, b, c. simpl. done. Qed.

(** Induction on a list three elements at a time. *)
Lemma list_ind3 {A} (P : list A -> Prop) :
  P [] -> (forall a, P [a]) -> (forall a b, P [a; b]) ->
  (forall a b c l, P l -> P (a :: b :: c :: l)) ->
  forall l, P l.
Proof.
  intros H0 H1 H2 H3 l.
  assert (Hall : P l /\ (forall a, P (a :: l)) /\ (forall a b, P (a :: b :: l))).
  { induction l as [| x l (IH0 & IH1 & IH2)]; [done |].
    repeat split; [apply IH1 | intros; apply IH2 | intros; by apply H3]. }
  apply Hall.
Qed.

Lemma decode_encode l : decode (encode l) = l.
Proof.
  unfold decode. induction l as [| a | a b | a b c l IH] using list_ind3.
  - reflexivity.
  - simpl. pose proof (quad_bytes a zero zero) as Hq.
    destruct (quad a zero zero) as [[[w x] y] z].
    rewrite !sextets_char. simpl. by destruct Hq as (-> & _).
  - simpl. pose proof (quad_bytes a b zero) as Hq.
    destruct (quad a b zero) as [[[w x] y] z].
    rewrite !sextets_char. simpl. by destruct Hq as (-> & -> & _).
  - cbn [encode]. pose proof (quad_bytes a b c) as Hq.
    destruct (quad a b c) as [[[w x] y] z].
    rewrite !sextets_char. cbn [bytes]. rewrite IH.
    by destruct Hq as (-> & -> & ->).
Qed.

Lemma encode_lacks_colon l : Js.lacks ":" (encode l).
Proof.
  induction l as [| a | a b | a b c l IH] using list_ind3.
  - done.
  - simpl. destruct (quad a zero zero) as [[[w x] y] z]. simpl.
    repeat split; try apply char_not_colon; discriminate.
  - simpl. destruct (quad a b zero) as [[[w x] y] z]. simpl.
    repeat split; try apply char_not_colon; discriminate.
  - cbn [encode]. destruct (quad a b c) as [[[w x] y] z]. simpl.
    repeat split; try apply char_not_colon; exact IH.
Qed.

Lemma encode_not_empty l : l <> [] -> String.eqb (encode l) "" = false.
Proof.
  destruct l as [| a [| b [| c l]]]; [done | | |]; intros _; simpl.
  - by destruct (quad a zero zero) as [[[w x] y] z].
  - by destruct (quad a b zero) as [[[w x] y] z].
  - by destruct (quad a b c) as [[[w x] y] z].
Qed.

End Base64Facts.

(** * Splitting at colons *)
Section Splitting.

Lemma append_cons c (s t : string) : String c s ++ t = String c (s ++ t).
Proof. reflexivity. Qed.

Lemma append_empty_r (s : string) : s ++ "" = s.
Proof.
  induction s as [| c s IH]; [done |]. by rewrite append_cons, IH.
Qed.

Lemma append_assoc (a b c : string) : (a ++ b) ++ c = a ++ b ++ c.
Proof.
  induction a as [| x a IH]; [done |]. by rewrite !append_cons, IH.
Qed.

Lemma split_go_lacks a : forall cur rest,
  Js.lacks ":" a ->
  Js.split_go ":" 0 cur (a ++ rest) = Js.split_go ":" 0 (cur ++ a) rest.
Proof.
  induction a as [| c a IH]; intros cur rest Ha.
  - by rewrite append_empty_r.
  - destruct Ha as [Hc Ha]. rewrite append_cons. cbn [Js.split_go].
    unfold String.prefix.
    destruct (ascii_dec ":" c) as [<- | _]; [done |].
    rewrite IH by done. rewrite append_assoc. reflexivity.
Qed.

Lemma split_go_colon cur rest :
  Js.split_go ":" 0 cur (":" ++ rest) = cur :: Js.split_go ":" 0 "" rest.
Proof. destruct rest; reflexivity. Qed.

Lemma split_three a b c :
  Js.lacks ":" a -> Js.lacks ":" b -> Js.lacks ":" c ->
  Js.split ":" (a ++ ":" ++ b ++ ":" ++ c) = [a; b; c].
Proof.
  intros Ha Hb Hc. unfold Js.split.
  rewrite split_go_lacks, split_go_colon by done.
  rewrite split_go_lacks, split_go_colon by done.
  rewrite <- (append_empty_r c) at 1.
  rewrite split_go_lacks by done. reflexivity.
Qed.

End Splitting.

(** * The envelope codec *)
Section Codec.
Import Encryption.
Context `{cipher : Cipher}.

Lemma split_format iv authTag encrypted :
  Js.split ":" (format iv authTag encrypted)
  = [Base64.encode iv; Base64.encode authTag; Base64.encode encrypted].
Proof. apply split_three; apply encode_lacks_colon. Qed.

Lemma accepts_key_and_iv key iv :
  length key = 32%nat -> length iv = IV_LENGTH -> accepts key iv = true.
Proof. intros Hk Hiv. unfold accepts. by rewrite Hk, Hiv. Qed.

(** What [decryptData] does with a well-formed envelope whose tag has
    sixteen bytes. *)
Lemma decryptData_format key iv authTag encrypted :
  let k := list_ascii_of_string key in
  length k = 32%nat -> length iv = IV_LENGTH ->
  length authTag = 16%nat -> tagLengthAccepted 16 = true ->
  decryptData key (format iv authTag encrypted)
  = if gcmVerify k iv authTag encrypted
    then inr (string_of_list_ascii (gcmDecrypt k iv encrypted))
    else inl (Error "Failed to decrypt data").
Proof.
  intros k Hk Hiv Htag Hacc. unfold decryptData.
  rewrite split_format, !decode_encode.
  fold k. rewrite (accepts_key_and_iv k iv Hk Hiv).
  rewrite encode_not_empty by (intros ->; discriminate).
  by rewrite Htag, Hacc.
Qed.

(** Whatever [decryptData] returns has passed the decipher's check. *)
Lemma decryptData_sound key s p :
  decryptData key s = inr p ->
  exists ivStr authTagStr encrypted,
    Js.split ":" s = [ivStr; authTagStr; encrypted]
    /\ gcmVerify (list_ascii_of_string key) (Base64.decode ivStr)
         (Base64.decode authTagStr) (Base64.decode encrypted) = true
    /\ p = string_of_list_ascii
             (gcmDecrypt (list_ascii_of_string key) (Base64.decode ivStr)
                (Base64.decode encrypted)).
Proof.
  unfold decryptData.
  destruct (Js.split ":" s) as [| ivStr [| authTagStr [| encrypted [|]]]];
    try discriminate.
  destruct (accepts _ _); [| discriminate].
  destruct (String.eqb authTagStr ""); [discriminate |].
  destruct (tagLengthAccepted _); [| discriminate]. simpl.
  destruct (gcmVerify _ _ _ _) eqn:Hv; [| discriminate].
  intros [= <-]. eauto 10.
Qed.

Lemma flipped_length (l l' : list ascii) : flipped l l' -> length l' = length l.
Proof. intros (i & a & b & _ & _ & ->). apply length_insert. Qed.

Lemma flipped_differs (l l' : list ascii) : flipped l l' -> l' <> l.
Proof.
  intros (i & a & b & Hi & Hab & ->) Heq.
  apply (f_equal (fun x => x !! i)) in Heq.
  rewrite list_lookup_insert_eq in Heq by (by eapply lookup_lt_Some).
  congruence.
Qed.

(** C1.  Under a key of 32 bytes for which the cipher decrypts what it
    encrypts and accepts its own tags, and for every initialization vector
    of [IV_LENGTH] bytes: [encryptData] returns an envelope, and
    [decryptData] of that envelope returns the payload. *)
Theorem decrypt_encrypt_round_trip key iv data :
  CipherLaws (list_ascii_of_string key) ->
  length (list_ascii_of_string key) = 32%nat ->
  length iv = IV_LENGTH ->
  exists envelope,
    encryptData key iv data = inr envelope
    /\ decryptData key envelope = inr data.
Proof.
  intros Hlaws Hk Hiv. unfold encryptData.
  rewrite (accepts_key_and_iv _ iv Hk Hiv).
  eexists. split; [reflexivity |].
  rewrite decryptData_format;
    [| done | done | apply tag_length | apply full_tag_accepted].
  rewrite verify_own_tag, decrypt_encrypt.
  by rewrite string_of_list_ascii_of_string.
Qed.

(** What [decryptData] does with any text in the place of the tag and any
    text in the place of the ciphertext. *)
Lemma decryptData_parts key iv tagText text :
  let k := list_ascii_of_string key in
  length k = 32%nat -> length iv = IV_LENGTH ->
  Js.lacks ":" tagText -> Js.lacks ":" text ->
  Base64.decode tagText <> [] ->
  decryptData key (Base64.encode iv ++ ":" ++ tagText ++ ":" ++ text)
  = if tagLengthAccepted (length (Base64.decode tagText))
       && gcmVerify k iv (Base64.decode tagText) (Base64.decode text)
    then inr (string_of_list_ascii (gcmDecrypt k iv (Base64.decode text)))
    else inl (Error "Failed to decrypt data").
Proof.
  intros k Hk Hiv Htag Htext Hdecoded. unfold decryptData.
  rewrite split_three by (done || apply encode_lacks_colon).
  rewrite decode_encode. fold k. rewrite (accepts_key_and_iv k iv Hk Hiv).
  destruct tagText as [| c tagText]; [done |]. reflexivity.
Qed.

(** C2, as amended.  Take the envelope [encryptData] makes of a payload and
    put any text in the place of its tag and of its ciphertext.  When the
    tag or the ciphertext the text decodes to has one byte changed,
    [decryptData] throws [Error('Failed to decrypt data')], the one error it
    has, and returns nothing; when the text decodes to the bytes of the
    envelope, it returns the payload, however the text is spelled.  It
    throws the same error on any input that does not split into three parts
    at colons.  And whatever it returns, on any input, is the decryption of
    a ciphertext whose tag the decipher has accepted. *)
Theorem tampered_envelope_is_rejected key iv data :
  CipherLaws (list_ascii_of_string key) ->
  length (list_ascii_of_string key) = 32%nat ->
  length iv = IV_LENGTH ->
  let k := list_ascii_of_string key in
  let encrypted := gcmEncrypt k iv (list_ascii_of_string data) in
  let authTag := gcmTag k iv encrypted in
  let failed := inl (Error "Failed to decrypt data") in
  encryptData key iv data = inr (format iv authTag encrypted)
  /\ (forall tagText text,
        Js.lacks ":" tagText -> Js.lacks ":" text ->
        let tampered := Base64.encode iv ++ ":" ++ tagText ++ ":" ++ text in
        (flipped authTag (Base64.decode tagText) ->
         Base64.decode text = encrypted ->
         decryptData key tampered = failed)
        /\ (Base64.decode tagText = authTag ->
            flipped encrypted (Base64.decode text) ->
            decryptData key tampered = failed)
        /\ (Base64.decode tagText = authTag ->
            Base64.decode text = encrypted ->
            decryptData key tampered = inr data))
  /\ (forall s, length (Js.split ":" s) <> 3%nat -> decryptData key s = failed)
  /\ (forall s p,
        decryptData key s = inr p ->
        exists ivStr authTagStr encrypted,
          Js.split ":" s = [ivStr; authTagStr; encrypted]
          /\ gcmVerify k (Base64.decode ivStr) (Base64.decode authTagStr)
               (Base64.decode encrypted) = true
          /\ p = string_of_list_ascii
                   (gcmDecrypt k (Base64.decode ivStr)
                      (Base64.decode encrypted))).
Proof.
  intros Hlaws Hk Hiv k encrypted authTag failed.
  assert (Hsixteen : forall t : list ascii, length t = 16%nat -> t <> [])
    by (by intros [| ? ?]).
  split; [| split; [| split]].
  - unfold encryptData. fold k. by rewrite (accepts_key_and_iv k iv Hk Hiv).
  - intros tagText text Htag Htext tampered. subst tampered.
    split; [| split].
    + intros Hflip Hsame.
      assert (Hlength : length (Base64.decode tagText) = 16%nat)
        by (rewrite (flipped_length _ _ Hflip); apply tag_length).
      rewrite decryptData_parts by auto. fold k.
      rewrite Hlength, full_tag_accepted, Hsame. simpl.
      destruct (gcmVerify k iv (Base64.decode tagText) encrypted) eqn:Hv;
        [| done].
      apply verify_full_tag in Hv; [| done].
      by apply flipped_differs in Hflip.
    + intros Hsame Hflip.
      rewrite decryptData_parts
        by (try done; rewrite Hsame; apply Hsixteen, tag_length).
      fold k. rewrite Hsame. unfold authTag.
      rewrite tag_length, full_tag_accepted. simpl.
      destruct (gcmVerify k iv _ (Base64.decode text)) eqn:Hv; [| done].
      apply verify_full_tag in Hv; [| apply tag_length].
      by apply (tag_binds iv) in Hflip.
    + intros Hsame Hsame'.
      rewrite decryptData_parts
        by (try done; rewrite Hsame; apply Hsixteen, tag_length).
      fold k. rewrite Hsame, Hsame'. unfold authTag.
      rewrite tag_length, full_tag_accepted, verify_own_tag. simpl.
      unfold encrypted. rewrite decrypt_encrypt.
      by rewrite string_of_list_ascii_of_string.
  - intros s Hs. unfold decryptData.
    by destruct (Js.split ":" s) as [| ? [| ? [| ? [|]]]].
  - apply decryptData_sound.
Qed.

End Codec.

(** * The sample cipher meets the laws *)
Section SampleCipher.
Import Sample.

Lemma xorb_cancel (x y z : bool) : xorb x y = xorb x z -> y = z.
Proof. by destruct x, y, z. Qed.

Lemma xorb_cancel_r (x y z : bool) : xorb y x = xorb z x -> y = z.
Proof. by destruct x, y, z. Qed.

Lemma xor_cancel a b c : xor a b = xor a c -> b = c.
Proof.
  destruct a, b, c. simpl. intros [= ? ? ? ? ? ? ? ?].
  f_equal; by eapply xorb_cancel.
Qed.

Lemma xor_cancel_r a b c : xor b a = xor c a -> b = c.
Proof.
  destruct a, b, c. simpl. intros [= ? ? ? ? ? ? ? ?].
  f_equal; by eapply xorb_cancel_r.
Qed.

Lemma xor_involutive a b : xor a (xor a b) = b.
Proof.
  destruct a, b. simpl.
  by rewrite <- !xorb_assoc, !xorb_nilpotent, !xorb_false_l.
Qed.

Lemma checksum_flipped c c' : flipped c c' -> checksum c <> checksum c'.
Proof.
  intros (i & a & b & Hi & Hab & ->). revert i Hi.
  induction c as [| x c IH]; intros i Hi; [done |].
  destruct i as [| i]; simpl in *.
  - injection Hi as ->. intros Heq. by apply xor_cancel_r in Heq.
  - intros Heq. apply xor_cancel in Heq. by eapply IH.
Qed.

Lemma cipher_laws k : @CipherLaws Sample.cipher k.
Proof.
  split; simpl.
  - intros iv p. rewrite <- list_fmap_compose.
    rewrite <- (list_fmap_id p) at 2. apply list_fmap_ext.
    intros _ x _. apply xor_involutive.
  - intros iv c. reflexivity.
  - reflexivity.
  - intros iv c. by apply bool_decide_eq_true.
  - intros iv t c _ Hv. by apply bool_decide_eq_true in Hv.
  - intros iv c c' Hflip [= Heq]. apply xor_cancel in Heq.
    by apply checksum_flipped in Hflip.
Qed.

End SampleCipher.

Section CodecSample.
Import Encryption.
#[local] Existing Instance Sample.cipher.

Lemma sample_payload_round_trip :
  exists envelope,
    encryptData ENCRYPTION_KEY (list_ascii_of_string "abcdefghijklmnop")
      "hello world" = inr envelope
    /\ decryptData ENCRYPTION_KEY envelope = inr "hello world".
Proof.
  refine (decrypt_encrypt_round_trip ENCRYPTION_KEY
            (list_ascii_of_string "abcdefghijklmnop") "hello world" _ _ _).
  - apply cipher_laws.
  - reflexivity.
  - reflexivity.
Defined.

(** The envelope of the sample payload is
    [YWJjZGVmZ2hpamtsbW5vcA==:IAAAAAAAAAAAAAAAAAAAAA==:OTQ9PT5xJj4jPTU=].
    With the first byte of its tag changed ([IQ] for [IA]), or the last
    byte of its ciphertext ([PTY=] for [PTU=]), it is rejected; with the
    last character of its tag changed ([AB==] for [AA==]), which changes
    no byte, it is not. *)
Lemma tampered_sample_envelope_is_rejected :
  decryptData ENCRYPTION_KEY
    "YWJjZGVmZ2hpamtsbW5vcA==:IQAAAAAAAAAAAAAAAAAAAA==:OTQ9PT5xJj4jPTU="
  = inl (Error "Failed to decrypt data")
  /\ decryptData ENCRYPTION_KEY
       "YWJjZGVmZ2hpamtsbW5vcA==:IAAAAAAAAAAAAAAAAAAAAA==:OTQ9PT5xJj4jPTY="
     = inl (Error "Failed to decrypt data")
  /\ decryptData ENCRYPTION_KEY
       "YWJjZGVmZ2hpamtsbW5vcA==:IAAAAAAAAAAAAAAAAAAAAB==:OTQ9PT5xJj4jPTU="
     = inr "hello world".
Proof.
  destruct (tampered_envelope_is_rejected ENCRYPTION_KEY
              (list_ascii_of_string "abcdefghijklmnop") "hello world"
              (cipher_laws _) eq_refl eq_refl)
    as (_ & Htext & _).
  split; [| split].
  - refine (proj1 (Htext "IQAAAAAAAAAAAAAAAAAAAA==" "OTQ9PT5xJj4jPTU=" _ _)
              _ _).
    + simpl. repeat split; discriminate.
    + simpl. repeat split; discriminate.
    + unfold flipped. exists 0%nat, " "%char, "!"%char. vm_compute.
      split; [reflexivity |]. split; [discriminate | reflexivity].
    + reflexivity.
  - refine (proj1 (proj2 (Htext "IAAAAAAAAAAAAAAAAAAAAA=="
                            "OTQ9PT5xJj4jPTY=" _ _)) _ _).
    + simpl. repeat split; discriminate.
    + simpl. repeat split; discriminate.
    + reflexivity.
    + unfold flipped. exists 10%nat, "5"%char, "6"%char. vm_compute.
      split; [reflexivity |]. split; [discriminate | reflexivity].
  - refine (proj2 (proj2 (Htext "IAAAAAAAAAAAAAAAAAAAAB=="
                            "OTQ9PT5xJj4jPTU=" _ _)) _ _).
    + simpl. repeat split; discriminate.
    + simpl. repeat split; discriminate.
    + reflexivity.
    + reflexivity.
Defined.

(** C2, as stated, fails.  Changing a byte of the envelope need not change
    what it decodes to: the last character of the tag, and of this
    ciphertext, carries bits that Base64 does not read, and with either
    changed [decryptData] returns the payload.  And a tag that does not
    verify is reported by the error of an input that is not an envelope at
    all: no error tells the two apart. *)
Lemma changed_envelope_still_decrypts :
  encryptData ENCRYPTION_KEY (list_ascii_of_string "abcdefghijklmnop")
    "hello world"
  = inr "YWJjZGVmZ2hpamtsbW5vcA==:IAAAAAAAAAAAAAAAAAAAAA==:OTQ9PT5xJj4jPTU="
  /\ decryptData ENCRYPTION_KEY
       "YWJjZGVmZ2hpamtsbW5vcA==:IAAAAAAAAAAAAAAAAAAAAB==:OTQ9PT5xJj4jPTU="
     = inr "hello world"
  /\ decryptData ENCRYPTION_KEY
       "YWJjZGVmZ2hpamtsbW5vcA==:IAAAAAAAAAAAAAAAAAAAAA==:OTQ9PT5xJj4jPTV="
     = inr "hello world"
  /\ decryptData ENCRYPTION_KEY
       "YWJjZGVmZ2hpamtsbW5vcA==:IQAAAAAAAAAAAAAAAAAAAA==:OTQ9PT5xJj4jPTU="
     = decryptData ENCRYPTION_KEY "not an envelope".
Proof. vm_compute. done. Qed.

End CodecSample.

(** * The publish functions *)
Section PublishFunctions.
Context `{rt : Runtime} `{cipher : Cipher} `{cl : Clients}.

(** What a call of kafka.js [publishMessage] adds to the outbox: the record
    when it returns, nothing when it throws. *)
Lemma publishToKafka_news process iv topic message key headers b :
  let after := Broker.publishToKafka process iv topic message key headers b in
  let r := KafkaRecord topic message (Js.toStringOrNull key) headers in
  outbox after.1
  = (outbox b ++ if returned after.2 then [r] else [])%list
  /\ calls after.1 = S (calls b)
  /\ asserted after.1 = asserted b.
Proof.
  unfold Broker.publishToKafka. simpl.
  destruct (producer b); [| by rewrite app_nil_r].
  destruct (Broker.messageValue _ _ _ _) as [e | value];
    [by rewrite app_nil_r |].
  destruct (producerSend _ _ _) as [e | result]; simpl;
    by rewrite ?app_nil_r.
Qed.

(** What a call of rabbitmq.js [publishMessage] adds: the record when it
    returns; when it throws, nothing, unless publisher confirms are on and
    the record had gone before the confirmation failed. *)
Lemma publishToRabbitMQ_news process iv exchange routingKey message options b :
  let after :=
    Broker.publishToRabbitMQ process iv exchange routingKey message options
      b in
  let r := QueueRecord exchange routingKey message options in
  (returned after.2 = true -> outbox after.1 = (outbox b ++ [r])%list)
  /\ (returned after.2 = false ->
      outbox after.1 = outbox b
      \/ Process.RABBITMQ_PUBLISHER_CONFIRMS process = true
         /\ outbox after.1 = (outbox b ++ [r])%list).
Proof.
  unfold Broker.publishToRabbitMQ. simpl.
  destruct (producerChannel b); [| by split; [| left]].
  set (step := if String.eqb exchange "" then _ else _).
  assert (Hstep : outbox step.1 = outbox b).
  { subst step. destruct (String.eqb exchange ""); [done |].
    unfold Broker.asserting. by destruct (channelAssert _ _). }
  destruct step as [b0 [e | []]]; simpl in Hstep;
    [by split; [| left] |].
  destruct (Broker.msgContent _ _ _ _) as [e | content];
    [by split; [| left] |].
  destruct (channelPublish _ _ _) as [e | publishResult];
    [by split; [| left] |].
  destruct (Process.RABBITMQ_PUBLISHER_CONFIRMS process);
    [destruct (waitForConfirms _) as [e | []] |]; simpl; rewrite Hstep;
    (split; [done |]); try done.
  intros _. by right.
Qed.

(** The same for [publishToQueue], which asserts the queue first. *)
Lemma publishToQueue_news process iv queue message options b :
  let after := Broker.publishToQueue process iv queue message options b in
  let r := QueueRecord "" (JStr queue) message options in
  (returned after.2 = true ->
   outbox after.1 = (outbox b ++ [r])%list
   /\ asserted after.1
      = (asserted b ++ [AssertQueue queue (Js.get options "queueOptions")])%list)
  /\ (returned after.2 = false ->
      outbox after.1 = outbox b
      \/ Process.RABBITMQ_PUBLISHER_CONFIRMS process = true
         /\ outbox after.1 = (outbox b ++ [r])%list).
Proof.
  unfold Broker.publishToQueue, Broker.asserting. simpl.
  destruct (producerChannel b) eqn:Hchannel; [| by split; [| left]].
  destruct (channelAssert _ _) as [e | []]; [by split; [| left] |].
  match goal with
  | |- context [Broker.publishToRabbitMQ _ _ _ _ _ _ ?b1] =>
    pose proof (publishToRabbitMQ_news process iv "" (JStr queue) message
                  options b1) as [Hreturns Hthrows];
    assert (Hasserted :
              asserted (Broker.publishToRabbitMQ process iv "" (JStr queue)
                          message options b1).1
              = asserted b1)
  end.
  { unfold Broker.publishToRabbitMQ, Broker.asserting. simpl.
    rewrite Hchannel. simpl.
    repeat match goal with
           | |- context [match ?x with _ => _ end] => destruct x; simpl
           end; done. }
  simpl in *. split.
  - intros Hr. split; [by apply Hreturns | by rewrite Hasserted].
  - exact Hthrows.
Qed.

End PublishFunctions.

(** * Failure recovery *)
Section FailureRecovery.
Import ErrorQueue.
Context `{rt : Runtime} `{cipher : Cipher} `{cl : Clients}.

Lemma Date_toISOString_in_range t :
  (t <= Js.MAX_TIME)%N -> Date_toISOString t = inr (toISOString t).
Proof.
  intros Ht. unfold Date_toISOString.
  destruct (N.leb_spec t Js.MAX_TIME); [done | lia].
Qed.

Lemma Date_toISOString_returns t s :
  Date_toISOString t = inr s -> s = toISOString t.
Proof.
  unfold Date_toISOString. destruct (t <=? Js.MAX_TIME)%N; congruence.
Qed.

Lemma orRethrow_fst r : (orRethrow r).1 = r.1.
Proof. by destruct r as [b [e | v]]. Qed.

Lemma orRethrow_returned r : returned (orRethrow r).2 = returned r.2.
Proof. by destruct r as [b [e | v]]. Qed.

(** *** What the two senders publish *)

Lemma added_nothing process source : added process source false [].
Proof. split; [done | by left]. Qed.

Lemma added_one process source r : added process source true [r].
Proof. split; [done | discriminate]. Qed.

Lemma added_at_most_one process source succeeded news :
  added process source succeeded news -> (length news <= 1)%nat.
Proof.
  intros [Htrue Hfalse]. destruct succeeded.
  - rewrite Htrue; done.
  - destruct (Hfalse eq_refl) as [-> | (_ & _ & ->)]; simpl; lia.
Qed.

Lemma sendToRetryQueue_news process iv cfg source errorMessage now b :
  let after := sendToRetryQueue process iv cfg source errorMessage now b in
  exists news,
    outbox after.1 = (outbox b ++ news)%list
    /\ added process source (returned after.2) news
    /\ Forall (fun r =>
         exists delay,
           retryDelayMs errorMessage = Some delay
           /\ body r = <["retryDelay" := JNum delay]>
                         (<["retryAt" := JStr (toISOString (now + delay))]>
                            errorMessage)
           /\ destination r = JStr (retryDestination cfg source)) news.
Proof.
  unfold sendToRetryQueue, retryDestination.
  assert (Hnothing : forall e : exn,
            exists news,
              outbox b = (outbox b ++ news)%list
              /\ added process source (returned (inl e : outcome bool)) news
              /\ Forall (fun r =>
                   exists delay,
                     retryDelayMs errorMessage = Some delay
                     /\ body r = <["retryDelay" := JNum delay]>
                                   (<["retryAt" :=
                                        JStr (toISOString (now + delay))]>
                                      errorMessage)
                     /\ destination r
                        = JStr (if String.eqb source "kafka"
                                then Js.env_or (env cfg) "RETRY_TOPIC"
                                       "streambridge.retry"
                                else Js.env_or (env cfg) "RETRY_QUEUE"
                                       "streambridge.retry")) news).
  { intros e. exists []. rewrite app_nil_r.
    split; [done |]. split; [apply added_nothing | constructor]. }
  destruct (retryDelayMs errorMessage) as [delay |]; [| apply Hnothing].
  destruct (Date_toISOString (now + delay)) as [e | retryAt] eqn:Hd;
    [apply Hnothing |].
  apply Date_toISOString_returns in Hd as ->.
  destruct (String.eqb source "kafka") eqn:Hsource.
  - apply String.eqb_eq in Hsource as ->.
    rewrite orRethrow_fst, orRethrow_returned.
    match goal with
    | |- context [Broker.publishToKafka ?p ?i ?t ?m ?k ?h ?b0] =>
      destruct (publishToKafka_news p i t m k h b0) as (Hout & _);
      destruct (Broker.publishToKafka p i t m k h b0) as [b' [e | v]]
    end; simpl in *.
    + exists []. split; [exact Hout |].
      split; [apply added_nothing | constructor].
    + eexists [_]. split; [exact Hout |].
      split; [apply added_one |]. repeat constructor. eauto.
  - destruct (Js.prop _ "queue") as [origin |]; [| apply Hnothing].
    rewrite orRethrow_fst, orRethrow_returned.
    match goal with
    | |- context [Broker.publishToQueue ?p ?i ?q ?m ?o ?b0] =>
      destruct (publishToQueue_news p i q m o b0) as (Hreturns & Hthrows);
      destruct (Broker.publishToQueue p i q m o b0) as [b' [e | v]]
    end; simpl in *.
    + destruct (Hthrows eq_refl) as [Hout | [Hconfirms Hout]].
      * exists []. rewrite app_nil_r.
        split; [done |]. split; [apply added_nothing | constructor].
      * eexists [_]. split; [exact Hout |]. split.
        -- split; [done |]. intros _. right. by rewrite Hsource.
        -- repeat constructor. eauto.
    + destruct (Hreturns eq_refl) as [Hout _].
      eexists [_]. split; [exact Hout |].
      split; [apply added_one |]. repeat constructor. eauto.
Qed.

Lemma sendToDeadLetterQueue_news process iv cfg source errorMessage now b :
  let after :=
    sendToDeadLetterQueue process iv cfg source errorMessage now b in
  exists news,
    outbox after.1 = (outbox b ++ news)%list
    /\ added process source (returned after.2) news
    /\ Forall (fun r =>
         body r = <["finalStatus" := JStr "failed"]>
                    (<["movedToDLQ" := JStr (toISOString now)]> errorMessage)
         /\ destination r = JStr (deadLetterDestination cfg source)) news.
Proof.
  unfold sendToDeadLetterQueue, deadLetterDestination.
  destruct (Date_toISOString now) as [e | movedToDLQ] eqn:Hd.
  { exists []. rewrite app_nil_r.
    split; [done |]. split; [apply added_nothing | constructor]. }
  apply Date_toISOString_returns in Hd as ->.
  destruct (String.eqb source "kafka") eqn:Hsource;
    rewrite orRethrow_fst, orRethrow_returned.
  - apply String.eqb_eq in Hsource as ->.
    match goal with
    | |- context [Broker.publishToKafka ?p ?i ?t ?m ?k ?h ?b0] =>
      destruct (publishToKafka_news p i t m k h b0) as (Hout & _);
      destruct (Broker.publishToKafka p i t m k h b0) as [b' [e | v]]
    end; simpl in *.
    + exists []. split; [exact Hout |].
      split; [apply added_nothing | constructor].
    + eexists [_]. split; [exact Hout |].
      split; [apply added_one |]. by repeat constructor.
  - match goal with
    | |- context [Broker.publishToQueue ?p ?i ?q ?m ?o ?b0] =>
      destruct (publishToQueue_news p i q m o b0) as (Hreturns & Hthrows);
      destruct (Broker.publishToQueue p i q m o b0) as [b' [e | v]]
    end; simpl in *.
    + destruct (Hthrows eq_refl) as [Hout | [Hconfirms Hout]].
      * exists []. rewrite app_nil_r.
        split; [done |]. split; [apply added_nothing | constructor].
      * eexists [_]. split; [exact Hout |]. split.
        -- split; [done |]. intros _. right. by rewrite Hsource.
        -- by repeat constructor.
    + destruct (Hreturns eq_refl) as [Hout _].
      eexists [_]. split; [exact Hout |].
      split; [apply added_one |]. by repeat constructor.
Qed.

(** *** What [handleFailedMessage] does below and at the bound *)

(** The record of a failure whose context holds the retry count [n]: a
    retry record with the count [n + 1] below the bound, a dead letter at
    it and beyond. *)
Lemma handleFailedMessage_news process iv cfg source md t0 t1 b :
  let n := default 0%N (retryCount md) in
  let after := handleFailedMessage process iv cfg source md t0 t1 b in
  exists news,
    outbox after.1 = (outbox b ++ news)%list
    /\ added process source after.2 news
    /\ Forall (fun r =>
         exists timestamp original,
           Date_toISOString t0 = inr timestamp
           /\ originalMessage source md = Some original
           /\ if (n <? MAX_RETRIES cfg)%N
              then body r
                   = <["retryDelay" := JNum (2 ^ (n + 1) * 1000)]>
                       (<["retryAt" :=
                            JStr (toISOString (t1 + 2 ^ (n + 1) * 1000))]>
                       (<["retryCount" := JNum (n + 1)]>
                          (errorRecord source timestamp md original)))
                   /\ destination r = JStr (retryDestination cfg source)
              else body r
                   = <["finalStatus" := JStr "failed"]>
                       (<["movedToDLQ" := JStr (toISOString t1)]>
                          (errorRecord source timestamp md original))
                   /\ destination r = JStr (deadLetterDestination cfg source))
         news.
Proof.
  intros n. unfold handleFailedMessage. fold n.
  destruct (Date_toISOString t0) as [e | timestamp].
  { exists []. rewrite app_nil_r.
    split; [done |]. split; [apply added_nothing | constructor]. }
  destruct (originalMessage source md) as [original |].
  2: { exists []. rewrite app_nil_r.
       split; [done |]. split; [apply added_nothing | constructor]. }
  destruct (n <? MAX_RETRIES cfg)%N.
  - match goal with
    | |- context [sendToRetryQueue ?p ?i ?c ?s ?m ?t ?b0] =>
      destruct (sendToRetryQueue_news p i c s m t b0)
        as (news & Hout & Hadded & Hnews);
      destruct (sendToRetryQueue p i c s m t b0) as [b' r]
    end; simpl in *.
    exists news. split; [exact Hout |]. split; [exact Hadded |].
    eapply Forall_impl; [exact Hnews |].
    intros r0 (delay & Hdelay & Hbody & Hdest). exists timestamp, original.
    unfold retryDelayMs, Js.get in Hdelay.
    rewrite lookup_insert_eq in Hdelay. injection Hdelay as <-. done.
  - match goal with
    | |- context [sendToDeadLetterQueue ?p ?i ?c ?s ?m ?t ?b0] =>
      destruct (sendToDeadLetterQueue_news p i c s m t b0)
        as (news & Hout & Hadded & Hnews);
      destruct (sendToDeadLetterQueue p i c s m t b0) as [b' r]
    end; simpl in *.
    exists news. split; [exact Hout |]. split; [exact Hadded |].
    eapply Forall_impl; [exact Hnews |].
    intros r0 (Hbody & Hdest). by exists timestamp, original.
Qed.

Lemma one_record (news : list published) :
  length news = 1%nat -> exists r, news = [r].
Proof. destruct news as [| r [| ? ?]]; try discriminate. eauto. Qed.

Lemma handleFailedMessage_retry_inv process iv cfg source md t0 t1 b b' :
  (default 0%N (retryCount md) < MAX_RETRIES cfg)%N ->
  handleFailedMessage process iv cfg source md t0 t1 b = (b', true) ->
  exists timestamp original r,
    let n := default 0%N (retryCount md) in
    originalMessage source md = Some original
    /\ outbox b' = (outbox b ++ [r])%list
    /\ body r = <["retryDelay" := JNum (2 ^ (n + 1) * 1000)]>
                 (<["retryAt" :=
                      JStr (toISOString (t1 + 2 ^ (n + 1) * 1000))]>
                 (<["retryCount" := JNum (n + 1)]>
                    (errorRecord source timestamp md original)))
    /\ destination r = JStr (retryDestination cfg source).
Proof.
  intros Hn Hh.
  destruct (handleFailedMessage_news process iv cfg source md t0 t1 b)
    as (news & Hout & [Hone _] & Hnews).
  rewrite Hh in Hout, Hone. simpl in *.
  destruct (one_record news (Hone eq_refl)) as [r ->].
  apply Forall_inv in Hnews as (timestamp & original & _ & Ho & Hr).
  destruct (N.ltb_spec (default 0%N (retryCount md)) (MAX_RETRIES cfg));
    [| lia].
  destruct Hr as [Hbody Hdest]. by exists timestamp, original, r.
Qed.

Lemma handleFailedMessage_dead_letter_inv process iv cfg source md t0 t1 b b' :
  (MAX_RETRIES cfg <= default 0%N (retryCount md))%N ->
  handleFailedMessage process iv cfg source md t0 t1 b = (b', true) ->
  exists timestamp original r,
    Date_toISOString t0 = inr timestamp
    /\ originalMessage source md = Some original
    /\ outbox b' = (outbox b ++ [r])%list
    /\ destination r = JStr (deadLetterDestination cfg source)
    /\ body r = <["finalStatus" := JStr "failed"]>
                 (<["movedToDLQ" := JStr (toISOString t1)]>
                    (errorRecord source timestamp md original)).
Proof.
  intros Hn Hh.
  destruct (handleFailedMessage_news process iv cfg source md t0 t1 b)
    as (news & Hout & [Hone _] & Hnews).
  rewrite Hh in Hout, Hone. simpl in *.
  destruct (one_record news (Hone eq_refl)) as [r ->].
  apply Forall_inv in Hnews as (timestamp & original & Hts & Ho & Hr).
  destruct (N.ltb_spec (default 0%N (retryCount md)) (MAX_RETRIES cfg));
    [lia |].
  destruct Hr as [Hbody Hdest]. by exists timestamp, original, r.
Qed.

(** Every record [handleFailedMessage] adds is marked by the retry count
    of the context. *)
Lemma handleFailedMessage_marked process iv cfg source md t0 t1 b :
  let n := default 0%N (retryCount md) in
  let after := handleFailedMessage process iv cfg source md t0 t1 b in
  exists news,
    outbox after.1 = (outbox b ++ news)%list
    /\ added process source after.2 news
    /\ Forall (marked cfg source n) news.
Proof.
  intros n after.
  destruct (handleFailedMessage_news process iv cfg source md t0 t1 b)
    as (news & Hout & Hadded & Hnews).
  exists news. split; [exact Hout |]. split; [exact Hadded |].
  eapply Forall_impl; [exact Hnews |].
  intros r (timestamp & original & _ & _ & Hr).
  unfold marked. fold n in Hr |- *.
  destruct (n <? MAX_RETRIES cfg)%N; destruct Hr as [Hbody Hdest];
    unfold isRetry, isDeadLetter, recordedRetryCount; by rewrite Hbody.
Qed.

(** C4, as amended.  When a failure whose context holds the retry count [n],
    with [n < MAX_RETRIES], is scheduled for retry, the delay of the retry
    record is [2^(n+1)] seconds: the exponent is the count after the
    increment, the one the record carries.  Contexts with the counts 0, 1, 2
    get 2, 4 and 8 seconds. *)
Theorem retry_delay_is_power_of_incremented_count
    process iv cfg source md t0 t1 b b' :
  let n := default 0%N (retryCount md) in
  (n < MAX_RETRIES cfg)%N ->
  handleFailedMessage process iv cfg source md t0 t1 b = (b', true) ->
  exists r,
    outbox b' = (outbox b ++ [r])%list
    /\ recordedRetryCount r = Some (n + 1)%N
    /\ Js.get (body r) "retryDelay" = JNum (2 ^ (n + 1) * 1000)
    /\ Js.get (body r) "retryAt"
       = JStr (toISOString (t1 + 2 ^ (n + 1) * 1000)).
Proof.
  intros n Hn Hh.
  destruct (handleFailedMessage_retry_inv _ _ _ _ _ _ _ _ _ Hn Hh)
    as (ts & o & r & _ & Hout & Hbody & _).
  exists r. split; [exact Hout |].
  unfold recordedRetryCount, Js.get. by rewrite Hbody.
Qed.

(** C9.  When [handleFailedMessage] dead-letters a failure (retry count at
    or above [MAX_RETRIES]), the one record it publishes goes to the
    dead-letter destination of the source and is the error record it built,
    with two properties added that the error record does not have:
    [movedToDLQ], the time of the hand-off, and [finalStatus], ['failed'].
    Every other property is that of the error record. *)
Theorem dead_letter_adds_two_fields process iv cfg source md t0 t1 b b' :
  (MAX_RETRIES cfg <= default 0%N (retryCount md))%N ->
  handleFailedMessage process iv cfg source md t0 t1 b = (b', true) ->
  exists timestamp original r,
    let errorMessage := errorRecord source timestamp md original in
    Date_toISOString t0 = inr timestamp
    /\ originalMessage source md = Some original
    /\ outbox b' = (outbox b ++ [r])%list
    /\ destination r = JStr (deadLetterDestination cfg source)
    /\ errorMessage !! "movedToDLQ" = None
    /\ errorMessage !! "finalStatus" = None
    /\ body r !! "movedToDLQ" = Some (JStr (toISOString t1))
    /\ body r !! "finalStatus" = Some (JStr "failed")
    /\ (forall k, k <> "movedToDLQ" -> k <> "finalStatus" ->
         body r !! k = errorMessage !! k).
Proof.
  intros Hn Hh.
  destruct (handleFailedMessage_dead_letter_inv _ _ _ _ _ _ _ _ _ Hn Hh)
    as (ts & o & r & Hts & Ho & Hout & Hdest & Hbody).
  exists ts, o, r. simpl. rewrite Hbody.
  repeat split; try done.
  intros k Hk1 Hk2. by rewrite !lookup_insert_ne.
Qed.

End FailureRecovery.

(** C4, as stated, fails: the first failure of a message (context count 0)
    is retried after 2 seconds, not after [2^0 = 1]. *)
Lemma retry_delay_is_not_power_of_context_count :
  ~ (forall (rt : Runtime) (cipher : Cipher) (cl : Clients) process iv cfg
            source md t0 t1 b b' r,
       (default 0 (ErrorQueue.retryCount md) < ErrorQueue.MAX_RETRIES cfg)%N ->
       ErrorQueue.handleFailedMessage process iv cfg source md t0 t1 b
       = (b', true) ->
       last (outbox b') = Some r ->
       Js.get (ErrorQueue.body r) "retryDelay"
       = JNum (2 ^ default 0%N (ErrorQueue.retryCount md) * 1000)).
Proof.
  intros Hclaim.
  pose (b' := (@ErrorQueue.handleFailedMessage Sample.runtime Sample.cipher
                 Sample.obliging Sample.process Sample.iv ErrorQueue.defaults
                 "kafka" Sample.failure 1000 2000 Sample.connected).1).
  assert (Hlast : is_Some (last (outbox b'))) by (vm_compute; eauto).
  destruct Hlast as [r Hr].
  specialize (Hclaim Sample.runtime Sample.cipher Sample.obliging
                Sample.process Sample.iv ErrorQueue.defaults "kafka"
                Sample.failure 1000%N 2000%N Sample.connected b' r).
  assert (Hdelay : Js.get (ErrorQueue.body r) "retryDelay" = JNum 2000).
  { vm_compute in Hr. injection Hr as <-. reflexivity. }
  rewrite Hdelay in Hclaim.
  discriminate Hclaim; [reflexivity | reflexivity | exact Hr].
Qed.

(** * Retry counts through the adapters *)
Section RetryCounts.
Import ErrorQueue.
Context `{rt : Runtime} `{cipher : Cipher} `{cl : Clients} `{wd : Wording}.

(** What the [catch] of [eachMessage] does once it has the message of what
    was thrown. *)
Lemma kafka_failed_news process iv cfg topic message error text t0 t1 w :
  messageOf error = inr text ->
  let recovery :=
    handleFailedMessage process iv cfg "kafka"
      (kafkaFailure topic message text) t0 t1 (brokers w) in
  let after := KafkaConfig.failed process iv cfg topic message error t0 t1 w in
  after = (withBroker w recovery.1, inr tt)
  /\ exists news,
       outbox (brokers after.1) = (outbox (brokers w) ++ news)%list
       /\ added process "kafka" recovery.2 news
       /\ Forall (fun r => marked cfg "kafka" 0 r
                           /\ Js.get (body r) "error" = text) news.
Proof.
  intros Htext recovery after. subst after recovery.
  unfold KafkaConfig.failed. rewrite Htext. split; [done |]. simpl.
  destruct (handleFailedMessage_news process iv cfg "kafka"
              (kafkaFailure topic message text) t0 t1 (brokers w))
    as (news & Hout & Hadded & Hnews).
  destruct (handleFailedMessage_marked process iv cfg "kafka"
              (kafkaFailure topic message text) t0 t1 (brokers w))
    as (news' & Hout' & _ & Hmarked).
  rewrite Hout in Hout'. apply app_inv_head in Hout' as <-.
  exists news. split; [exact Hout |]. split; [exact Hadded |].
  apply Forall_and. split; [exact Hmarked |].
  eapply Forall_impl; [exact Hnews |].
  intros r (timestamp & original & _ & _ & Hr). simpl in Hr.
  destruct (0 <? MAX_RETRIES cfg)%N; destruct Hr as [-> _]; reflexivity.
Qed.





End RetryCounts.

Section FailureRecoveryAtDefaults.
Import ErrorQueue.
#[local] Existing Instance Sample.runtime.
#[local] Existing Instance Sample.cipher.
#[local] Existing Instance Sample.obliging.
#[local] Existing Instance Fixture.plainWording.



(** The first failure of the sample message: retried after 2000 ms. *)
Lemma retry_delay_of_first_failure :
  exists r,
    outbox (handleFailedMessage Sample.process Sample.iv defaults "kafka"
              Sample.failure 1000 2000 Sample.connected).1
    = (outbox Sample.connected ++ [r])%list
    /\ recordedRetryCount r = Some (0 + 1)%N
    /\ Js.get (body r) "retryDelay" = JNum (2 ^ (0 + 1) * 1000)
    /\ Js.get (body r) "retryAt"
       = JStr (toISOString (2000 + 2 ^ (0 + 1) * 1000)).
Proof.
  apply (retry_delay_is_power_of_incremented_count Sample.process Sample.iv
           defaults "kafka" Sample.failure 1000 2000 Sample.connected).
  - vm_compute. reflexivity.
  - vm_compute. reflexivity.
Defined.

(** The sample message at the bound: dead-lettered with two fields added. *)
Lemma dead_letter_of_exhausted_message :
  exists timestamp original r,
    let errorMessage :=
      errorRecord "kafka" timestamp (withRetryCount Sample.failure 3)
        original in
    Date_toISOString 1000 = inr timestamp
    /\ originalMessage "kafka" (withRetryCount Sample.failure 3)
       = Some original
    /\ outbox (handleFailedMessage Sample.process Sample.iv defaults "kafka"
                 (withRetryCount Sample.failure 3) 1000 2000
                 Sample.connected).1
       = (outbox Sample.connected ++ [r])%list
    /\ destination r = JStr (deadLetterDestination defaults "kafka")
    /\ errorMessage !! "movedToDLQ" = None
    /\ errorMessage !! "finalStatus" = None
    /\ body r !! "movedToDLQ" = Some (JStr (toISOString 2000))
    /\ body r !! "finalStatus" = Some (JStr "failed")
    /\ (forall k, k <> "movedToDLQ" -> k <> "finalStatus" ->
         body r !! k = errorMessage !! k).
Proof.
  apply (dead_letter_adds_two_fields Sample.process Sample.iv defaults "kafka"
           (withRetryCount Sample.failure 3) 1000 2000 Sample.connected).
  - vm_compute. discriminate.
  - vm_compute. reflexivity.
Defined.

End FailureRecoveryAtDefaults.

(** * The fan-out hub *)
Section FanOut.
Import WebSocketServer.
Context `{rt : Runtime}.

Lemma visit_sends topics frame c n :
  sends topics c = true ->
  visit topics frame c n
  = (withSocket c (mkSocket OPEN (sent (ws c) ++ [frame])), S n).
Proof.
  unfold sends, visit, send. destruct (state (ws c)); try discriminate.
  destruct (hasTopicFilter topics && _); [discriminate | done].
Qed.

Lemma visit_skips topics frame c n :
  sends topics c = false -> visit topics frame c n = (c, n).
Proof.
  unfold sends, visit, send. destruct (state (ws c)); try done.
  destruct (hasTopicFilter topics && _); [done | discriminate].
Qed.

Lemma visit_received topics frame c n :
  received frame c (visit topics frame c n).1 <-> sends topics c = true.
Proof.
  unfold received. destruct (sends topics c) eqn:Hs.
  - rewrite (visit_sends _ _ _ _ Hs). simpl. done.
  - rewrite (visit_skips _ _ _ _ Hs). simpl. split; [| discriminate].
    intros Heq. apply (f_equal length) in Heq.
    rewrite length_app in Heq. simpl in Heq. lia.
Qed.

Lemma forEach_lookup topics frame cs :
  forall n i c,
    cs !! i = Some c ->
    exists k, (forEach (visit topics frame) cs n).1 !! i
              = Some (visit topics frame c k).1.
Proof.
  induction cs as [| c0 cs IH]; intros n i c Hi; [done |].
  simpl. destruct (visit topics frame c0 n) as [c0' n0] eqn:Hv.
  destruct (forEach (visit topics frame) cs n0) as [cs' n'] eqn:Hf.
  destruct i as [| i]; simpl in *.
  - injection Hi as <-. exists n. by rewrite Hv.
  - destruct (IH n0 i c Hi) as [k Hk]. exists k. by rewrite Hf in Hk.
Qed.

Lemma forEach_count topics frame cs :
  forall n,
    (forEach (visit topics frame) cs n).2
    = n + deliveries cs (forEach (visit topics frame) cs n).1.
Proof.
  induction cs as [| c cs IH]; intros n; simpl; [lia |].
  destruct (visit topics frame c n) as [c' n0] eqn:Hv.
  specialize (IH n0).
  destruct (forEach (visit topics frame) cs n0) as [cs' n'] eqn:Hf.
  simpl in *. rewrite IH.
  destruct (sends topics c) eqn:Hs.
  - rewrite (visit_sends _ _ _ _ Hs) in Hv. injection Hv as <- <-.
    simpl. rewrite length_app. simpl.
    replace (length (sent (ws c)) + 1) with (S (length (sent (ws c))))
      by lia.
    rewrite Nat.eqb_refl. lia.
  - rewrite (visit_skips _ _ _ _ Hs) in Hv. injection Hv as <- <-.
    destruct (Nat.eqb_spec (length (sent (ws c)))
                (S (length (sent (ws c))))); lia.
Qed.

Lemma includes_spec l s : includes l (JStr s) = true <-> s ∈ l.
Proof.
  simpl. rewrite existsb_exists. split.
  - intros (x & Hx & Heq). apply String.eqb_eq in Heq. subst.
    by apply list_elem_of_In.
  - intros Hs. exists s. split; [by apply list_elem_of_In |].
    apply String.eqb_refl.
Qed.

Lemma hasMatchingTopic_spec l c :
  l <> [] ->
  hasMatchingTopic l c = true
  <-> (exists t, JStr t ∈ l /\ t ∈ topics c) \/ "*" ∈ topics c.
Proof.
  intros Hl. unfold hasMatchingTopic. rewrite existsb_exists. split.
  - intros (v & Hv & Hm). apply orb_true_iff in Hm as [Hm | Hm].
    + left. destruct v; try discriminate. exists s. split.
      * by apply list_elem_of_In.
      * by apply includes_spec.
    + right. by apply includes_spec.
  - intros [(t & Ht & Hc) | Hstar].
    + exists (JStr t). split; [by apply list_elem_of_In |].
      apply orb_true_iff. left. by apply includes_spec.
    + destruct l as [| v l]; [done |]. exists v. split; [by left |].
      apply orb_true_iff. right. by apply includes_spec.
Qed.

(** C5.  A broadcast with a non-empty topic list, on an initialised server:
    a client whose socket is open is handed the message, a string as it is
    and anything else as its JSON text, if and only if one of its topics
    is in the list or it subscribes to ["*"], and is left untouched
    otherwise; the result is the number of clients that were handed the
    message. *)
Theorem broadcast_delivers_to_matching_observers message l s :
  wss s = true ->
  l <> [] ->
  let frame :=
    match message with
    | JStr text => text
    | _ => JSON_stringify message
    end in
  let after := (broadcast message (JArr l) s).1 in
  (forall i c,
      clients s !! i = Some c ->
      state (ws c) = OPEN ->
      exists c',
        clients after !! i = Some c'
        /\ (received frame c c'
            <-> (exists t, JStr t ∈ l /\ t ∈ topics c) \/ "*" ∈ topics c)
        /\ (~ received frame c c' -> c' = c))
  /\ (broadcast message (JArr l) s).2
     = Some (deliveries (clients s) (clients after)).
Proof.
  intros Hwss Hl frame after. subst after.
  change frame with (messageString message). clear frame.
  unfold broadcast. rewrite Hwss.
  pose proof (forEach_count (JArr l) (messageString message) (clients s) 0)
    as Hcount.
  pose proof (forEach_lookup (JArr l) (messageString message) (clients s) 0)
    as Hlookup.
  destruct (forEach _ (clients s) 0) as [cs n] eqn:Hf. simpl in *.
  split; [| by rewrite Hcount].
  intros i c Hi Hopen. destruct (Hlookup i c Hi) as [k Hk].
  eexists. split; [exact Hk |].
  assert (Hsends : sends (JArr l) c = true
                   <-> (exists t, JStr t ∈ l /\ t ∈ topics c)
                       \/ "*" ∈ topics c).
  { unfold sends. rewrite Hopen. destruct l as [| v l']; [done |].
    simpl hasTopicFilter. simpl topicList.
    rewrite <- (hasMatchingTopic_spec (v :: l') c) by done.
    destruct (hasMatchingTopic (v :: l') c); simpl; done. }
  split.
  - by rewrite visit_received.
  - intros Hnot. rewrite visit_received in Hnot.
    rewrite visit_skips; [done |]. by destruct (sends (JArr l) c).
Qed.

(** C10.  A broadcast whose topics are the empty list, or not an array at
    all, on an initialised server: every client whose socket is open is
    handed the message, a string as it is and anything else as its JSON
    text, whatever the topics of the client, also when it has none. *)
Theorem broadcast_without_filter_reaches_every_open_socket message topics s :
  wss s = true ->
  (forall l, topics = JArr l -> l = []) ->
  forall i c,
    clients s !! i = Some c ->
    state (ws c) = OPEN ->
    let frame :=
      match message with
      | JStr text => text
      | _ => JSON_stringify message
      end in
    exists c',
      clients (broadcast message topics s).1 !! i = Some c'
      /\ received frame c c'.
Proof.
  intros Hwss Htopics i c Hi Hopen frame.
  change frame with (messageString message). clear frame.
  unfold broadcast. rewrite Hwss.
  set (topics' := match topics with JUndefined => JArr [] | _ => topics end).
  pose proof (forEach_lookup topics' (messageString message) (clients s) 0)
    as Hlookup.
  destruct (forEach _ (clients s) 0) as [cs n] eqn:Hf. simpl in *.
  destruct (Hlookup i c Hi) as [k Hk].
  eexists. split; [exact Hk |].
  apply visit_received. unfold sends. rewrite Hopen.
  assert (Hfilter : hasTopicFilter topics' = false).
  { subst topics'. destruct topics as [| | | | | | l |]; try done.
    by rewrite (Htopics l eq_refl). }
  by rewrite Hfilter.
Qed.

End FanOut.

Section FanOutSample.
Import WebSocketServer.
#[local] Existing Instance Sample.runtime.

(** The observers of orders and of everything are handed an order; the
    observers of logs and of nothing, and the closed socket, are not. *)
Example broadcast_tagged_orders :
  let after := broadcast (JStr "order 1")
                 (JArr [JStr "orders"; JStr "kafka"; JStr "all"])
                 Sample.server in
  (fun c => sent (ws c)) <$> clients after.1
  = [["order 1"]; []; ["order 1"]; []; []]
  /\ after.2 = Some 2%nat.
Proof. vm_compute. done. Qed.

Example broadcast_tagged_logs :
  let after := broadcast (JStr "line 1")
                 (JArr [JStr "logs"; JStr "kafka"; JStr "all"])
                 Sample.server in
  (fun c => sent (ws c)) <$> clients after.1
  = [[]; ["line 1"]; ["line 1"]; []; []]
  /\ after.2 = Some 2%nat.
Proof. vm_compute. done. Qed.

Lemma orders_broadcast_matches_observers :
  let l := [JStr "orders"; JStr "kafka"; JStr "all"] in
  let frame := "order 1" in
  let after := (broadcast (JStr "order 1") (JArr l) Sample.server).1 in
  (forall i c,
      clients Sample.server !! i = Some c ->
      state (ws c) = OPEN ->
      exists c',
        clients after !! i = Some c'
        /\ (received frame c c'
            <-> (exists t, JStr t ∈ l /\ t ∈ topics c) \/ "*" ∈ topics c)
        /\ (~ received frame c c' -> c' = c))
  /\ (broadcast (JStr "order 1") (JArr l) Sample.server).2
     = Some (deliveries (clients Sample.server) (clients after)).
Proof.
  refine (broadcast_delivers_to_matching_observers (JStr "order 1")
            [JStr "orders"; JStr "kafka"; JStr "all"] Sample.server _ _).
  - reflexivity.
  - discriminate.
Defined.

Lemma unfiltered_broadcast_reaches_observer_of_nothing :
  exists c',
    clients (broadcast (JStr "notice") (JArr []) Sample.server).1 !! 3%nat
    = Some c'
    /\ received "notice" (Sample.observer "d" []) c'.
Proof.
  refine (broadcast_without_filter_reaches_every_open_socket (JStr "notice")
            (JArr []) Sample.server _ _ 3%nat (Sample.observer "d" []) _ _).
  - reflexivity.
  - intros l [= <-]. reflexivity.
  - reflexivity.
  - reflexivity.
Defined.

End FanOutSample.

(** * The outbound path *)
Section Outbound.
Context `{rt : Runtime} `{vd : Validator} `{cipher : Cipher} `{cl : Clients}.

(** C6.  [produceMessage] with validation enabled, a payload the validator
    rejects and [options.requireValidation] set: the call throws the
    validation error, the broker is as before (no publish function was
    called, nothing was sent) and nothing was broadcast. *)
Theorem invalid_message_is_rejected_before_publish
    process iv topic message options clock random w :
  let result :=
    validateMessage (Js.or (Js.get options "messageType") (JStr "default"))
      message in
  MessageValidator.valid result = false ->
  Js.truthy (Js.get options "requireValidation") = true ->
  (clock 1%nat <= Js.MAX_TIME)%N ->
  let after :=
    KafkaProducer.produceMessage true process iv topic message options clock
      random w in
  after.2 = inl (Error ("Message validation failed: "
                        ++ Js.toString (MessageValidator.error result)))
  /\ brokers after.1 = brokers w
  /\ hub after.1 = hub w.
Proof.
  intros result Hinvalid Hrequire Hclock after. subst after.
  unfold KafkaProducer.produceMessage, KafkaProducer.attempt.
  unfold Date_toISOString.
  destruct (N.leb_spec (clock 1%nat) Js.MAX_TIME); [| lia].
  fold result. rewrite Hinvalid, Hrequire. simpl. done.
Qed.

(** The controller refuses an invalid payload whenever validation is
    enabled, before it reads the destination: the world is untouched. *)
Lemma controller_rejects_invalid_message
    process iv body user clock random w :
  MessageValidator.valid
    (validateMessage
       (Js.orDefault (Js.get body "messageType") (JStr "default"))
       (Js.get body "message")) = false ->
  exists reason errors,
    MessageController.publishMessage true process iv body user clock random
      w
    = (w, MessageController.BadRequest reason errors).
Proof.
  intros Hinvalid. unfold MessageController.publishMessage.
  destruct (negb (Js.truthy (Js.get body "destination"))); [eauto |].
  destruct (negb (Js.truthy (Js.get body "message"))); [eauto |].
  rewrite Hinvalid. simpl. eauto.
Qed.

End Outbound.

Section OutboundSample.
#[local] Existing Instance Sample.runtime.
#[local] Existing Instance Sample.validator.
#[local] Existing Instance Sample.cipher.
#[local] Existing Instance Sample.obliging.

Lemma string_payload_is_rejected :
  let after :=
    KafkaProducer.produceMessage true Sample.process Sample.iv "orders"
      (JStr "not an order") {["requireValidation" := JBool true]}
      (fun _ => 1000%N) "k3x9" Sample.world in
  after.2 = inl (Error ("Message validation failed: "
                        ++ Js.toString (JStr "data must be object")))
  /\ brokers after.1 = brokers Sample.world
  /\ hub after.1 = hub Sample.world.
Proof.
  refine (invalid_message_is_rejected_before_publish Sample.process
            Sample.iv "orders" (JStr "not an order")
            {["requireValidation" := JBool true]} (fun _ => 1000%N) "k3x9"
            Sample.world _ _ _).
  - reflexivity.
  - reflexivity.
  - vm_compute. discriminate.
Defined.

End OutboundSample.

(** * Consumer registration *)
Section Registration.
Import Consumer.
Context `{ad : Adapter}.

(** C8.  After a call of [createConsumer] that returned a consumer for a
    source, a second call for that source returns the same consumer and
    leaves the module and the adapter as they were: no consumer is created,
    and the live consumers of the source are those there were. *)
Theorem createConsumer_is_idempotent source r r1 consumer :
  createConsumer source r = (r1, inr consumer) ->
  createConsumer source r1 = (r1, inr consumer)
  /\ created (backend (createConsumer source r1).1) = created (backend r1)
  /\ liveFor source (createConsumer source r1).1 = liveFor source r1.
Proof.
  intros Hfirst.
  assert (Hreg : activeConsumers r1 !! source = Some consumer).
  { revert Hfirst. unfold createConsumer.
    destruct (activeConsumers r !! source) as [c |] eqn:Hc.
    - intros [= <- <-]. exact Hc.
    - destruct (createBackendConsumer source (backend r)) as [c' [e | h]];
        [discriminate |].
      intros [= <- <-]. simpl. apply lookup_insert_eq. }
  assert (Hsecond : createConsumer source r1 = (r1, inr consumer)).
  { unfold createConsumer. by rewrite Hreg. }
  by rewrite Hsecond.
Qed.

End Registration.

(** With either adapter, two calls on a connected backend that has no
    consumer yet leave exactly one live consumer for the source. *)
Lemma two_calls_one_live_consumer (kafka : bool) source :
  let ad := if kafka then Backend.kafka else Backend.rabbitmq in
  let fresh := Consumer.mkRegistry ∅ (mkConnection true true 0 []) in
  let once := (Consumer.createConsumer source fresh).1 in
  let twice := (Consumer.createConsumer source once).1 in
  (Consumer.createConsumer source fresh).2 = inr 0%nat
  /\ (Consumer.createConsumer source once).2 = inr 0%nat
  /\ Consumer.liveFor source twice = [0%nat].
Proof.
  destruct kafka; simpl; unfold Consumer.createConsumer; simpl;
    rewrite lookup_empty; simpl; rewrite lookup_insert_eq; simpl;
    unfold Consumer.liveFor; simpl;
    rewrite filter_cons_True by done; done.
Qed.

Lemma kafka_topic_registered_twice :
  let ad := Backend.kafka in
  let fresh := Consumer.mkRegistry ∅ (mkConnection true true 0 []) in
  let r1 := (Consumer.createConsumer "orders" fresh).1 in
  Consumer.createConsumer "orders" r1 = (r1, inr 0%nat)
  /\ created (Consumer.backend (Consumer.createConsumer "orders" r1).1)
     = created (Consumer.backend r1)
  /\ Consumer.liveFor "orders" (Consumer.createConsumer "orders" r1).1
     = Consumer.liveFor "orders" r1.
Proof.
  apply (@createConsumer_is_idempotent Backend.kafka "orders"
           (Consumer.mkRegistry ∅ (mkConnection true true 0 []))).
  reflexivity.
Defined.

(** * Transaction ids *)






Section TransactionIds.
Import ErrorQueue.
Context `{rt : Runtime} `{cipher : Cipher} `{cl : Clients}.


End TransactionIds.

Section TransactionIdsSample.
Import ErrorQueue.
#[local] Existing Instance Sample.runtime.
#[local] Existing Instance Sample.cipher.
#[local] Existing Instance Sample.obliging.


End TransactionIdsSample.

(** * Hexadecimal text *)
Section HexFacts.
Import Hex.

Lemma value_high_digit b :
  value (digit (N_of_ascii b / 16)) = Some (N_of_ascii b / 16)%N.
Proof. destruct b as [[] [] [] [] [] [] [] []]; reflexivity. Qed.

Lemma value_low_digit b :
  value (digit (N_of_ascii b mod 16)) = Some (N_of_ascii b mod 16)%N.
Proof. destruct b as [[] [] [] [] [] [] [] []]; reflexivity. Qed.

Lemma byte_of_digits b :
  ascii_of_N (16 * (N_of_ascii b / 16) + N_of_ascii b mod 16) = b.
Proof.
  rewrite <- N.div_mod by done. apply ascii_N_embedding.
Qed.

Lemma hex_decode_encode l : decode (encode l) = l.
Proof.
  induction l as [| b l IH]; [done |].
  simpl. rewrite value_high_digit, value_low_digit, byte_of_digits.
  by rewrite IH.
Qed.

(** Whatever follows the digits is dropped when it begins with a character
    that is no hexadecimal digit. *)
Lemma hex_decode_encode_then l c rest :
  value c = None -> decode (encode l ++ String c rest) = l.
Proof.
  intros Hc. induction l as [| b l IH].
  - simpl. change ("" ++ String c rest) with (String c rest).
    destruct rest as [| d rest]; simpl; [done |]. by rewrite Hc.
  - simpl encode. rewrite !append_cons. simpl decode.
    rewrite value_high_digit, value_low_digit, byte_of_digits.
    by rewrite IH.
Qed.

Lemma length_hex_encode l : String.length (encode l) = (2 * length l)%nat.
Proof. induction l as [| b l IH]; simpl; [done | rewrite IH; lia]. Qed.

Lemma digit_in_digits n : (n < 16)%N -> digit n ∈ digits.
Proof.
  intros Hn. unfold digit. apply list_elem_of_In, nth_In.
  change (length digits) with 16%nat. lia.
Qed.

Lemma hex_encode_digits l :
  Forall (fun c => c ∈ digits) (list_ascii_of_string (encode l)).
Proof.
  induction l as [| b l IH]; simpl; [constructor |].
  assert (Hb : (N_of_ascii b < 256)%N) by apply N_ascii_bounded.
  apply Forall_cons_2; [| apply Forall_cons_2; [| exact IH]];
    apply digit_in_digits.
  - apply N.Div0.div_lt_upper_bound. lia.
  - apply N.mod_lt. lia.
Qed.

End HexFacts.

Section Prefixes.

Lemma length_substring_prefix s : forall n,
  (n <= String.length s)%nat -> String.length (substring 0 n s) = n.
Proof.
  induction s as [| c s IH]; intros [| n] Hn; simpl in *; try done; try lia.
  rewrite IH; lia.
Qed.

Lemma Forall_substring_prefix (P : ascii -> Prop) s : forall n,
  Forall P (list_ascii_of_string s) ->
  Forall P (list_ascii_of_string (substring 0 n s)).
Proof.
  induction s as [| c s IH]; intros [| n] Hs; simpl in *;
    try constructor.
  - by inversion Hs.
  - apply IH. by inversion Hs.
Qed.

Lemma double_div2_S n : (n <= 2 * Nat.div2 (S n))%nat.
Proof.
  induction n as [n IH] using lt_wf_ind.
  destruct n as [| [| n]]; simpl; try lia.
  specialize (IH n ltac:(lia)). simpl in IH. lia.
Qed.

End Prefixes.

(** * Random strings, hashes and signatures *)
Section SecretsFacts.
Import Secrets.
Context `{rt : Runtime} `{dg : Digests}.

(** X1.  [generateRandomString(length)], when the random source delivers
    the bytes it is asked for, returns exactly [length] characters, for odd
    lengths too, and all of them are lower-case hexadecimal digits. *)
Theorem generateRandomString_has_requested_length len randomBytes :
  length (randomBytes (Nat.div2 (S len))) = Nat.div2 (S len) ->
  let s := generateRandomString len randomBytes in
  String.length s = len
  /\ Forall (fun c => c ∈ Hex.digits) (list_ascii_of_string s).
Proof.
  intros Hrandom s. subst s. unfold generateRandomString. split.
  - apply length_substring_prefix.
    rewrite length_hex_encode, Hrandom. apply double_div2_S.
  - apply Forall_substring_prefix, hex_encode_digits.
Qed.

Lemma hex_encode_not_empty l :
  l <> [] -> String.eqb (Hex.encode l) "" = false.
Proof. by destruct l. Qed.

(** X2.  A hash made by [hashString], with a salt given or drawn, is
    accepted by [verifyHash] for the same data under the salt [hashString]
    returned; the verification draws no salt of its own. *)
Theorem verifyHash_accepts_hashString data salt randomBytes randomBytes' :
  length (randomBytes 16%nat) = 16%nat ->
  let h := hashString data salt randomBytes in
  verifyHash data (hash h) (Some (Secrets.salt h)) randomBytes' = true.
Proof.
  intros Hrandom h. subst h. unfold verifyHash.
  assert (Hdrawn : String.eqb (Hex.encode (randomBytes 16%nat)) "" = false).
  { apply hex_encode_not_empty. intros Hnil. by rewrite Hnil in Hrandom. }
  assert (Hsalt : String.eqb (Secrets.salt (hashString data salt randomBytes))
                    "" = false).
  { unfold hashString. simpl. destruct salt as [s |]; [| done].
    by destruct (String.eqb s "") eqn:Hs. }
  unfold hashString at 1. rewrite Hsalt. simpl. apply String.eqb_refl.
Qed.

Lemma textOf_returns data :
  data <> JUndefined -> exists text, textOf data = inr text.
Proof. destruct data; simpl; eauto. done. Qed.

(** X3.  The signature [createSignature] makes of any data other than
    [undefined] is accepted by [verifySignature] for the same data and
    key; and since a signature is read up to its first character that is
    not a hexadecimal digit, it is accepted as well when any text that
    begins with such a character follows it. *)
Theorem verifySignature_accepts_createSignature data key :
  data <> JUndefined ->
  exists signature,
    createSignature data key = inr signature
    /\ verifySignature data signature key = inr true
    /\ forall c rest,
         Hex.value c = None ->
         verifySignature data (signature ++ String c rest) key = inr true.
Proof.
  intros Hdata. destruct (textOf_returns data Hdata) as [text Htext].
  unfold verifySignature, createSignature. rewrite Htext.
  eexists. split; [reflexivity |].
  unfold timingSafeEqual. split.
  - rewrite Nat.eqb_refl. by rewrite bool_decide_eq_true_2.
  - intros c rest Hc. rewrite hex_decode_encode_then by done.
    rewrite hex_decode_encode, Nat.eqb_refl.
    by rewrite bool_decide_eq_true_2.
Qed.

(** X4.  [verifySignature] does not answer [false] to a signature of the
    wrong size: when the signature decodes to a number of bytes other than
    the 32 of the HMAC, the comparison throws a [RangeError]. *)
Theorem verifySignature_throws_on_other_length data signature key :
  DigestLaws ->
  data <> JUndefined ->
  length (Hex.decode signature) <> 32%nat ->
  verifySignature data signature key = inl RangeError.
Proof.
  intros Hlaws Hdata Hlen.
  destruct (textOf_returns data Hdata) as [text Htext].
  unfold verifySignature, createSignature. rewrite Htext.
  unfold timingSafeEqual. rewrite hex_decode_encode, hmac_length.
  destruct (Nat.eqb_spec 32 (length (Hex.decode signature))); [| done].
  congruence.
Qed.

End SecretsFacts.

Section SecretsSample.
Import Secrets.
#[local] Existing Instance Sample.runtime.
#[local] Existing Instance Fixture.digests.

Lemma fixture_digest_laws : @DigestLaws Fixture.digests.
Proof. split. intros key data. reflexivity. Qed.

Lemma random_string_of_five :
  let s := generateRandomString 5 Fixture.randomBytes in
  String.length s = 5%nat
  /\ Forall (fun c => c ∈ Hex.digits) (list_ascii_of_string s).
Proof.
  refine (generateRandomString_has_requested_length 5 Fixture.randomBytes _).
  reflexivity.
Defined.

Lemma hash_of_password_verifies :
  let h := hashString "secret" None Fixture.randomBytes in
  verifyHash "secret" (hash h) (Some (Secrets.salt h)) (fun _ => []) = true.
Proof.
  refine (verifyHash_accepts_hashString "secret" None Fixture.randomBytes
            (fun _ => []) _).
  reflexivity.
Defined.

Lemma signature_of_text_verifies :
  exists signature,
    createSignature (JStr "payload") Encryption.ENCRYPTION_KEY
    = inr signature
    /\ verifySignature (JStr "payload") signature Encryption.ENCRYPTION_KEY
       = inr true
    /\ forall c rest,
         Hex.value c = None ->
         verifySignature (JStr "payload") (signature ++ String c rest)
           Encryption.ENCRYPTION_KEY
         = inr true.
Proof.
  refine (verifySignature_accepts_createSignature (JStr "payload")
            Encryption.ENCRYPTION_KEY _).
  discriminate.
Defined.

(** A signature with a remark appended passes. *)
Example signature_with_suffix_verifies :
  verifySignature (JStr "payload")
    (Hex.encode (hmacSha256 Encryption.ENCRYPTION_KEY "payload")
     ++ "! not part of the signature")
    Encryption.ENCRYPTION_KEY
  = inr true.
Proof. vm_compute. reflexivity. Qed.

Lemma short_signature_throws :
  verifySignature (JStr "payload") "abcd" Encryption.ENCRYPTION_KEY
  = inl RangeError.
Proof.
  refine (verifySignature_throws_on_other_length (JStr "payload") "abcd"
            Encryption.ENCRYPTION_KEY fixture_digest_laws _ _).
  - discriminate.
  - vm_compute. discriminate.
Defined.

End SecretsSample.

(** * Failure recovery: what reaches the broker *)
Section FailureRecords.
Import ErrorQueue.
Context `{rt : Runtime} `{cipher : Cipher} `{cl : Clients}.

(** X5.  [handleFailedMessage] hands at most one record to the broker, and
    exactly one when it answers [true].  When it answers [false] nothing
    has gone out, except on the RabbitMQ side under publisher confirms,
    where the record can have gone before its confirmation failed. *)
Theorem handleFailedMessage_publishes_one_record_or_none
    process iv cfg source md t0 t1 b :
  let after := handleFailedMessage process iv cfg source md t0 t1 b in
  exists news,
    outbox after.1 = (outbox b ++ news)%list
    /\ (after.2 = true -> length news = 1%nat)
    /\ (after.2 = false ->
        news = []
        \/ source <> "kafka"
           /\ Process.RABBITMQ_PUBLISHER_CONFIRMS process = true
           /\ length news = 1%nat).
Proof.
  intros after.
  destruct (handleFailedMessage_news process iv cfg source md t0 t1 b)
    as (news & Hout & [Htrue Hfalse] & _).
  exists news. split; [exact Hout |]. split; [exact Htrue |].
  intros Hanswer.
  destruct (Hfalse Hanswer) as [-> | (Hsource & Hconfirms & Hone)];
    [by left | right].
  split; [| done]. intros ->. discriminate.
Qed.

(** X6.  A RabbitMQ failure below the retry bound that
    [handleFailedMessage] reports as recorded: the retry record has gone to
    the retry queue through the default exchange; that queue was asserted
    with a time-to-live equal to the backoff delay and with the queue the
    message came from as its dead-letter routing key on the default
    exchange, and the record expires after the same delay. *)
Theorem rabbitmq_retry_returns_to_its_queue process iv cfg md t0 t1 b b' :
  let n := default 0%N (retryCount md) in
  let delay := (2 ^ (n + 1) * 1000)%N in
  let retryQueue := Js.env_or (env cfg) "RETRY_QUEUE" "streambridge.retry" in
  (n < MAX_RETRIES cfg)%N ->
  handleFailedMessage process iv cfg "rabbitmq" md t0 t1 b = (b', true) ->
  exists record options,
    outbox b'
    = (outbox b ++ [QueueRecord "" (JStr retryQueue) (JObj record) options])%list
    /\ asserted b'
       = (asserted b
          ++ [AssertQueue retryQueue
                (JObj (<["messageTtl" := JNum delay]>
                      (<["deadLetterRoutingKey" := queue md]>
                      {["deadLetterExchange" := JStr ""]})))])%list
    /\ Js.prop (Js.get options "messageOptions") "expiration"
       = Some (JStr (Js.decimal delay))
    /\ Js.get record "retryDelay" = JNum delay
    /\ Js.get record "retryCount" = JNum (n + 1).
Proof.
  intros n delay retryQueue Hn. unfold handleFailedMessage.
  destruct (Date_toISOString t0) as [e | timestamp]; [discriminate |].
  unfold originalMessage.
  destruct (message md) as [m |]; [| discriminate]. simpl.
  fold n. destruct (N.ltb_spec n (MAX_RETRIES cfg)); [| lia].
  unfold sendToRetryQueue, retryDelayMs, Js.get at 1.
  rewrite lookup_insert_eq. simpl. fold delay.
  destruct (Date_toISOString (t1 + delay)) as [e | retryAt];
    [discriminate |].
  unfold errorRecord at 1. unfold Js.get at 1.
  rewrite lookup_insert_ne, lookup_insert_eq by done. simpl.
  match goal with
  | |- context [Broker.publishToQueue ?p ?i ?q ?m ?o ?b0] =>
    destruct (publishToQueue_news p i q m o b0) as (Hreturns & _);
    destruct (Broker.publishToQueue p i q m o b0) as [b1 [e | v]]
  end; simpl in *; [discriminate |].
  intros [= <-]. destruct (Hreturns eq_refl) as [Hout Hasserted].
  eexists _, _. split; [exact Hout |]. split; [exact Hasserted |].
  repeat split; reflexivity.
Qed.

End FailureRecords.

Section FailureRecordsSample.
Import ErrorQueue.
#[local] Existing Instance Sample.runtime.
#[local] Existing Instance Sample.cipher.

Lemma task_retry_returns_to_tasks :
  exists record options,
    outbox (@handleFailedMessage _ _ Sample.obliging Sample.process
              Sample.iv defaults "rabbitmq"
              (rabbitmqFailure "tasks" Fixture.delivery (JStr "handler failed"))
              1000 2000 Sample.connected).1
    = (outbox Sample.connected
       ++ [QueueRecord "" (JStr "streambridge.retry") (JObj record) options])%list
    /\ asserted (@handleFailedMessage _ _ Sample.obliging Sample.process
                   Sample.iv defaults "rabbitmq"
                   (rabbitmqFailure "tasks" Fixture.delivery
                      (JStr "handler failed"))
                   1000 2000 Sample.connected).1
       = (asserted Sample.connected
          ++ [AssertQueue "streambridge.retry"
                (JObj (<["messageTtl" := JNum 2000]>
                      (<["deadLetterRoutingKey" := JStr "tasks"]>
                      {["deadLetterExchange" := JStr ""]})))])%list
    /\ Js.prop (Js.get options "messageOptions") "expiration"
       = Some (JStr (Js.decimal 2000))
    /\ Js.get record "retryDelay" = JNum 2000
    /\ Js.get record "retryCount" = JNum 1.
Proof.
  refine (@rabbitmq_retry_returns_to_its_queue _ _ Sample.obliging
            Sample.process Sample.iv defaults
            (rabbitmqFailure "tasks" Fixture.delivery (JStr "handler failed"))
            1000 2000 Sample.connected _ _ _).
  - reflexivity.
  - vm_compute. reflexivity.
Defined.

(** The two ways of answering [false]: under the key of the test setup,
    which the cipher refuses, nothing goes out; under publisher confirms on
    a channel that does not confirm, the record has gone. *)
Example failure_that_is_not_recorded :
  let unsealed :=
    @handleFailedMessage _ _ Sample.obliging Fixture.testing Sample.iv
      defaults "kafka" Sample.failure 1000 2000 Sample.connected in
  let unconfirmed :=
    @handleFailedMessage _ _ Fixture.unconfirmed Fixture.confirming Sample.iv
      defaults "rabbitmq"
      (rabbitmqFailure "tasks" Fixture.delivery (JStr "handler failed"))
      1000 2000 Sample.connected in
  unsealed.2 = false /\ length (outbox unsealed.1) = 0%nat
  /\ unconfirmed.2 = false /\ length (outbox unconfirmed.1) = 1%nat.
Proof. vm_compute. done. Qed.

End FailureRecordsSample.

(** * What travels between the adapters *)
Section Wire.
Context `{rt : Runtime} `{cipher : Cipher}.

(** The envelope of a text decrypts to the text. *)
Lemma envelope_opens key iv text :
  CipherLaws (list_ascii_of_string key) ->
  length (list_ascii_of_string key) = 32%nat ->
  length iv = Encryption.IV_LENGTH ->
  exists envelope,
    Encryption.encryptData key iv text = inr envelope
    /\ Encryption.decryptData key envelope = inr text.
Proof.
  intros Hlaws Hk Hiv. unfold Encryption.encryptData.
  rewrite (accepts_key_and_iv _ iv Hk Hiv).
  eexists. split; [reflexivity |].
  rewrite decryptData_format;
    [| done | done | apply tag_length | apply full_tag_accepted].
  rewrite verify_own_tag, decrypt_encrypt.
  by rewrite string_of_list_ascii_of_string.
Qed.

(** [decryptData] has one error. *)
Lemma decryptData_error key s e :
  Encryption.decryptData key s = inl e -> e = Error "Failed to decrypt data".
Proof.
  unfold Encryption.decryptData.
  repeat match goal with
         | |- context [match ?x with _ => _ end] => destruct x
         end; congruence.
Qed.

(** X7.  What [publishMessage] of kafka.js puts on the wire for a message
    other than [undefined], the consume loop reads back as the text of the
    message, with encryption off and, under a key of 32 bytes and the laws
    of the cipher, with encryption on. *)
Theorem kafka_value_round_trip (ENCRYPT_MESSAGES : bool) key iv message :
  (ENCRYPT_MESSAGES = true ->
   CipherLaws (list_ascii_of_string key)
   /\ length (list_ascii_of_string key) = 32%nat
   /\ length iv = Encryption.IV_LENGTH) ->
  message <> JUndefined ->
  exists text value,
    textOf message = inr text
    /\ Broker.messageValue ENCRYPT_MESSAGES key iv message = inr value
    /\ KafkaConfig.consumedValue ENCRYPT_MESSAGES key (JBuf value)
       = inr (JStr text).
Proof.
  intros Hkey Hmessage.
  destruct (textOf_returns message Hmessage) as [text Htext].
  unfold Broker.messageValue, KafkaConfig.consumedValue.
  rewrite Htext. destruct ENCRYPT_MESSAGES; simpl.
  - destruct (Hkey eq_refl) as (Hlaws & Hk & Hiv).
    destruct (envelope_opens key iv text Hlaws Hk Hiv)
      as (envelope & Henc & Hdec).
    exists text, envelope. by rewrite Henc, Hdec.
  - by exists text, text.
Qed.

(** X8.  The same for rabbitmq.js: the content [publishMessage] makes of a
    message that is neither [undefined] nor a buffer, the consume callback
    reads back as the text of the message, parsed when it is JSON. *)
Theorem rabbitmq_content_round_trip (ENCRYPT_MESSAGES : bool) key iv message :
  (ENCRYPT_MESSAGES = true ->
   CipherLaws (list_ascii_of_string key)
   /\ length (list_ascii_of_string key) = 32%nat
   /\ length iv = Encryption.IV_LENGTH) ->
  message <> JUndefined ->
  (forall bytes, message <> JBuf bytes) ->
  exists text sent,
    textOf message = inr text
    /\ Broker.msgContent ENCRYPT_MESSAGES key iv message = inr sent
    /\ RabbitMQConfig.content ENCRYPT_MESSAGES key {["content" := JBuf sent]}
       = inr (default (JStr text) (JSON_parse text)).
Proof.
  intros Hkey Hmessage Hbuffer.
  destruct (textOf_returns message Hmessage) as [text Htext].
  unfold Broker.msgContent, RabbitMQConfig.content.
  assert (Hplain : match message with
                   | JBuf bytes => inr bytes
                   | _ => textOf message
                   end = inr text).
  { destruct message; try done. by destruct (Hbuffer bytes). }
  rewrite Hplain. destruct ENCRYPT_MESSAGES; simpl.
  - destruct (Hkey eq_refl) as (Hlaws & Hk & Hiv).
    destruct (envelope_opens key iv text Hlaws Hk Hiv)
      as (envelope & Henc & Hdec).
    exists text, envelope. rewrite Henc. split; [done |]. split; [done |].
    unfold Js.get. rewrite lookup_singleton_eq. simpl. by rewrite Hdec.
  - exists text, text. split; [done |]. split; [done |].
    unfold Js.get. by rewrite lookup_singleton_eq.
Qed.

End Wire.

(** * The consume loops and the error queue *)
Section ConsumeLoops.
Import ErrorQueue.
Context `{rt : Runtime} `{cipher : Cipher} `{cl : Clients} `{wd : Wording}.

(** X9.  When the [try] block of the Kafka consume loop throws (the value
    does not decrypt, or the handler throws) and what was thrown has a
    message, with retries configured: [eachMessage] returns, and the hub
    and the metrics are as the handler left them.  When failure recovery
    reports the failure as recorded, exactly one record has gone out, to
    the retry topic: a retry record with the retry count 1 and the message
    of what was thrown, whatever the message had been through before.
    When it does not, nothing has gone out. *)
Theorem kafka_consume_failure_is_scheduled_for_retry
    process iv cfg messageHandler topic partition message t0 t1 w w1 error
    text :
  KafkaConfig.attempt (Process.ENCRYPT_MESSAGES process)
    (Process.ENCRYPTION_KEY process) messageHandler topic partition message w
  = (w1, inl error) ->
  messageOf error = inr text ->
  (0 < MAX_RETRIES cfg)%N ->
  let recovery :=
    handleFailedMessage process iv cfg "kafka"
      (kafkaFailure topic message text) t0 t1 (brokers w1) in
  let after :=
    KafkaConfig.eachMessage process iv cfg messageHandler topic partition
      message t0 t1 w in
  after.2 = inr tt
  /\ hub after.1 = hub w1
  /\ metrics after.1 = metrics w1
  /\ (recovery.2 = true ->
      exists r,
        outbox (brokers after.1) = (outbox (brokers w1) ++ [r])%list
        /\ isRetry r = true /\ isDeadLetter r = false
        /\ recordedRetryCount r = Some 1%N
        /\ Js.get (body r) "error" = text
        /\ destination r
           = JStr (Js.env_or (env cfg) "RETRY_TOPIC" "streambridge.retry"))
  /\ (recovery.2 = false ->
      outbox (brokers after.1) = outbox (brokers w1)).
Proof.
  intros Hattempt Htext Hmax recovery after. subst after.
  unfold KafkaConfig.eachMessage. rewrite Hattempt.
  destruct (kafka_failed_news process iv cfg topic message error text t0 t1
              w1 Htext) as (-> & news & Hout & [Htrue Hfalse] & Hnews).
  fold recovery in Htrue, Hfalse |- *. simpl in *.
  split; [done |]. split; [done |]. split; [done |]. split.
  - intros Hrecorded.
    destruct (one_record news (Htrue Hrecorded)) as [r ->].
    apply Forall_inv in Hnews as [Hmarked Herror].
    exists r. split; [exact Hout |].
    unfold marked in Hmarked.
    destruct (N.ltb_spec 0 (MAX_RETRIES cfg)); [| lia].
    by destruct Hmarked as (? & ? & ? & ?).
  - intros Hrecorded.
    destruct (Hfalse Hrecorded) as [-> | (Hsource & _)];
      [by rewrite app_nil_r in Hout | discriminate].
Qed.

(** X10.  With encryption on, a Kafka value that does not decrypt never
    reaches the handler: the [try] block throws the error of [decryptData]
    and leaves the world as it was, whatever the handler is. *)
Theorem undecryptable_kafka_value_skips_the_handler
    key messageHandler topic partition message w e :
  Js.truthy (Js.get message "value") = true ->
  Encryption.decryptData key (Js.toString (Js.get message "value")) = inl e ->
  KafkaConfig.attempt true key messageHandler topic partition message w
  = (w, inl (Raised (Error "Failed to decrypt data"))).
Proof.
  intros Hvalue Hdecrypt.
  unfold KafkaConfig.attempt, KafkaConfig.handlerInput,
    KafkaConfig.consumedValue.
  rewrite Hvalue, Hdecrypt. simpl.
  by rewrite (decryptData_error _ _ _ Hdecrypt).
Qed.

(** What the inner [try] of the RabbitMQ callback does once it has the
    message of what was thrown, on an open channel. *)
Lemma rabbitmq_recover_news process iv cfg queue msg error text t0 t1 w :
  messageOf error = inr text ->
  let recovery :=
    handleFailedMessage process iv cfg "rabbitmq"
      (rabbitmqFailure queue msg text) t0 t1 (brokers w) in
  let after :=
    RabbitMQConfig.recover process iv true cfg queue msg error t0 t1 w in
  after = (withBroker w recovery.1, inr RabbitMQConfig.Ack)
  /\ exists news,
       outbox (brokers after.1) = (outbox (brokers w) ++ news)%list
       /\ added process "rabbitmq" recovery.2 news
       /\ Forall (fun r => marked cfg "rabbitmq" 0 r
                           /\ Js.get (body r) "error" = text) news.
Proof.
  intros Htext recovery after. subst after recovery.
  unfold RabbitMQConfig.recover. rewrite Htext. split; [done |]. simpl.
  destruct (handleFailedMessage_news process iv cfg "rabbitmq"
              (rabbitmqFailure queue msg text) t0 t1 (brokers w))
    as (news & Hout & Hadded & Hnews).
  destruct (handleFailedMessage_marked process iv cfg "rabbitmq"
              (rabbitmqFailure queue msg text) t0 t1 (brokers w))
    as (news' & Hout' & _ & Hmarked).
  rewrite Hout in Hout'. apply app_inv_head in Hout' as <-.
  exists news. split; [exact Hout |]. split; [exact Hadded |].
  apply Forall_and. split; [exact Hmarked |].
  eapply Forall_impl; [exact Hnews |].
  intros r (timestamp & original & _ & _ & Hr). simpl in Hr.
  destruct (0 <? MAX_RETRIES cfg)%N; destruct Hr as [-> _]; reflexivity.
Qed.

(** X11.  When the [try] block of the RabbitMQ consume callback throws
    something that has a message, on an open channel, the delivery is
    acknowledged whether or not the failure could be recorded.  At most
    one record has gone out, and one when failure recovery reports the
    failure as recorded; without publisher confirms none has gone out when
    it does not.  With retries configured, the record is a retry record
    with the retry count 1 and the message of what was thrown, for the
    retry queue. *)
Theorem rabbitmq_consume_failure_is_acknowledged
    process iv cfg requeue messageHandler queue msg t0 t1 w w1 error text :
  RabbitMQConfig.attempt (Process.ENCRYPT_MESSAGES process)
    (Process.ENCRYPTION_KEY process) true requeue messageHandler queue msg w
  = (w1, inl error) ->
  messageOf error = inr text ->
  (0 < MAX_RETRIES cfg)%N ->
  let recovery :=
    handleFailedMessage process iv cfg "rabbitmq"
      (rabbitmqFailure queue msg text) t0 t1 (brokers w1) in
  let after :=
    RabbitMQConfig.onMessage process iv true cfg requeue messageHandler queue
      (Some msg) t0 t1 w in
  after.2 = inr (Some RabbitMQConfig.Ack)
  /\ hub after.1 = hub w1
  /\ exists news,
       outbox (brokers after.1) = (outbox (brokers w1) ++ news)%list
       /\ (length news <= 1)%nat
       /\ (recovery.2 = true -> length news = 1%nat)
       /\ (recovery.2 = false ->
           Process.RABBITMQ_PUBLISHER_CONFIRMS process = false ->
           news = [])
       /\ Forall (fun r =>
            isRetry r = true /\ isDeadLetter r = false
            /\ recordedRetryCount r = Some 1%N
            /\ Js.get (body r) "error" = text
            /\ destination r
               = JStr (Js.env_or (env cfg) "RETRY_QUEUE"
                         "streambridge.retry")) news.
Proof.
  intros Hattempt Htext Hmax recovery after. subst after.
  unfold RabbitMQConfig.onMessage. rewrite Hattempt.
  destruct (rabbitmq_recover_news process iv cfg queue msg error text t0 t1
              w1 Htext) as (-> & news & Hout & Hadded & Hnews).
  fold recovery in Hadded |- *. simpl in *.
  split; [done |]. split; [done |].
  exists news. split; [exact Hout |].
  split; [by eapply added_at_most_one |].
  destruct Hadded as [Htrue Hfalse]. split; [exact Htrue |]. split.
  - intros Hrecorded Hconfirms.
    destruct (Hfalse Hrecorded) as [-> | (_ & Hon & _)]; [done | congruence].
  - eapply Forall_impl; [exact Hnews |].
    intros r [Hmarked Herror]. unfold marked in Hmarked.
    destruct (N.ltb_spec 0 (MAX_RETRIES cfg)); [| lia].
    by destruct Hmarked as (? & ? & ? & ?).
Qed.

(** X12.  On an open channel the RabbitMQ consume callback rejects a
    delivery in two cases only.  The handler returned a falsy value: the
    delivery is requeued unless [options.requeue] is [false].  Or the
    handler threw [null] or [undefined], whose message cannot be read: the
    delivery is requeued when [REQUEUE_FAILED_MESSAGES] is set.  A handler
    that throws anything else, or a content that does not decrypt, never
    leads to a rejection. *)
Theorem rabbitmq_nack_has_two_causes
    process iv cfg requeue messageHandler queue msg t0 t1 w q :
  (RabbitMQConfig.onMessage process iv true cfg requeue messageHandler queue
     (Some msg) t0 t1 w).2 = inr (Some (RabbitMQConfig.Nack q))
  <-> exists content w1,
        RabbitMQConfig.content (Process.ENCRYPT_MESSAGES process)
          (Process.ENCRYPTION_KEY process) msg = inr content
        /\ ((exists processed,
               messageHandler (RabbitMQConfig.handlerInput queue msg content) w
               = (w1, inr processed)
               /\ Js.truthy processed = false
               /\ q = Js.notFalse requeue)
            \/ (exists v,
                  messageHandler
                    (RabbitMQConfig.handlerInput queue msg content) w
                  = (w1, inl (Value v))
                  /\ (v = JUndefined \/ v = JNull)
                  /\ q = Process.REQUEUE_FAILED_MESSAGES process)).
Proof.
  unfold RabbitMQConfig.onMessage, RabbitMQConfig.attempt,
    RabbitMQConfig.recover.
  destruct (RabbitMQConfig.content _ _ msg) as [e | content]; simpl.
  { split; [discriminate |]. by intros (? & ? & [=] & _). }
  destruct (messageHandler _ w) as [w1 [error | processed]] eqn:Hh; simpl.
  - destruct error as [e | v]; simpl.
    + split; [discriminate |].
      intros (c & w2 & [= <-] & [(p & Hh' & _) | (v & Hh' & _)]);
        rewrite Hh in Hh'; discriminate.
    + destruct v; simpl;
        try (split; [discriminate |];
             intros (c & w2 & [= <-] & [(p & Hh' & _) | (v & Hh' & Hv & _)]);
             rewrite Hh in Hh'; [discriminate |];
             injection Hh' as <- <-; by destruct Hv).
      * split.
        -- intros [= <-]. exists content, w1. split; [done |]. right.
           exists JUndefined. split; [done |]. split; [by left | done].
        -- intros (c & w2 & [= <-] & [(p & Hh' & _) | (v & Hh' & _ & ->)]);
             rewrite Hh in Hh'; [discriminate | done].
      * split.
        -- intros [= <-]. exists content, w1. split; [done |]. right.
           exists JNull. split; [done |]. split; [by right | done].
        -- intros (c & w2 & [= <-] & [(p & Hh' & _) | (v & Hh' & _ & ->)]);
             rewrite Hh in Hh'; [discriminate | done].
  - destruct (Js.truthy processed) eqn:Ht; simpl.
    + split; [discriminate |].
      intros (c & w2 & [= <-] & [(p & Hh' & Hp & _) | (v & Hh' & _)]);
        rewrite Hh in Hh'; [| discriminate].
      injection Hh' as <- <-. congruence.
    + split.
      * intros [= <-]. exists content, w1. split; [done |]. left.
        by exists processed.
      * intros (c & w2 & [= <-] & [(p & Hh' & _ & ->) | (v & Hh' & _)]);
          rewrite Hh in Hh'; [done | discriminate].
Qed.

End ConsumeLoops.

(** * The handler of a RabbitMQ queue *)
Section QueueHandler.
Context `{rt : Runtime} `{cipher : Cipher} `{cl : Clients} `{wd : Wording}
  `{ip : InPlace}.

Lemma queue_handler_returns_true VALIDATE_MESSAGES queue clock message w w1 v :
  RabbitMQConsumer.onMessage VALIDATE_MESSAGES queue clock message w
  = (w1, inr v) ->
  v = JBool true.
Proof.
  unfold RabbitMQConsumer.onMessage, RabbitMQConsumer.attempt.
  destruct (RabbitMQConsumer.headersOf _); [| discriminate].
  destruct (Js.prop _ "routingKey"); [| discriminate].
  destruct (Date_toISOString _); [discriminate |].
  by intros [= _ <-].
Qed.

(** X13.  With the handler that [createConsumer] of
    messaging/rabbitmq/consumer.js registers, the consume callback
    acknowledges every delivery while the consumer channel is open: the
    handler returns [true] or throws an error, so that no delivery is
    rejected or requeued, whatever [options.requeue] is.  On a closed
    channel no settlement goes through and the callback throws what the
    client throws. *)
Theorem registered_queue_handler_acknowledges_every_delivery
    (VALIDATE_MESSAGES : bool) process iv (open : bool) cfg requeue queue
    clock msg t0 t1 w :
  (RabbitMQConfig.onMessage process iv open cfg requeue
     (raising (RabbitMQConsumer.onMessage VALIDATE_MESSAGES queue clock))
     queue (Some msg) t0 t1 w).2
  = if open then inr (Some RabbitMQConfig.Ack) else inl ClientError.
Proof.
  unfold RabbitMQConfig.onMessage, RabbitMQConfig.attempt,
    RabbitMQConfig.recover, raising.
  destruct (RabbitMQConfig.content _ _ msg) as [e | content];
    [by destruct open |].
  destruct (RabbitMQConsumer.onMessage _ _ _ _ w) as [w1 [e | v]] eqn:Hh;
    [by destruct open |].
  rewrite (queue_handler_returns_true _ _ _ _ _ _ _ Hh).
  by destruct open.
Qed.

(** X14.  A delivery the registered handler processes, with the hub
    running and the clock in range, is broadcast once with the tags of its
    queue, ['rabbitmq'] and ['all']: every observer with an open socket
    that watches the queue receives the frame, which carries the
    transaction id made of the queue and the time of processing. *)
Theorem processed_delivery_reaches_the_observers_of_its_queue
    (VALIDATE_MESSAGES : bool) queue clock message w headers routingKey i c :
  RabbitMQConsumer.headersOf (Js.get message "properties") = Some headers ->
  Js.prop (Js.get message "fields") "routingKey" = Some routingKey ->
  (clock 1%nat <= Js.MAX_TIME)%N ->
  WebSocketServer.wss (hub w) = true ->
  WebSocketServer.clients (hub w) !! i = Some c ->
  WebSocketServer.state (WebSocketServer.ws c) = WebSocketServer.OPEN ->
  queue ∈ WebSocketServer.topics c ->
  let after :=
    RabbitMQConsumer.onMessage VALIDATE_MESSAGES queue clock message w in
  after.2 = inr (JBool true)
  /\ brokers after.1 = brokers w
  /\ exists frame c',
       WebSocketServer.clients (hub after.1) !! i = Some c'
       /\ WebSocketServer.received (JSON_stringify (JObj frame)) c c'
       /\ Js.get frame "transactionId"
          = JStr ("rabbitmq-" ++ queue ++ "-" ++ Js.decimal (clock 0%nat))
       /\ Js.get frame "queue" = JStr queue.
Proof.
  intros Hheaders Hfields Hclock Hwss Hi Hopen Hwatch after. subst after.
  unfold RabbitMQConsumer.onMessage, RabbitMQConsumer.attempt.
  rewrite Hheaders, Hfields, (Date_toISOString_in_range _ Hclock). simpl.
  split; [done |]. split; [done |].
  unfold WebSocketServer.broadcast. rewrite Hwss.
  match goal with
  | |- context [WebSocketServer.forEach (WebSocketServer.visit ?t ?f) ?cs 0] =>
    pose proof (forEach_lookup t f cs 0 i c Hi) as [k Hk];
    destruct (WebSocketServer.forEach (WebSocketServer.visit t f) cs 0)
      as [cs' n] eqn:Hf
  end.
  simpl in *. eexists _, _. split; [exact Hk |]. split.
  - apply visit_received. unfold WebSocketServer.sends. rewrite Hopen.
    simpl. apply negb_true_iff, negb_false_iff.
    apply orb_true_iff. left. apply orb_true_iff. left.
    apply existsb_exists. exists queue. split.
    + by apply list_elem_of_In.
    + apply String.eqb_refl.
  - split; reflexivity.
Qed.

End QueueHandler.

Section WireSample.
#[local] Existing Instance Sample.runtime.
#[local] Existing Instance Sample.cipher.
#[local] Existing Instance Sample.obliging.
#[local] Existing Instance Fixture.plainWording.

Lemma encrypted_order_reads_back :
  exists text value,
    textOf (JStr "order 1") = inr text
    /\ Broker.messageValue true Encryption.ENCRYPTION_KEY
         (list_ascii_of_string "abcdefghijklmnop") (JStr "order 1")
       = inr value
    /\ KafkaConfig.consumedValue true Encryption.ENCRYPTION_KEY (JBuf value)
       = inr (JStr text).
Proof.
  refine (kafka_value_round_trip true Encryption.ENCRYPTION_KEY
            (list_ascii_of_string "abcdefghijklmnop") (JStr "order 1") _ _).
  - intros _. split; [apply cipher_laws |]. split; reflexivity.
  - discriminate.
Defined.

Lemma encrypted_task_reads_back :
  exists text sent,
    textOf (JStr "task 1") = inr text
    /\ Broker.msgContent true Encryption.ENCRYPTION_KEY
         (list_ascii_of_string "abcdefghijklmnop") (JStr "task 1")
       = inr sent
    /\ RabbitMQConfig.content true Encryption.ENCRYPTION_KEY
         {["content" := JBuf sent]}
       = inr (default (JStr text) (JSON_parse text)).
Proof.
  refine (rabbitmq_content_round_trip true Encryption.ENCRYPTION_KEY
            (list_ascii_of_string "abcdefghijklmnop") (JStr "task 1") _ _ _).
  - intros _. split; [apply cipher_laws |]. split; reflexivity.
  - discriminate.
  - discriminate.
Defined.

Lemma failing_kafka_handler_schedules_retry :
  let after :=
    KafkaConfig.eachMessage Sample.process Sample.iv ErrorQueue.defaults
      Fixture.failing "orders" (JNum 0) Sample.kafkaMessage 1000 2000
      Sample.world in
  after.2 = inr tt
  /\ hub after.1 = hub Sample.world
  /\ metrics after.1 = metrics Sample.world
  /\ exists r,
       outbox (brokers after.1)
       = (outbox (brokers Sample.world) ++ [r])%list
       /\ ErrorQueue.isRetry r = true /\ ErrorQueue.isDeadLetter r = false
       /\ ErrorQueue.recordedRetryCount r = Some 1%N
       /\ Js.get (ErrorQueue.body r) "error" = JStr "handler failed"
       /\ ErrorQueue.destination r = JStr "streambridge.retry".
Proof.
  destruct (kafka_consume_failure_is_scheduled_for_retry Sample.process
              Sample.iv ErrorQueue.defaults Fixture.failing "orders" (JNum 0)
              Sample.kafkaMessage 1000 2000 Sample.world Sample.world
              (Raised (Error "handler failed")) (JStr "handler failed")
              eq_refl eq_refl eq_refl)
    as (Hreturns & Hhub & Hmetrics & Hrecorded & _).
  split; [exact Hreturns |]. split; [exact Hhub |].
  split; [exact Hmetrics |].
  apply Hrecorded. vm_compute. reflexivity.
Defined.

(** The failure of the sample message is recorded, and under the key of
    the test setup, which the cipher refuses, it is not; a handler that
    throws [null] makes [eachMessage] throw, and nothing is recorded. *)
Example kafka_failure_recorded_or_not :
  (ErrorQueue.handleFailedMessage Sample.process Sample.iv
     ErrorQueue.defaults "kafka"
     (ErrorQueue.kafkaFailure "orders" Sample.kafkaMessage
        (JStr "handler failed"))
     1000 2000 (brokers Sample.world)).2 = true
  /\ length (outbox (brokers
               (KafkaConfig.eachMessage Fixture.testing Sample.iv
                  ErrorQueue.defaults
                  (fun _ w => (w, inl (Raised (Error "handler failed"))))
                  "orders" (JNum 0)
                  {["value" := JNull]} 1000 2000 Sample.world).1)) = 0%nat
  /\ KafkaConfig.eachMessage Sample.process Sample.iv ErrorQueue.defaults
       (fun _ w => (w, inl (Value JNull))) "orders" (JNum 0)
       Sample.kafkaMessage 1000 2000 Sample.world
     = (Sample.world, inl TypeError).
Proof. vm_compute. done. Qed.

Lemma garbled_kafka_value_skips_the_handler :
  KafkaConfig.attempt true Encryption.ENCRYPTION_KEY Fixture.failing
    "orders" (JNum 0) Sample.kafkaMessage Sample.world
  = (Sample.world, inl (Raised (Error "Failed to decrypt data"))).
Proof.
  refine (undecryptable_kafka_value_skips_the_handler
            Encryption.ENCRYPTION_KEY Fixture.failing "orders" (JNum 0)
            Sample.kafkaMessage Sample.world
            (Error "Failed to decrypt data") _ _).
  - reflexivity.
  - reflexivity.
Defined.

Lemma failing_queue_handler_is_acknowledged :
  let after :=
    RabbitMQConfig.onMessage Sample.process Sample.iv true
      ErrorQueue.defaults JUndefined Fixture.throwing "tasks"
      (Some Fixture.delivery) 1000 2000 Sample.world in
  after.2 = inr (Some RabbitMQConfig.Ack)
  /\ hub after.1 = hub Sample.world
  /\ exists news,
       outbox (brokers after.1) = (outbox (brokers Sample.world) ++ news)%list
       /\ length news = 1%nat
       /\ Forall (fun r =>
            ErrorQueue.isRetry r = true /\ ErrorQueue.isDeadLetter r = false
            /\ ErrorQueue.recordedRetryCount r = Some 1%N
            /\ Js.get (ErrorQueue.body r) "error" = JStr "handler failed"
            /\ ErrorQueue.destination r = JStr "streambridge.retry") news.
Proof.
  destruct (rabbitmq_consume_failure_is_acknowledged Sample.process Sample.iv
              ErrorQueue.defaults JUndefined Fixture.throwing "tasks"
              Fixture.delivery 1000 2000 Sample.world Sample.world
              (Raised (Error "handler failed")) (JStr "handler failed")
              eq_refl eq_refl eq_refl)
    as (Hack & Hhub & news & Hout & _ & Hrecorded & _ & Hnews).
  split; [exact Hack |]. split; [exact Hhub |].
  exists news. split; [exact Hout |]. split; [| exact Hnews].
  apply Hrecorded. vm_compute. reflexivity.
Defined.

(** A handler that declines a delivery has it requeued by default, and
    discarded when [options.requeue] is [false]; a handler that throws
    [null] has it discarded unless [REQUEUE_FAILED_MESSAGES] is set; and on
    a closed channel the callback throws. *)
Example declined_delivery_is_requeued_by_default :
  (RabbitMQConfig.onMessage Sample.process Sample.iv true
     ErrorQueue.defaults JUndefined Fixture.declining "tasks"
     (Some Fixture.delivery) 1000 2000 Sample.world).2
  = inr (Some (RabbitMQConfig.Nack true))
  /\ (RabbitMQConfig.onMessage Sample.process Sample.iv true
        ErrorQueue.defaults (JBool false) Fixture.declining "tasks"
        (Some Fixture.delivery) 1000 2000 Sample.world).2
     = inr (Some (RabbitMQConfig.Nack false))
  /\ (RabbitMQConfig.onMessage Sample.process Sample.iv true
        ErrorQueue.defaults JUndefined Fixture.throwingNull "tasks"
        (Some Fixture.delivery) 1000 2000 Sample.world).2
     = inr (Some (RabbitMQConfig.Nack false))
  /\ (RabbitMQConfig.onMessage Sample.process Sample.iv false
        ErrorQueue.defaults JUndefined Fixture.declining "tasks"
        (Some Fixture.delivery) 1000 2000 Sample.world).2
     = inl ClientError.
Proof. vm_compute. done. Qed.

Lemma processed_order_reaches_its_observer :
  let message :=
    RabbitMQConfig.handlerInput "orders" Fixture.delivery (JObj ∅) in
  let after :=
    @RabbitMQConsumer.onMessage Sample.runtime Fixture.untouched false
      "orders" (fun _ => 1000%N) message Sample.world in
  after.2 = inr (JBool true)
  /\ brokers after.1 = brokers Sample.world
  /\ exists frame c',
       WebSocketServer.clients (hub after.1) !! 0%nat = Some c'
       /\ WebSocketServer.received (JSON_stringify (JObj frame))
            (Sample.observer "a" ["orders"]) c'
       /\ Js.get frame "transactionId"
          = JStr ("rabbitmq-" ++ "orders" ++ "-" ++ Js.decimal 1000)
       /\ Js.get frame "queue" = JStr "orders".
Proof.
  refine (@processed_delivery_reaches_the_observers_of_its_queue
            Sample.runtime Fixture.untouched false "orders"
            (fun _ => 1000%N)
            (RabbitMQConfig.handlerInput "orders" Fixture.delivery (JObj ∅))
            Sample.world _ _ 0%nat (Sample.observer "a" ["orders"])
            _ _ _ _ _ _ _).
  - reflexivity.
  - reflexivity.
  - vm_compute. discriminate.
  - reflexivity.
  - reflexivity.
  - reflexivity.
  - vm_compute. left.
Defined.

End WireSample.

(** * The messages of a client *)
Section Sets.
Import ClientSession.

Lemma sameValueZero_string s v : sameValueZero (JStr s) v = true <-> v = JStr s.
Proof.
  destruct v; simpl; try (split; [discriminate | done]).
  rewrite String.eqb_eq. split; congruence.
Qed.

Lemma includes_string l s : includes l (JStr s) = true <-> JStr s ∈ l.
Proof.
  unfold includes. rewrite existsb_exists. split.
  - intros (v & Hv & Heq). apply sameValueZero_string in Heq as ->.
    by apply list_elem_of_In.
  - intros Hs. exists (JStr s). split; [by apply list_elem_of_In |].
    by apply sameValueZero_string.
Qed.

Lemma names_spec l s : s ∈ names l <-> JStr s ∈ l.
Proof.
  unfold names. rewrite list_elem_of_omap. split.
  - intros (v & Hv & Heq). destruct v; try discriminate. by injection Heq as ->.
  - intros Hs. by exists (JStr s).
Qed.

Lemma names_app l l' : names (l ++ l') = (names l ++ names l')%list.
Proof. apply omap_app. Qed.

Lemma unique_snoc l v : unique (l ++ [v]) = add (unique l) v.
Proof. unfold unique. by rewrite foldl_snoc. Qed.

Lemma add_string seen v s :
  JStr s ∈ add seen v <-> JStr s ∈ seen \/ v = JStr s.
Proof.
  unfold add. destruct (includes seen v) eqn:Hv.
  - split; [by left |]. intros [Hs | ->]; [done |].
    by apply includes_string.
  - rewrite elem_of_app, list_elem_of_singleton. split.
    + intros [? | ?]; [by left | by right].
    + intros [? | ?]; [by left | by right].
Qed.

Lemma unique_string l s : JStr s ∈ unique l <-> JStr s ∈ l.
Proof.
  induction l as [| v l IH] using rev_ind.
  - done.
  - rewrite unique_snoc, add_string, IH, elem_of_app,
      list_elem_of_singleton.
    split; (intros [? | ?]; [by left | by right]).
Qed.

Lemma add_NoDup seen v : NoDup (names seen) -> NoDup (names (add seen v)).
Proof.
  intros Hseen. unfold add. destruct (includes seen v) eqn:Hv; [done |].
  rewrite names_app. destruct v; simpl; rewrite ?app_nil_r; try done.
  apply NoDup_app. split; [done |]. split; [| apply NoDup_singleton].
  intros x Hx ->%list_elem_of_singleton.
  apply names_spec, includes_string in Hx. congruence.
Qed.

Lemma unique_NoDup l : NoDup (names (unique l)).
Proof.
  induction l as [| v l IH] using rev_ind.
  - constructor.
  - rewrite unique_snoc. by apply add_NoDup.
Qed.

(** A list that came out of a [Set] goes through a [Set] unchanged. *)
Lemma unique_unique l : unique (unique l) = unique l.
Proof.
  induction l as [| v l IH] using rev_ind; [done |].
  rewrite unique_snoc. unfold add.
  destruct (includes (unique l) v) eqn:Hv; [done |].
  rewrite unique_snoc, IH. unfold add. by rewrite Hv.
Qed.

Lemma foldl_add_included seen l :
  Forall (fun v => includes seen v = true) l ->
  foldl add seen l = seen.
Proof.
  induction 1 as [| v l Hv Hl IH]; [done |].
  simpl. unfold add at 2. by rewrite Hv.
Qed.

Lemma unique_app l l' : unique (l ++ l') = foldl add (unique l) l'.
Proof. unfold unique. by rewrite foldl_app. Qed.

Lemma truthy_string s : Js.truthy (JStr s) = true <-> s <> "".
Proof.
  simpl. rewrite negb_true_iff. split.
  - intros Hs ->. discriminate.
  - intros Hs. apply String.eqb_neq. done.
Qed.

Lemma filter_truthy_string items s :
  JStr s ∈ List.filter Js.truthy items <-> s <> "" /\ JStr s ∈ items.
Proof.
  rewrite list_elem_of_In, filter_In, <- list_elem_of_In, truthy_string.
  tauto.
Qed.

End Sets.

Section ClientMessages.
Import ClientSession.
Context `{rt : Runtime}.

Lemma attempt_subscribe data now c m items :
  JSON_parse data = Some (JObj m) ->
  Js.get m "type" = JStr "subscribe" ->
  Js.get m "topics" = JArr items ->
  (now <= Js.MAX_TIME)%N ->
  let c1 :=
    withTopics c (unique (topics c ++ List.filter Js.truthy items)%list) in
  attempt data now c
  = (reply c1 (JObj (subscribed (topics c1) (toISOString now))), true).
Proof.
  intros Hparse Htype Htopics Hnow c1. unfold attempt.
  rewrite Hparse. simpl Js.prop. simpl Js.spread.
  rewrite Htype, Htopics, (Date_toISOString_in_range _ Hnow). reflexivity.
Qed.

Lemma attempt_unsubscribe data now c m items :
  JSON_parse data = Some (JObj m) ->
  Js.get m "type" = JStr "unsubscribe" ->
  Js.get m "topics" = JArr items ->
  (now <= Js.MAX_TIME)%N ->
  let removedTopics := List.filter Js.truthy items in
  let c1 :=
    withTopics c
      (List.filter (fun topic => negb (includes removedTopics topic))
         (topics c)) in
  attempt data now c
  = (reply c1 (JObj (unsubscribed (topics c1) removedTopics
                       (toISOString now))),
     true).
Proof.
  intros Hparse Htype Htopics Hnow removedTopics c1. unfold attempt.
  rewrite Hparse. simpl Js.prop. simpl Js.spread.
  rewrite Htype, Htopics, (Date_toISOString_in_range _ Hnow). reflexivity.
Qed.

(** What the two messages make of a client. *)
Lemma subscribe_result data clock c m items :
  JSON_parse data = Some (JObj m) ->
  Js.get m "type" = JStr "subscribe" ->
  Js.get m "topics" = JArr items ->
  (clock 0%nat <= Js.MAX_TIME)%N ->
  let c1 :=
    withTopics c (unique (topics c ++ List.filter Js.truthy items)%list) in
  handleClientMessage data clock c
  = inr (reply c1 (JObj (subscribed (topics c1)
                           (toISOString (clock 0%nat))))).
Proof.
  intros Hparse Htype Htopics Hclock c1. unfold handleClientMessage.
  by rewrite (attempt_subscribe data _ c m items Hparse Htype Htopics Hclock).
Qed.

Lemma unsubscribe_result data clock c m items :
  JSON_parse data = Some (JObj m) ->
  Js.get m "type" = JStr "unsubscribe" ->
  Js.get m "topics" = JArr items ->
  (clock 0%nat <= Js.MAX_TIME)%N ->
  let removedTopics := List.filter Js.truthy items in
  let c1 :=
    withTopics c
      (List.filter (fun topic => negb (includes removedTopics topic))
         (topics c)) in
  handleClientMessage data clock c
  = inr (reply c1 (JObj (unsubscribed (topics c1) removedTopics
                           (toISOString (clock 0%nat))))).
Proof.
  intros Hparse Htype Htopics Hclock removedTopics c1.
  unfold handleClientMessage.
  by rewrite (attempt_unsubscribe data _ c m items Hparse Htype Htopics
                Hclock).
Qed.

Lemma subscribed_names c items t :
  t ∈ names (unique (topics c ++ List.filter Js.truthy items)%list)
  <-> t ∈ names (topics c) \/ (t <> "" /\ JStr t ∈ items).
Proof.
  by rewrite !names_spec, unique_string, elem_of_app, filter_truthy_string.
Qed.

Lemma unsubscribed_names c items t :
  t ∈ names (List.filter
               (fun topic =>
                  negb (includes (List.filter Js.truthy items) topic))
               (topics c))
  <-> t ∈ names (topics c) /\ ~ (t <> "" /\ JStr t ∈ items).
Proof.
  rewrite !names_spec.
  rewrite list_elem_of_In, filter_In, <- list_elem_of_In, negb_true_iff.
  rewrite <- (filter_truthy_string items t).
  rewrite <- (includes_string (List.filter Js.truthy items) t).
  by rewrite not_true_iff_false.
Qed.

(** X15.  A [subscribe] message with an array of topics: afterwards the
    client holds, among its string topics, exactly those it held and the
    non-empty strings of the array, each once; the reply, sent if the
    socket is open, lists the topics the client now holds. *)
Theorem subscribe_adds_the_named_topics data clock c m items :
  JSON_parse data = Some (JObj m) ->
  Js.get m "type" = JStr "subscribe" ->
  Js.get m "topics" = JArr items ->
  (clock 0%nat <= Js.MAX_TIME)%N ->
  exists c',
    handleClientMessage data clock c = inr c'
    /\ (forall t,
          t ∈ names (topics c')
          <-> t ∈ names (topics c) \/ (t <> "" /\ JStr t ∈ items))
    /\ NoDup (names (topics c'))
    /\ ws c'
       = sendToClient (ws c)
           (JObj (subscribed (topics c') (toISOString (clock 0%nat)))).
Proof.
  intros Hparse Htype Htopics Hclock.
  rewrite (subscribe_result data clock c m items Hparse Htype Htopics Hclock).
  eexists. split; [reflexivity |]. simpl. split; [| split; [| done]].
  - intros t. apply subscribed_names.
  - apply unique_NoDup.
Qed.

(** X16.  An [unsubscribe] message with an array of topics: afterwards the
    client holds, among its string topics, those it held that are not
    non-empty strings of the array, and nothing else; the reply, sent if
    the socket is open, lists what is left. *)
Theorem unsubscribe_removes_the_named_topics data clock c m items :
  JSON_parse data = Some (JObj m) ->
  Js.get m "type" = JStr "unsubscribe" ->
  Js.get m "topics" = JArr items ->
  (clock 0%nat <= Js.MAX_TIME)%N ->
  exists c',
    handleClientMessage data clock c = inr c'
    /\ (forall t,
          t ∈ names (topics c')
          <-> t ∈ names (topics c) /\ ~ (t <> "" /\ JStr t ∈ items))
    /\ ws c'
       = sendToClient (ws c)
           (JObj (unsubscribed (topics c') (List.filter Js.truthy items)
                    (toISOString (clock 0%nat)))).
Proof.
  intros Hparse Htype Htopics Hclock.
  rewrite (unsubscribe_result data clock c m items Hparse Htype Htopics
             Hclock).
  eexists. split; [reflexivity |]. simpl. split; [| done].
  intros t. apply unsubscribed_names.
Qed.

(** X17.  After a client with an open socket has subscribed to a topic, a
    broadcast that carries the topic among its tags is handed to its
    socket. *)
Theorem subscribed_topic_is_delivered data clock c m items t tags frame n :
  JSON_parse data = Some (JObj m) ->
  Js.get m "type" = JStr "subscribe" ->
  Js.get m "topics" = JArr items ->
  (clock 0%nat <= Js.MAX_TIME)%N ->
  WebSocketServer.state (ws c) = WebSocketServer.OPEN ->
  t <> "" ->
  JStr t ∈ items ->
  JStr t ∈ tags ->
  exists c',
    handleClientMessage data clock c = inr c'
    /\ WebSocketServer.received frame (asClient c')
         (WebSocketServer.visit (JArr tags) frame (asClient c') n).1.
Proof.
  intros Hparse Htype Htopics Hclock Hopen Ht Hitems Htags.
  rewrite (subscribe_result data clock c m items Hparse Htype Htopics Hclock).
  eexists. split; [reflexivity |].
  apply visit_received. unfold WebSocketServer.sends. simpl.
  unfold sendToClient, WebSocketServer.send. rewrite Hopen.
  simpl. apply negb_true_iff.
  assert (Htag : tags <> []) by (intros ->; by apply elem_of_nil in Htags).
  destruct tags as [| tag tags]; [done |].
  simpl WebSocketServer.hasTopicFilter.
  apply andb_false_iff. right. apply negb_false_iff.
  apply hasMatchingTopic_spec; [done |]. left. exists t. split; [done |].
  simpl. apply subscribed_names. right. done.
Qed.

(** X18.  After a client that does not watch ["*"] has unsubscribed from
    topics, a broadcast whose tags are all among those topics passes its
    socket by. *)
Theorem unsubscribed_topic_is_not_delivered
    data clock c m items tags frame n :
  JSON_parse data = Some (JObj m) ->
  Js.get m "type" = JStr "unsubscribe" ->
  Js.get m "topics" = JArr items ->
  (clock 0%nat <= Js.MAX_TIME)%N ->
  "*" ∉ names (topics c) ->
  tags <> [] ->
  (forall tag, tag ∈ tags -> exists t, tag = JStr t /\ t <> "" /\ tag ∈ items) ->
  exists c',
    handleClientMessage data clock c = inr c'
    /\ WebSocketServer.visit (JArr tags) frame (asClient c') n
       = (asClient c', n).
Proof.
  intros Hparse Htype Htopics Hclock Hstar Htag Hall.
  rewrite (unsubscribe_result data clock c m items Hparse Htype Htopics
             Hclock).
  eexists. split; [reflexivity |].
  apply visit_skips. unfold WebSocketServer.sends.
  destruct (WebSocketServer.state _); try done.
  apply negb_false_iff. destruct tags as [| tag tags]; [done |].
  change (WebSocketServer.hasTopicFilter (JArr (tag :: tags))) with true.
  change (WebSocketServer.topicList (JArr (tag :: tags))) with (tag :: tags).
  rewrite andb_true_l. apply negb_true_iff, not_true_iff_false.
  intros Hmatch.
  apply (hasMatchingTopic_spec (tag :: tags)) in Hmatch; [| done].
  simpl in Hmatch.
  destruct Hmatch as [(t & Ht & Hheld) | Hheld].
  - apply unsubscribed_names in Hheld as [_ Hnot].
    destruct (Hall _ Ht) as (t' & [= <-] & Hne & Hin). by apply Hnot.
  - apply unsubscribed_names in Hheld as [Hheld _]. done.
Qed.

(** X19.  The topics of a client change only by a [subscribe] or an
    [unsubscribe] message that carries an array of topics: any other
    message, and any text that is not JSON, leaves them, and the identity
    of the client, as they were. *)
Theorem only_subscriptions_change_the_topics data clock c c' :
  handleClientMessage data clock c = inr c' ->
  id c' = id c /\ userId c' = userId c
  /\ (topics c' <> topics c ->
      exists m items,
        JSON_parse data = Some (JObj m)
        /\ Js.get m "topics" = JArr items
        /\ (Js.get m "type" = JStr "subscribe"
            \/ Js.get m "type" = JStr "unsubscribe")).
Proof.
  unfold handleClientMessage.
  assert (Hattempt : forall c1 ok,
            attempt data (clock 0%nat) c = (c1, ok) ->
            id c1 = id c /\ userId c1 = userId c
            /\ (topics c1 <> topics c ->
                exists m items,
                  JSON_parse data = Some (JObj m)
                  /\ Js.get m "topics" = JArr items
                  /\ (Js.get m "type" = JStr "subscribe"
                      \/ Js.get m "type" = JStr "unsubscribe"))).
  { intros c1 ok. unfold attempt.
    destruct (JSON_parse data) as [message |]; [| by intros [= <- _]].
    destruct (Js.prop message "type") as [type |] eqn:Hprop;
      [| by intros [= <- _]].
    destruct (negb (Js.truthy type)) eqn:Htruthy; [by intros [= <- _] |].
    assert (Hobject : exists m, message = JObj m /\ Js.get m "type" = type).
    { destruct message; simpl in Hprop; try discriminate;
        try (injection Hprop as <-; discriminate).
      injection Hprop as <-. eauto. }
    destruct Hobject as (m & -> & Htype). simpl Js.spread.
    destruct (String.eqb _ "ping").
    { destruct (Date_toISOString _); by intros [= <- _]. }
    destruct (String.eqb _ "subscribe") eqn:Hsub.
    { apply String.eqb_eq in Hsub.
      destruct (Js.get m "topics") eqn:Htopics; try by intros [= <- _].
      destruct (Date_toISOString _); intros [= <- _]; simpl;
        (split; [done |]; split; [done |]); intros _;
        exists m, items; (split; [done |]; split; [done |]); left;
        rewrite Htype; destruct type; simpl in Hsub; congruence. }
    destruct (String.eqb _ "unsubscribe") eqn:Hunsub.
    { apply String.eqb_eq in Hunsub.
      destruct (Js.get m "topics") eqn:Htopics; try by intros [= <- _].
      destruct (Date_toISOString _); intros [= <- _]; simpl;
        (split; [done |]; split; [done |]); intros _;
        exists m, items; (split; [done |]; split; [done |]); right;
        rewrite Htype; destruct type; simpl in Hunsub; congruence. }
    destruct (Date_toISOString _); by intros [= <- _]. }
  destruct (attempt data (clock 0%nat) c) as [c1 ok] eqn:Ha.
  specialize (Hattempt c1 ok eq_refl).
  destruct ok; [by intros [= <-] |].
  destruct (Date_toISOString _); [discriminate |]. by intros [= <-].
Qed.

(** X20.  Subscribing twice to the same topics, all of them strings, is
    subscribing once: the second message leaves the topics of the client
    as the first one made them. *)
Theorem subscribing_again_changes_nothing data clock clock' c m items :
  JSON_parse data = Some (JObj m) ->
  Js.get m "type" = JStr "subscribe" ->
  Js.get m "topics" = JArr items ->
  (clock 0%nat <= Js.MAX_TIME)%N ->
  (clock' 0%nat <= Js.MAX_TIME)%N ->
  Forall (fun v => exists s, v = JStr s) items ->
  exists c1 c2,
    handleClientMessage data clock c = inr c1
    /\ handleClientMessage data clock' c1 = inr c2
    /\ topics c2 = topics c1.
Proof.
  intros Hparse Htype Htopics Hclock Hclock' Hstrings.
  unfold handleClientMessage.
  rewrite (attempt_subscribe data _ c m items Hparse Htype Htopics Hclock).
  eexists. eexists. split; [reflexivity |].
  rewrite (attempt_subscribe data _ _ m items Hparse Htype Htopics Hclock').
  split; [reflexivity |]. simpl.
  rewrite unique_app, unique_unique. apply foldl_add_included.
  apply Forall_forall. intros v Hv.
  assert (Hitem : v ∈ items).
  { apply list_elem_of_In. apply list_elem_of_In, filter_In in Hv. tauto. }
  destruct (proj1 (Forall_forall _ _) Hstrings v Hitem) as [s ->].
  apply includes_string, unique_string, elem_of_app. by right.
Qed.

End ClientMessages.

Section ClientMessagesSample.
Import ClientSession.

#[local] Existing Instance Fixture.reading.

Lemma observer_of_orders_adds_logs :
  exists c',
    handleClientMessage "subscribe" (fun _ => 1000%N) Fixture.session = inr c'
    /\ (forall t,
          t ∈ names (topics c')
          <-> t ∈ names (topics Fixture.session)
              \/ (t <> "" /\ JStr t ∈ [JStr "logs"]))
    /\ NoDup (names (topics c'))
    /\ ws c'
       = sendToClient (ws Fixture.session)
           (JObj (subscribed (topics c') (toISOString 1000%N))).
Proof.
  refine (subscribe_adds_the_named_topics "subscribe" (fun _ => 1000%N)
            Fixture.session _ [JStr "logs"] _ _ _ _).
  - reflexivity.
  - reflexivity.
  - reflexivity.
  - vm_compute. discriminate.
Defined.

Lemma observer_of_orders_drops_orders :
  exists c',
    handleClientMessage "unsubscribe" (fun _ => 1000%N) Fixture.session
    = inr c'
    /\ (forall t,
          t ∈ names (topics c')
          <-> t ∈ names (topics Fixture.session)
              /\ ~ (t <> "" /\ JStr t ∈ [JStr "orders"]))
    /\ ws c'
       = sendToClient (ws Fixture.session)
           (JObj (unsubscribed (topics c')
                    (List.filter Js.truthy [JStr "orders"])
                    (toISOString 1000%N))).
Proof.
  refine (unsubscribe_removes_the_named_topics "unsubscribe"
            (fun _ => 1000%N) Fixture.session _ [JStr "orders"] _ _ _ _).
  - reflexivity.
  - reflexivity.
  - reflexivity.
  - vm_compute. discriminate.
Defined.

Lemma new_observer_of_logs_receives_a_log_line :
  exists c',
    handleClientMessage "subscribe" (fun _ => 1000%N) Fixture.session = inr c'
    /\ WebSocketServer.received "line 1" (asClient c')
         (WebSocketServer.visit (JArr [JStr "logs"; JStr "kafka"; JStr "all"])
            "line 1" (asClient c') 0).1.
Proof.
  refine (subscribed_topic_is_delivered "subscribe" (fun _ => 1000%N)
            Fixture.session _ [JStr "logs"] "logs"
            [JStr "logs"; JStr "kafka"; JStr "all"] "line 1" 0 _ _ _ _ _ _ _ _).
  - reflexivity.
  - reflexivity.
  - reflexivity.
  - vm_compute. discriminate.
  - reflexivity.
  - discriminate.
  - vm_compute. left.
  - vm_compute. left.
Defined.

Lemma former_observer_of_orders_misses_an_order :
  exists c',
    handleClientMessage "unsubscribe" (fun _ => 1000%N) Fixture.session
    = inr c'
    /\ WebSocketServer.visit (JArr [JStr "orders"]) "order 1" (asClient c') 0
       = (asClient c', 0%nat).
Proof.
  refine (unsubscribed_topic_is_not_delivered "unsubscribe"
            (fun _ => 1000%N) Fixture.session _ [JStr "orders"]
            [JStr "orders"] "order 1" 0 _ _ _ _ _ _ _).
  - reflexivity.
  - reflexivity.
  - reflexivity.
  - vm_compute. discriminate.
  - vm_compute. intros H. inversion H as [| ? ? ? H']; inversion H'.
  - discriminate.
  - intros tag Htag. apply list_elem_of_singleton in Htag as ->.
    exists "orders". split; [reflexivity |]. split; [discriminate |].
    vm_compute. left.
Defined.

Lemma subscription_to_logs_changed_the_topics :
  let c' :=
    mkClientData "a" (WebSocketServer.mkSocket WebSocketServer.OPEN ["{}"])
      [JStr "orders"; JStr "logs"] "anonymous" in
  id c' = id Fixture.session
  /\ userId c' = userId Fixture.session
  /\ (topics c' <> topics Fixture.session ->
      exists m items,
        JSON_parse "subscribe" = Some (JObj m)
        /\ Js.get m "topics" = JArr items
        /\ (Js.get m "type" = JStr "subscribe"
            \/ Js.get m "type" = JStr "unsubscribe")).
Proof.
  refine (only_subscriptions_change_the_topics "subscribe" (fun _ => 1000%N)
            Fixture.session
            (mkClientData "a"
               (WebSocketServer.mkSocket WebSocketServer.OPEN ["{}"])
               [JStr "orders"; JStr "logs"] "anonymous") _).
  vm_compute. reflexivity.
Defined.

Lemma observer_subscribes_to_logs_twice :
  exists c1 c2,
    handleClientMessage "subscribe" (fun _ => 1000%N) Fixture.session = inr c1
    /\ handleClientMessage "subscribe" (fun _ => 2000%N) c1 = inr c2
    /\ topics c2 = topics c1.
Proof.
  refine (subscribing_again_changes_nothing "subscribe" (fun _ => 1000%N)
            (fun _ => 2000%N) Fixture.session _ [JStr "logs"] _ _ _ _ _ _).
  - reflexivity.
  - reflexivity.
  - reflexivity.
  - vm_compute. discriminate.
  - vm_compute. discriminate.
  - repeat constructor. by exists "logs".
Defined.

End ClientMessagesSample.

(** * Closing consumers *)
Section Shutdown.
Import Consumer ConsumerShutdown.
Context `{ad : Adapter} `{cl : Closing}.

(** X21.  [closeConsumer] is safe to call twice: after a call that closed
    the consumer of a source, a second call answers [false] and changes
    nothing; the first call removed the registration of that source and of
    no other, so that [createConsumer] asks the adapter for a new consumer
    instead of handing out the closed one. *)
Theorem closeConsumer_twice source r r1 :
  closeConsumer source r = (r1, inr true) ->
  closeConsumer source r1 = (r1, inr false)
  /\ activeConsumers r1 !! source = None
  /\ (forall other,
        other <> source ->
        activeConsumers r1 !! other = activeConsumers r !! other)
  /\ (createConsumer source r1).2
     = (createBackendConsumer source (backend r1)).2.
Proof.
  unfold closeConsumer.
  destruct (activeConsumers r !! source) as [consumer |] eqn:Hreg;
    [| discriminate].
  destruct (closeBackendConsumer consumer (backend r)) as [c [e | []]];
    [discriminate |].
  intros [= <-]. simpl. rewrite lookup_delete_eq.
  split; [done |]. split; [done |]. split.
  - intros other Hother. by rewrite lookup_delete_ne.
  - unfold createConsumer. simpl. rewrite lookup_delete_eq.
    by destruct (createBackendConsumer source c) as [c' [e | h]].
Qed.

(** X22.  When closing the consumer of a source throws, the registration
    stays: every source keeps its consumer, and [createConsumer] for the
    source still answers with the consumer that failed to close, without
    touching the adapter. *)
Theorem failed_close_keeps_the_registration source r r1 e :
  closeConsumer source r = (r1, inl e) ->
  activeConsumers r1 = activeConsumers r
  /\ exists consumer,
       activeConsumers r !! source = Some consumer
       /\ createConsumer source r1 = (r1, inr consumer).
Proof.
  unfold closeConsumer.
  destruct (activeConsumers r !! source) as [consumer |] eqn:Hreg;
    [| discriminate].
  destruct (closeBackendConsumer consumer (backend r)) as [c [e' | []]];
    [| discriminate].
  intros [= <- <-]. simpl. split; [done |].
  exists consumer. split; [done |].
  unfold createConsumer. simpl. by rewrite Hreg.
Qed.

End Shutdown.

(** * Choosing the schema *)
Section Schemas.
Context `{wd : Wording}.

(** X23.  A message type without a schema of its own, or one that is not a
    string, is validated with the schema named ['default']: the result is
    the one the type ['default'] gets, and afterwards the cache holds a
    default schema.  A result that is not valid always carries an error
    text. *)
Theorem unknown_message_type_uses_the_default_schema
    errorsText permissive schemaCache messageType message :
  SchemaCache.get schemaCache messageType = None ->
  let checked :=
    SchemaCache.validateMessage errorsText permissive schemaCache
      messageType message in
  checked.2
  = (SchemaCache.validateMessage errorsText permissive schemaCache
       (JStr "default") message).2
  /\ is_Some (checked.1 !! "default")
  /\ (MessageValidator.valid checked.2 = false ->
      exists text, MessageValidator.error checked.2 = JStr text).
Proof.
  intros Hnone checked. subst checked.
  unfold SchemaCache.validateMessage. rewrite Hnone.
  change (SchemaCache.get schemaCache (JStr "default"))
    with (schemaCache !! "default").
  destruct (schemaCache !! "default") as [validator |] eqn:Hdefault; simpl.
  - split; [done |]. split; [by rewrite Hdefault |].
    destruct (validator message) as [e | [errors |]]; simpl;
      [unfold errorMessage; eauto | eauto | discriminate].
  - split; [done |]. split; [by rewrite lookup_insert_eq |].
    destruct (permissive message) as [e | [errors |]]; simpl;
      [unfold errorMessage; eauto | eauto | discriminate].
Qed.

End Schemas.

Section ShutdownSample.
Import Consumer ConsumerShutdown.
#[local] Existing Instance Backend.rabbitmq.
#[local] Existing Instance Fixture.closing.
#[local] Existing Instance Fixture.plainWording.

Lemma tasks_consumer_closed_twice :
  let r := mkRegistry {["tasks" := 0%nat]}
             (mkConnection true true 1 [(0%nat, "tasks")]) in
  let r1 := mkRegistry ∅ (mkConnection true true 1 []) in
  closeConsumer "tasks" r1 = (r1, inr false)
  /\ activeConsumers r1 !! "tasks" = None
  /\ (forall other,
        other <> "tasks" ->
        activeConsumers r1 !! other = activeConsumers r !! other)
  /\ (createConsumer "tasks" r1).2
     = (createBackendConsumer "tasks" (backend r1)).2.
Proof.
  refine (closeConsumer_twice "tasks"
            (mkRegistry {["tasks" := 0%nat]}
               (mkConnection true true 1 [(0%nat, "tasks")]))
            (mkRegistry ∅ (mkConnection true true 1 [])) _).
  vm_compute. reflexivity.
Defined.

Lemma stuck_tasks_consumer_stays_registered :
  let r := mkRegistry {["tasks" := 0%nat]}
             (mkConnection true true 1 [(0%nat, "tasks")]) in
  activeConsumers r = activeConsumers r
  /\ exists consumer,
       activeConsumers r !! "tasks" = Some consumer
       /\ createConsumer "tasks" r = (r, inr consumer).
Proof.
  refine (@failed_close_keeps_the_registration Backend.rabbitmq Fixture.stuck
            "tasks"
            (mkRegistry {["tasks" := 0%nat]}
               (mkConnection true true 1 [(0%nat, "tasks")]))
            (mkRegistry {["tasks" := 0%nat]}
               (mkConnection true true 1 [(0%nat, "tasks")]))
            ClientError _).
  vm_compute. reflexivity.
Defined.

Lemma order_type_without_schema_uses_default :
  let checked :=
    SchemaCache.validateMessage (fun _ => "data must be object")
      Fixture.objectsOnly {["default" := Fixture.objectsOnly]}
      (JStr "order") (JStr "not an order") in
  checked.2
  = (SchemaCache.validateMessage (fun _ => "data must be object")
       Fixture.objectsOnly {["default" := Fixture.objectsOnly]}
       (JStr "default") (JStr "not an order")).2
  /\ is_Some (checked.1 !! "default")
  /\ (MessageValidator.valid checked.2 = false ->
      exists text, MessageValidator.error checked.2 = JStr text).
Proof.
  refine (unknown_message_type_uses_the_default_schema
            (fun _ => "data must be object") Fixture.objectsOnly
            {["default" := Fixture.objectsOnly]} (JStr "order")
            (JStr "not an order") _).
  reflexivity.
Defined.

End ShutdownSample.

(** * The outbound path, validation aside *)
Section Publishing.
Import KafkaProducer.
Context `{rt : Runtime} `{vd : Validator} `{cipher : Cipher} `{cl : Clients}.

(** The transaction id of the call takes precedence over a header of that
    name among the caller's. *)
Lemma headersOf_transaction_id options transactionId publishedAt :
  Js.get (headersOf options transactionId publishedAt) "x-transaction-id"
  = transactionId.
Proof.
  unfold headersOf, Js.get at 1.
  rewrite !lookup_insert_ne by done. by rewrite lookup_insert_eq.
Qed.

Lemma or_truthy a b : Js.truthy a = true -> Js.or a b = a.
Proof. intros Ha. unfold Js.or. by rewrite Ha. Qed.

Lemma or_falsy a b : Js.truthy a = false -> Js.or a b = b.
Proof. intros Ha. unfold Js.or. by rewrite Ha. Qed.

Lemma broadcastAndLog_brokers wsMessage broadcastTopics w :
  brokers (broadcastAndLog wsMessage broadcastTopics w).1 = brokers w.
Proof. unfold broadcastAndLog. by destruct broadcastTopics. Qed.

Lemma broadcastAndLog_hub wsMessage broadcastTopics w :
  hub (broadcastAndLog wsMessage broadcastTopics w).1
  = (WebSocketServer.broadcast wsMessage broadcastTopics (hub w)).1.
Proof. unfold broadcastAndLog. by destruct broadcastTopics. Qed.

Lemma broadcastAndLog_metrics wsMessage broadcastTopics w :
  metrics (broadcastAndLog wsMessage broadcastTopics w).1 = metrics w.
Proof. unfold broadcastAndLog. by destruct broadcastTopics. Qed.

(** X24.  Whenever [produceMessage] returns, with validation off, it has
    called the Kafka adapter once and exactly one record has gone out: the
    message, on the topic, with the transaction id of the call in its
    [x-transaction-id] header, whatever headers the caller supplied; and
    the result names the same transaction id, which is the caller's
    [options.transactionId] when there is one and a generated one
    otherwise. *)
Theorem produceMessage_returns_after_one_publish
    process iv topic message options clock random w result :
  (produceMessage false process iv topic message options clock random w).2
  = inr result ->
  let after :=
    (produceMessage false process iv topic message options clock random w).1 in
  let transactionId :=
    Js.or (Js.get options "transactionId")
          (JStr ("kafka-" ++ topic ++ "-" ++ Js.decimal (clock 0%nat)
                 ++ "-" ++ random)) in
  exists key headers,
    outbox (brokers after)
    = (outbox (brokers w) ++ [KafkaRecord topic message key headers])%list
    /\ calls (brokers after) = S (calls (brokers w))
    /\ Js.get headers "x-transaction-id" = transactionId
    /\ Js.prop result "transactionId" = Some transactionId
    /\ Js.prop result "success" = Some (JBool true).
Proof.
  unfold produceMessage, attempt.
  destruct (Date_toISOString (clock 1%nat)) as [e | publishedAt];
    [discriminate |].
  cbn [andb brokers record].
  match goal with
  | |- context [Broker.publishToKafka ?p ?i ?t ?m ?k ?h ?b0] =>
    destruct (publishToKafka_news p i t m k h b0) as (Hout & Hcalls & _);
    destruct (Broker.publishToKafka p i t m k h b0) as [b1 [e | v]]
  end; [discriminate |].
  cbn [fst snd returned] in Hout, Hcalls.
  destruct (Js.notFalse (Js.get options "broadcast")).
  - destruct (Date_toISOString (clock 2%nat)) as [e | timestamp];
      [discriminate |].
    match goal with
    | |- context [broadcastAndLog ?m ?t ?w0] =>
      pose proof (broadcastAndLog_brokers m t w0) as Hbrokers;
      destruct (broadcastAndLog m t w0) as [w1 [e | []]]
    end; [discriminate |].
    cbn [fst snd brokers record withBroker] in *. intros [= <-].
    rewrite Hbrokers. eexists _, _. split; [exact Hout |].
    split; [exact Hcalls |]. split; [apply headersOf_transaction_id |].
    split; reflexivity.
  - cbn [fst snd brokers record withBroker]. intros [= <-].
    eexists _, _. split; [exact Hout |].
    split; [exact Hcalls |]. split; [apply headersOf_transaction_id |].
    split; reflexivity.
Qed.

(** X25.  With the Kafka producer not connected and the clock in range,
    [produceMessage] throws the adapter's error at once: nothing is
    published, nothing is broadcast, and the failure is counted as a
    publish error. *)
Theorem produceMessage_fails_fast_without_producer
    process iv topic message options clock random w :
  producer (brokers w) = false ->
  (clock 1%nat <= Js.MAX_TIME)%N ->
  let after :=
    produceMessage false process iv topic message options clock random w in
  let messageType := Js.or (Js.get options "messageType") (JStr "unknown") in
  after.2 = inl (Error "Kafka producer not initialized")
  /\ outbox (brokers after.1) = outbox (brokers w)
  /\ hub after.1 = hub w
  /\ metrics after.1
     = (metrics w
        ++ [TimerStart "kafka" topic messageType "publish";
            MessagePublish "kafka" topic messageType "error";
            TimerEnd true])%list.
Proof.
  intros Hdown Hclock after messageType. subst after.
  unfold produceMessage, attempt.
  rewrite (Date_toISOString_in_range _ Hclock).
  cbn [andb]. unfold Broker.publishToKafka.
  cbn [brokers record withBroker Broker.called producer].
  rewrite Hdown. simpl. by rewrite <- app_assoc.
Qed.

(** X26.  A call can fail after its message has gone out: when the
    adapter's publish returns and [options.broadcastTopics] is set to
    something that is neither an array nor a buffer, and so has no [join],
    [produceMessage] publishes the record, counts the publish as a
    success, broadcasts the message, and then throws a [TypeError], which
    it counts as a publish error. *)
Theorem produceMessage_can_throw_after_publishing
    process iv topic message options clock random w :
  let transactionId :=
    Js.or (Js.get options "transactionId")
          (JStr ("kafka-" ++ topic ++ "-" ++ Js.decimal (clock 0%nat)
                 ++ "-" ++ random)) in
  let headers := headersOf options transactionId (toISOString (clock 1%nat)) in
  let key := Js.or (Js.get options "key") JNull in
  returned (Broker.publishToKafka process iv topic message key headers
              (brokers w)).2 = true ->
  (clock 1%nat <= Js.MAX_TIME)%N ->
  (clock 2%nat <= Js.MAX_TIME)%N ->
  Js.notFalse (Js.get options "broadcast") = true ->
  Js.truthy (Js.get options "broadcastTopics") = true ->
  (forall l, Js.get options "broadcastTopics" <> JArr l) ->
  (forall bytes, Js.get options "broadcastTopics" <> JBuf bytes) ->
  let after :=
    produceMessage false process iv topic message options clock random w in
  after.2 = inl TypeError
  /\ outbox (brokers after.1)
     = (outbox (brokers w)
        ++ [KafkaRecord topic message (Js.toStringOrNull key) headers])%list
  /\ exists messageType messageType',
       metrics after.1
       = (metrics w
          ++ [TimerStart "kafka" topic messageType' "publish";
              MessagePublish "kafka" topic messageType "success";
              TimerEnd false;
              MessagePublish "kafka" topic messageType' "error";
              TimerEnd true])%list.
Proof.
  intros transactionId headers key Hpublish Hclock1 Hclock2 Hbroadcast Htruthy
    Harray Hbuffer after.
  subst after. unfold produceMessage, attempt. fold transactionId.
  rewrite (Date_toISOString_in_range _ Hclock1).
  fold headers key. cbn [andb brokers record].
  destruct (publishToKafka_news process iv topic message key headers
              (brokers w)) as (Hout & _).
  destruct (Broker.publishToKafka process iv topic message key headers
              (brokers w)) as [b1 [e | v]]; [discriminate |].
  cbn [fst snd returned] in Hout.
  rewrite Hbroadcast, (Date_toISOString_in_range _ Hclock2).
  rewrite (or_truthy (Js.get options "broadcastTopics")) by done.
  match goal with
  | |- context [broadcastAndLog ?m ?t ?w0] =>
    pose proof (broadcastAndLog_brokers m t w0) as Hbrokers;
    pose proof (broadcastAndLog_metrics m t w0) as Hmetrics;
    assert (Hthrows : (broadcastAndLog m t w0).2 = inl TypeError);
    [| destruct (broadcastAndLog m t w0) as [w1 [e | []]];
       [| discriminate]]
  end.
  { unfold broadcastAndLog.
    destruct (Js.get options "broadcastTopics") eqn:Htopics; try done.
    - by destruct (Hbuffer bytes).
    - by destruct (Harray items). }
  cbn [fst snd brokers metrics record withBroker] in *.
  injection Hthrows as ->.
  split; [done |]. split; [by rewrite Hbrokers |].
  eexists _, _. rewrite Hmetrics, <- !app_assoc. reflexivity.
Qed.

(** X27.  A message [produceMessage] has published, with validation off
    and the default broadcast settings, reaches the observers of its topic:
    whenever the call returns, with the hub running, every client with an
    open socket that watches the topic has been handed one frame, the
    serialised broadcast message, which carries the message and the
    transaction id of the call. *)
Theorem published_message_reaches_the_observers_of_its_topic
    process iv topic message options clock random w i c result :
  (produceMessage false process iv topic message options clock random w).2
  = inr result ->
  Js.notFalse (Js.get options "broadcast") = true ->
  Js.truthy (Js.get options "broadcastTopics") = false ->
  WebSocketServer.wss (hub w) = true ->
  WebSocketServer.clients (hub w) !! i = Some c ->
  WebSocketServer.state (WebSocketServer.ws c) = WebSocketServer.OPEN ->
  topic ∈ WebSocketServer.topics c ->
  let after :=
    produceMessage false process iv topic message options clock random w in
  let transactionId :=
    Js.or (Js.get options "transactionId")
          (JStr ("kafka-" ++ topic ++ "-" ++ Js.decimal (clock 0%nat)
                 ++ "-" ++ random)) in
  Js.prop result "transactionId" = Some transactionId
  /\ exists frame c',
       WebSocketServer.clients (hub after.1) !! i = Some c'
       /\ WebSocketServer.received (JSON_stringify (JObj frame)) c c'
       /\ Js.get frame "transactionId" = transactionId
       /\ Js.get frame "message" = message
       /\ Js.get frame "topic" = JStr topic.
Proof.
  intros Hreturns Hbroadcast Hdefault Hwss Hi Hopen Hwatch after
    transactionId. subst after. revert Hreturns.
  unfold produceMessage, attempt. fold transactionId.
  destruct (Date_toISOString (clock 1%nat)) as [e | publishedAt];
    [discriminate |].
  cbn [andb brokers record].
  destruct (Broker.publishToKafka _ _ _ _ _ _ _) as [b1 [e | v]];
    [discriminate |].
  rewrite Hbroadcast.
  destruct (Date_toISOString (clock 2%nat)) as [e | timestamp];
    [discriminate |].
  rewrite (or_falsy (Js.get options "broadcastTopics")) by done.
  assert (Hsends : WebSocketServer.sends
                     (JArr [JStr topic; JStr "kafka"; JStr "all"]) c = true).
  { unfold WebSocketServer.sends. rewrite Hopen.
    apply negb_true_iff, andb_false_iff. right. apply negb_false_iff.
    apply hasMatchingTopic_spec; [done |]. left. exists topic.
    split; [left | done]. }
  unfold broadcastAndLog.
  cbn [hub record withBroker withHub fst snd].
  unfold WebSocketServer.broadcast. rewrite Hwss.
  match goal with
  | |- context [WebSocketServer.forEach (WebSocketServer.visit ?t ?f) ?cs 0] =>
    pose proof (forEach_lookup t f cs 0 i c Hi) as [k Hk];
    destruct (WebSocketServer.forEach (WebSocketServer.visit t f) cs 0)
      as [cs' sentCount] eqn:Hf
  end.
  cbn [fst snd hub withHub WebSocketServer.clients] in *.
  intros [= <-]. split; [reflexivity |].
  eexists _, _. split; [exact Hk |].
  split; [by apply visit_received |].
  repeat split; reflexivity.
Qed.

End Publishing.

(** * The publish endpoint *)
Section Endpoint.
Import MessageController.
Context `{rt : Runtime} `{vd : Validator} `{cipher : Cipher} `{cl : Clients}.

Lemma dispatch_not_bad_request
    process iv body user transactionId clock w w' reason errors :
  dispatch process iv body user transactionId clock w
  <> (w', BadRequest reason errors).
Proof.
  unfold dispatch.
  repeat match goal with
         | |- context [match ?x with _ => _ end] => destruct x
         end; discriminate.
Qed.

(** X28.  The publish endpoint answers 400 in three cases only: the
    destination is missing, the message is missing, or validation is on and
    the validator rejects the message; and whenever it answers 400 the
    world is as before: no adapter was called, nothing was published and
    nothing was broadcast. *)
Theorem bad_request_leaves_the_world_untouched
    (VALIDATE_MESSAGES : bool) process iv body user clock random w w' reason
    errors :
  publishMessage VALIDATE_MESSAGES process iv body user clock random w
  = (w', BadRequest reason errors) ->
  w' = w
  /\ (Js.truthy (Js.get body "destination") = false
      \/ Js.truthy (Js.get body "message") = false
      \/ (VALIDATE_MESSAGES = true
          /\ MessageValidator.valid
               (validateMessage
                  (Js.orDefault (Js.get body "messageType") (JStr "default"))
                  (Js.get body "message")) = false)).
Proof.
  unfold publishMessage.
  destruct (Js.truthy (Js.get body "destination")); simpl;
    [| intros [= <-]; by auto].
  destruct (Js.truthy (Js.get body "message")); simpl;
    [| intros [= <-]; by auto].
  destruct VALIDATE_MESSAGES; simpl.
  - destruct (MessageValidator.valid _); simpl.
    + intros Hd. by apply dispatch_not_bad_request in Hd.
    + intros [= <-]. by auto.
  - intros Hd. by apply dispatch_not_bad_request in Hd.
Qed.

End Endpoint.

Section PublishingSample.
Import KafkaProducer.
#[local] Existing Instance Sample.runtime.
#[local] Existing Instance Sample.validator.
#[local] Existing Instance Sample.cipher.
#[local] Existing Instance Sample.obliging.

Lemma order_is_published_once :
  let after :=
    (produceMessage false Sample.process Sample.iv "orders" (JObj ∅) ∅
       (fun _ => 1000%N) "k3x9" Sample.world).1 in
  let transactionId :=
    Js.or (Js.get (∅ : gmap string jsval) "transactionId")
          (JStr ("kafka-" ++ "orders" ++ "-" ++ Js.decimal 1000 ++ "-"
                 ++ "k3x9")) in
  exists key headers,
    outbox (brokers after)
    = (outbox (brokers Sample.world)
       ++ [KafkaRecord "orders" (JObj ∅) key headers])%list
    /\ calls (brokers after) = S (calls (brokers Sample.world))
    /\ Js.get headers "x-transaction-id" = transactionId
    /\ Js.prop
         (JObj (<["result" := JArr []]>
               (<["transactionId" := transactionId]>
               {["success" := JBool true]})))
         "transactionId" = Some transactionId
    /\ Js.prop
         (JObj (<["result" := JArr []]>
               (<["transactionId" := transactionId]>
               {["success" := JBool true]})))
         "success" = Some (JBool true).
Proof.
  refine (produceMessage_returns_after_one_publish Sample.process Sample.iv
            "orders" (JObj ∅) ∅ (fun _ => 1000%N) "k3x9" Sample.world _ _).
  vm_compute. reflexivity.
Defined.

Lemma order_fails_fast_without_producer :
  let w := mkWorld (mkBroker false true [] 0 []) Sample.server [] in
  let after :=
    produceMessage false Sample.process Sample.iv "orders" (JObj ∅) ∅
      (fun _ => 1000%N) "k3x9" w in
  let messageType :=
    Js.or (Js.get (∅ : gmap string jsval) "messageType") (JStr "unknown") in
  after.2 = inl (Error "Kafka producer not initialized")
  /\ outbox (brokers after.1) = outbox (brokers w)
  /\ hub after.1 = hub w
  /\ metrics after.1
     = (metrics w
        ++ [TimerStart "kafka" "orders" messageType "publish";
            MessagePublish "kafka" "orders" messageType "error";
            TimerEnd true])%list.
Proof.
  refine (produceMessage_fails_fast_without_producer Sample.process
            Sample.iv "orders" (JObj ∅) ∅ (fun _ => 1000%N) "k3x9"
            (mkWorld (mkBroker false true [] 0 []) Sample.server []) _ _).
  - reflexivity.
  - vm_compute. discriminate.
Defined.

Lemma order_with_a_string_for_topics_throws_after_publishing :
  let options : gmap string jsval := {["broadcastTopics" := JStr "orders"]} in
  let transactionId :=
    Js.or (Js.get options "transactionId")
          (JStr ("kafka-" ++ "orders" ++ "-" ++ Js.decimal 1000 ++ "-"
                 ++ "k3x9")) in
  let headers := headersOf options transactionId (toISOString 1000) in
  let key := Js.or (Js.get options "key") JNull in
  let after :=
    produceMessage false Sample.process Sample.iv "orders" (JObj ∅) options
      (fun _ => 1000%N) "k3x9" Sample.world in
  after.2 = inl TypeError
  /\ outbox (brokers after.1)
     = (outbox (brokers Sample.world)
        ++ [KafkaRecord "orders" (JObj ∅) (Js.toStringOrNull key) headers])%list
  /\ exists messageType messageType',
       metrics after.1
       = (metrics Sample.world
          ++ [TimerStart "kafka" "orders" messageType' "publish";
              MessagePublish "kafka" "orders" messageType "success";
              TimerEnd false;
              MessagePublish "kafka" "orders" messageType' "error";
              TimerEnd true])%list.
Proof.
  refine (produceMessage_can_throw_after_publishing Sample.process Sample.iv
            "orders" (JObj ∅) {["broadcastTopics" := JStr "orders"]}
            (fun _ => 1000%N) "k3x9" Sample.world _ _ _ _ _ _ _).
  - reflexivity.
  - vm_compute. discriminate.
  - vm_compute. discriminate.
  - reflexivity.
  - reflexivity.
  - intros l. vm_compute. discriminate.
  - intros bytes. vm_compute. discriminate.
Defined.

Lemma published_order_reaches_the_observer_of_orders :
  let after :=
    produceMessage false Sample.process Sample.iv "orders" (JObj ∅) ∅
      (fun _ => 1000%N) "k3x9" Sample.world in
  let transactionId :=
    Js.or (Js.get (∅ : gmap string jsval) "transactionId")
          (JStr ("kafka-" ++ "orders" ++ "-" ++ Js.decimal 1000 ++ "-"
                 ++ "k3x9")) in
  Js.prop
    (JObj (<["result" := JArr []]>
          (<["transactionId" := transactionId]>
          {["success" := JBool true]})))
    "transactionId" = Some transactionId
  /\ exists frame c',
       WebSocketServer.clients (hub after.1) !! 0%nat = Some c'
       /\ WebSocketServer.received (JSON_stringify (JObj frame))
            (Sample.observer "a" ["orders"]) c'
       /\ Js.get frame "transactionId" = transactionId
       /\ Js.get frame "message" = JObj ∅
       /\ Js.get frame "topic" = JStr "orders".
Proof.
  refine (published_message_reaches_the_observers_of_its_topic
            Sample.process Sample.iv "orders" (JObj ∅) ∅ (fun _ => 1000%N)
            "k3x9" Sample.world 0%nat (Sample.observer "a" ["orders"]) _
            _ _ _ _ _ _ _).
  - vm_compute. reflexivity.
  - reflexivity.
  - reflexivity.
  - reflexivity.
  - reflexivity.
  - reflexivity.
  - vm_compute. left.
Defined.

(** Under the key of the test setup, which the cipher refuses, and with
    encryption on, the call throws before anything is sent. *)
Example order_is_not_published_under_the_test_key :
  let after :=
    produceMessage false Fixture.testing Sample.iv "orders" (JObj ∅) ∅
      (fun _ => 1000%N) "k3x9" Sample.world in
  after.2 = inl (Error "Failed to encrypt data")
  /\ outbox (brokers after.1) = []
  /\ hub after.1 = hub Sample.world.
Proof. vm_compute. done. Qed.

Lemma request_without_destination_is_refused :
  Sample.world = Sample.world
  /\ (Js.truthy (Js.get ({["message" := JObj ∅]} : gmap string jsval)
                   "destination") = false
      \/ Js.truthy (Js.get ({["message" := JObj ∅]} : gmap string jsval)
                      "message") = false
      \/ (true = true
          /\ MessageValidator.valid
               (validateMessage
                  (Js.orDefault
                     (Js.get ({["message" := JObj ∅]} : gmap string jsval)
                        "messageType")
                     (JStr "default"))
                  (Js.get ({["message" := JObj ∅]} : gmap string jsval)
                     "message")) = false)).
Proof.
  refine (bad_request_leaves_the_world_untouched true Sample.process
            Sample.iv {["message" := JObj ∅]} JUndefined (fun _ => 1000%N)
            "k3x9" Sample.world Sample.world "Destination is required"
            JUndefined _).
  reflexivity.
Defined.

End PublishingSample.

(** * The RabbitMQ producers *)
Section QueueProducers.
Import RabbitMQProducer.
Context `{rt : Runtime} `{vd : Validator} `{ip : InPlace} `{cipher : Cipher}
  `{cl : Clients}.

(** X29.  Both RabbitMQ producers refuse a message the validator rejects
    when validation is on and [options.requireValidation] is set: the call
    throws the validation error before anything else happens, so that the
    broker is as before and nothing is broadcast. *)
Theorem invalid_message_is_rejected_by_the_rabbitmq_producers
    process iv exchange routingKey queue message options clock random
    random' w :
  let result :=
    validateMessage (Js.or (Js.get options "messageType") (JStr "default"))
      message in
  MessageValidator.valid result = false ->
  Js.truthy (Js.get options "requireValidation") = true ->
  let failure : outcome jsval :=
    inl (Error ("Message validation failed: "
                ++ Js.toString (MessageValidator.error result))) in
  let toExchange :=
    produceToExchange true process iv exchange routingKey message options
      clock random random' w in
  let toQueue :=
    produceToQueue true process iv queue message options clock random
      random' w in
  toExchange.2 = failure
  /\ brokers toExchange.1 = brokers w
  /\ hub toExchange.1 = hub w
  /\ toQueue.2 = failure
  /\ brokers toQueue.1 = brokers w
  /\ hub toQueue.1 = hub w.
Proof.
  intros result Hinvalid Hrequire failure toExchange toQueue.
  subst toExchange toQueue failure.
  unfold produceToExchange, produceToQueue, timed, attempt.
  fold result. rewrite Hinvalid, Hrequire. simpl. done.
Qed.

End QueueProducers.

(** * The answer of the publish endpoint *)
Section Answer.
Import MessageController.
Context `{rt : Runtime} `{vd : Validator} `{cipher : Cipher} `{cl : Clients}.

(** X30.  When the publish endpoint answers 200, with validation off, one
    record has gone out and no more; the answer names the destination of
    the request and the transaction id made of the time of the request;
    and for any protocol but [rabbitmq] the record is a Kafka record of the
    message of the request that carries that transaction id in its
    [x-transaction-id] header. *)
Theorem published_answer_follows_one_publish
    process iv body user clock random w w' transactionId destination protocol
    answered :
  publishMessage false process iv body user clock random w
  = (w', Published transactionId destination protocol answered) ->
  transactionId = "tx-" ++ Js.decimal (clock 0%nat) ++ "-" ++ random
  /\ destination = Js.get body "destination"
  /\ exists r,
       outbox (brokers w') = (outbox (brokers w) ++ [r])%list
       /\ (protocol <> "rabbitmq" ->
           exists topic key headers,
             r = KafkaRecord topic (Js.get body "message") key headers
             /\ Js.get headers "x-transaction-id" = JStr transactionId).
Proof.
  unfold publishMessage.
  destruct (negb (Js.truthy (Js.get body "destination"))); [discriminate |].
  destruct (negb (Js.truthy (Js.get body "message"))); [discriminate |].
  cbn [andb]. unfold dispatch.
  destruct (Js.get body "destination") as [| | | | name | | |];
    try discriminate.
  destruct (parseDestination name) as [protocol' dest].
  destruct (Date_toISOString (clock 1%nat)) as [e | publishedAt];
    [discriminate |].
  set (messageHeaders := <["x-message-type" := _]> _).
  set (publishOptions := _ ∪ _).
  match goal with
  | |- context [let '(b, r) := ?sent in _] =>
    assert (Hsent : forall b v,
              sent = (b, inr v) ->
              exists r,
                outbox b = (outbox (brokers w) ++ [r])%list
                /\ (protocol' <> "rabbitmq" ->
                    exists topic key headers,
                      r = KafkaRecord topic (Js.get body "message") key
                            headers
                      /\ Js.get headers "x-transaction-id"
                         = JStr ("tx-" ++ Js.decimal (clock 0%nat) ++ "-"
                                 ++ random)));
    [| destruct sent as [b [e | v]] eqn:Hs; [discriminate |];
       specialize (Hsent b v eq_refl)]
  end.
  { intros b v. destruct (String.eqb protocol' "rabbitmq") eqn:Hproto.
    - apply String.eqb_eq in Hproto.
      destruct (Js.prop _ "directQueue") as [directQueue |];
        [| discriminate].
      destruct (Js.truthy directQueue); intros Hp.
      + match type of Hp with
        | Broker.publishToQueue ?p ?i ?q ?m ?o ?b0 = _ =>
          destruct (publishToQueue_news p i q m o b0) as [Hreturns _]
        end.
        rewrite Hp in Hreturns. destruct (Hreturns eq_refl) as [Hr _].
        eexists. split; [exact Hr |]. done.
      + match type of Hp with
        | Broker.publishToRabbitMQ ?p ?i ?x ?k ?m ?o ?b0 = _ =>
          destruct (publishToRabbitMQ_news p i x k m o b0) as [Hreturns _]
        end.
        rewrite Hp in Hreturns. eexists. split; [exact (Hreturns eq_refl) |].
        done.
    - destruct (Js.prop _ "key") as [key |]; [| discriminate].
      intros Hp.
      match type of Hp with
      | Broker.publishToKafka ?p ?i ?t ?m ?k ?h ?b0 = _ =>
        destruct (publishToKafka_news p i t m k h b0) as [Hout _]
      end.
      rewrite Hp in Hout. simpl in Hout.
      eexists. split; [exact Hout |]. intros _. eexists _, _, _.
      split; [reflexivity |].
      subst messageHeaders. unfold Js.get at 1.
      rewrite !lookup_insert_ne by done. by rewrite lookup_insert_eq. }
  destruct (Js.notFalse _).
  - destruct (Date_toISOString (clock 2%nat)) as [e | timestamp];
      [discriminate |].
    match goal with
    | |- context [broadcastAndLog ?m ?t ?w0] =>
      pose proof (broadcastAndLog_brokers m t w0) as Hbrokers;
      destruct (broadcastAndLog m t w0) as [w1 [e | []]]
    end; [discriminate |].
    destruct (Date_toISOString (clock 3%nat)); [discriminate |].
    intros [= <- <- <- <- <-]. simpl in Hbrokers. rewrite Hbrokers.
    split; [done |]. split; [done |]. exact Hsent.
  - destruct (Date_toISOString (clock 3%nat)); [discriminate |].
    intros [= <- <- <- <- <-]. simpl.
    split; [done |]. split; [done |]. exact Hsent.
Qed.

End Answer.

Section AnswerSample.
#[local] Existing Instance Sample.runtime.
#[local] Existing Instance Sample.validator.
#[local] Existing Instance Sample.cipher.
#[local] Existing Instance Sample.obliging.
#[local] Existing Instance Fixture.untouched.

Lemma text_is_rejected_by_the_rabbitmq_producers :
  let options : gmap string jsval := {["requireValidation" := JBool true]} in
  let failure : outcome jsval :=
    inl (Error ("Message validation failed: "
                ++ Js.toString (JStr "data must be object"))) in
  let toExchange :=
    RabbitMQProducer.produceToExchange true Sample.process Sample.iv "events"
      "task.created" (JStr "not a task") options (fun _ => 1000%N) "k3x9"
      "m4y2" Sample.world in
  let toQueue :=
    RabbitMQProducer.produceToQueue true Sample.process Sample.iv "tasks"
      (JStr "not a task") options (fun _ => 1000%N) "k3x9" "m4y2"
      Sample.world in
  toExchange.2 = failure
  /\ brokers toExchange.1 = brokers Sample.world
  /\ hub toExchange.1 = hub Sample.world
  /\ toQueue.2 = failure
  /\ brokers toQueue.1 = brokers Sample.world
  /\ hub toQueue.1 = hub Sample.world.
Proof.
  refine (invalid_message_is_rejected_by_the_rabbitmq_producers
            Sample.process Sample.iv "events" "task.created" "tasks"
            (JStr "not a task")
            {["requireValidation" := JBool true]} (fun _ => 1000%N) "k3x9"
            "m4y2" Sample.world _ _).
  - reflexivity.
  - reflexivity.
Defined.

Lemma order_request_is_answered_after_one_publish :
  let body : gmap string jsval :=
    <["message" := JObj ∅]> {["destination" := JStr "orders"]} in
  let w' :=
    (MessageController.publishMessage false Sample.process Sample.iv body
       JUndefined (fun _ => 1000%N) "k3x9" Sample.world).1 in
  "tx-1000-k3x9" = "tx-" ++ Js.decimal 1000 ++ "-" ++ "k3x9"
  /\ JStr "orders" = Js.get body "destination"
  /\ exists r,
       outbox (brokers w') = (outbox (brokers Sample.world) ++ [r])%list
       /\ ("kafka" <> "rabbitmq" ->
           exists topic key headers,
             r = KafkaRecord topic (Js.get body "message") key headers
             /\ Js.get headers "x-transaction-id" = JStr "tx-1000-k3x9").
Proof.
  refine (published_answer_follows_one_publish Sample.process Sample.iv
            (<["message" := JObj ∅]> {["destination" := JStr "orders"]})
            JUndefined (fun _ => 1000%N) "k3x9" Sample.world _
            "tx-1000-k3x9" (JStr "orders") "kafka" "1000" _).
  vm_compute. reflexivity.
Defined.

End AnswerSample.
